(** * rs_ngmo2: validated command dispatch and triggered sampling

    A shallow embedding of [rs_ngmo2.py] (the driver of a dual-channel
    programmable power supply on a SCPI bus): the [Validate] family, the
    [Command] dispatcher, the [Common] / [Status] / [Log] accessors that
    [Log.start_sample] is built from, and the constructors and accessors
    of [Channel], [Measure], [Trigger], [Relay], [Display], [Format] and
    [Device].

    Python values are a tagged union, the run-time built-ins the driver
    calls ([str], [repr], [int], [float], [round], [str.lower], [in],
    numpy's [array] and [arange]) are executable definitions following
    CPython 3.11, the bus is a mock transport that records every
    operation, and the driver's methods are programs of a
    state-and-exception monad. *)

From Stdlib Require Import ZArith String Ascii List Bool Lia.
From Stdlib Require Import Numbers.DecimalString Floats.SpecFloat.
From stdpp Require Import gmap strings.

Local Open Scope Z_scope.

(* ================================================================== *)
(** ** Text built-ins *)
(* ================================================================== *)

(** A [string] stands for a Python [str] whose code points are all below
    256, one character for each code point. *)
Module Text.

Definition is_upper (c : ascii) : bool :=
  let n := N_of_ascii c in ((65 <=? n) && (n <=? 90))%N.

Definition is_lower (c : ascii) : bool :=
  let n := N_of_ascii c in ((97 <=? n) && (n <=? 122))%N.

Definition lower_char (c : ascii) : ascii :=
  if is_upper c then ascii_of_N (N_of_ascii c + 32) else c.

Definition upper_char (c : ascii) : ascii :=
  if is_lower c then ascii_of_N (N_of_ascii c - 32) else c.

Fixpoint map_chars (f : ascii -> ascii) (s : string) : string :=
  match s with
  | EmptyString => EmptyString
  | String c s' => String (f c) (map_chars f s')
  end.

(** [s.lower()] and [s.upper()], folding the letters A-Z and a-z.  No
    other code point below 256 lower-cases to an ASCII character, and
    the tuples of the driver are ASCII text, so the search of a
    validator finds what it finds under [str.lower]; [upper] is applied
    to text found in such a tuple only. *)
Definition lower : string -> string := map_chars lower_char.
Definition upper : string -> string := map_chars upper_char.

Fixpoint all_chars (p : ascii -> bool) (s : string) : bool :=
  match s with
  | EmptyString => true
  | String c s' => p c && all_chars p s'
  end.

Definition is_ascii : string -> bool :=
  all_chars (fun c => (N_of_ascii c <? 128)%N).

(** Text that [repr] prints as it is between single quotes: printable
    ASCII characters other than the quote and the backslash. *)
Definition is_plain_char (c : ascii) : bool :=
  let n := N_of_ascii c in
  ((32 <=? n) && (n <=? 126) && negb (n =? 39) && negb (n =? 92))%N.

Definition plain : string -> bool := all_chars is_plain_char.

Fixpoint starts_with (p s : string) : bool :=
  match p, s with
  | EmptyString, _ => true
  | String a p', String b s' => Ascii.eqb a b && starts_with p' s'
  | String _ _, EmptyString => false
  end.

(** [x in y] for two [str] operands: [x] occurs in [y] as a
    contiguous substring. *)
Fixpoint contains (x y : string) : bool :=
  starts_with x y ||
  match y with
  | EmptyString => false
  | String _ y' => contains x y'
  end.

(** [s.split(c)] for a one-character separator: always at least one
    piece, empty pieces kept. *)
Fixpoint split_on (c : ascii) (s : string) : list string :=
  match s with
  | EmptyString => [EmptyString]
  | String a s' =>
      if Ascii.eqb a c then EmptyString :: split_on c s'
      else match split_on c s' with
           | [] => [String a EmptyString]
           | p :: ps => String a p :: ps
           end
  end.

(** The white space [int()] and [float()] skip around a literal: tab to
    carriage return, and the space. *)
Definition is_space (c : ascii) : bool :=
  let n := N_of_ascii c in
  (((9 <=? n) && (n <=? 13)) || (n =? 32))%N.

Fixpoint lstrip (s : string) : string :=
  match s with
  | String c s' => if is_space c then lstrip s' else s
  | EmptyString => EmptyString
  end.

Fixpoint rstrip (s : string) : string :=
  match s with
  | EmptyString => EmptyString
  | String c s' =>
      match rstrip s' with
      | EmptyString => if is_space c then EmptyString else String c EmptyString
      | r => String c r
      end
  end.

Definition strip (s : string) : string := rstrip (lstrip s).

(** What [int()] and [float()] make of a [str] that is not ASCII before
    they read it: the code points 133 and 160 (white space) become
    spaces, and the text is cut, with a question mark, at the first
    other code point from 127 on. *)
Fixpoint to_literal (s : string) : string :=
  match s with
  | EmptyString => EmptyString
  | String c s' =>
      let n := N_of_ascii c in
      if (n <? 127)%N then String c (to_literal s')
      else if ((n =? 133) || (n =? 160))%N then String " " (to_literal s')
      else "?"
  end.

Definition literal_text (s : string) : string :=
  if is_ascii s then s else to_literal s.

Fixpoint join (sep : string) (l : list string) : string :=
  match l with
  | [] => EmptyString
  | [x] => x
  | x :: xs => x +:+ sep +:+ join sep xs
  end.

(** Decimal text of an integer: [str(n)] for an [int]. *)
Definition of_Z (z : Z) : string := NilZero.string_of_int (Z.to_int z).

Definition digit_of (c : ascii) : option Z :=
  let n := N_of_ascii c in
  if ((48 <=? n) && (n <=? 57))%N then Some (Z.of_N n - 48) else None.

Definition of_nat_digits (n : nat) (z : Z) : string :=
  (* [z] written with at least [n] digits, zero padded on the left *)
  let s := of_Z z in
  String.concat EmptyString (repeat "0" (n - String.length s)%nat) +:+ s.

End Text.

(* ================================================================== *)
(** ** Numeric built-ins: [int], [float], [round], [repr], numpy *)
(* ================================================================== *)

(** A Python [float] is an IEEE-754 binary64 value, a numpy ['f'] element
    a binary32 value; both are [spec_float]s in canonical form, computed
    with the IEEE operations of [SpecFloat]. *)
Module Num.

Abbreviation float := spec_float (only parsing).

Definition prec64 : Z := 53.
Definition emax64 : Z := 1024.
Definition prec32 : Z := 24.
Definition emax32 : Z := 128.

Definition fadd : float -> float -> float := SFadd prec64 emax64.
Definition fsub : float -> float -> float := SFsub prec64 emax64.
Definition fmul : float -> float -> float := SFmul prec64 emax64.
Definition fdiv : float -> float -> float := SFdiv prec64 emax64.
Definition feqb : float -> float -> bool := SFeqb.

(** The binary64 nearest to the rational [p / q] ([0 <= p], [0 < q]),
    negated when [neg]: one correctly rounded division. *)
Definition of_ratio (neg : bool) (p q : Z) : float :=
  match p, q with
  | Z0, _ => S754_zero neg
  | Zpos p', Zpos q' =>
      fdiv (S754_finite neg p' 0) (S754_finite false q' 0)
  | _, _ => S754_nan
  end.

(** [float(n)] for an [int]: round to nearest, ties to even. *)
Definition of_Z (z : Z) : float :=
  binary_normalize prec64 emax64 z 0 false.

Definition is_zero (x : float) : bool :=
  match x with S754_zero _ => true | _ => false end.

Definition is_nan (x : float) : bool :=
  match x with S754_nan => true | _ => false end.

Definition is_finite (x : float) : bool :=
  match x with S754_zero _ | S754_finite _ _ _ => true | _ => false end.

(** The exact value of a finite float, as numerator and (positive)
    denominator of its magnitude. *)
Definition magnitude (m : positive) (e : Z) : Z * Z :=
  if 0 <=? e then (Zpos m * 2 ^ e, 1) else (Zpos m, 2 ^ (- e)).

(** Integer nearest to [p / q], ties to the even one ([0 <= p], [0 < q]). *)
Definition div_half_even (p q : Z) : Z :=
  let d := p / q in
  let r := p mod q in
  match 2 * r ?= q with
  | Lt => d
  | Gt => d + 1
  | Eq => if Z.even d then d else d + 1
  end.

(** [round(x, ndigits)] on a [float]: the decimal rounding of the exact
    value (ties to even), converted back to the nearest binary64.  (The
    driver rounds to 2, 3 and 5 digits.  For a negative [ndigits] the
    rounded value can exceed the largest float; Python then raises
    [OverflowError] where this function gives an infinity.) *)
Definition round (x : float) (ndigits : Z) : float :=
  match x with
  | S754_finite s m e =>
      let '(p, q) := magnitude m e in
      if 0 <=? ndigits
      then of_ratio s (div_half_even (p * 10 ^ ndigits) q) (10 ^ ndigits)
      else of_ratio s (div_half_even p (q * 10 ^ (- ndigits)) * 10 ^ (- ndigits)) 1
  | _ => x
  end.

(** [math.ceil] of a finite float. *)
Definition ceil (x : float) : Z :=
  match x with
  | S754_finite s m e =>
      let '(p, q) := magnitude m e in
      if s then - (p / q) else - ((- p) / q)
  | _ => 0
  end.

(** *** Literals: [int(s)] and [float(s)] *)

Definition is_digit (c : ascii) : bool :=
  match Text.digit_of c with Some _ => true | None => false end.

(** A run of decimal digits, single underscores allowed between two
    digits: the value read so far, how many digits, and what is left. *)
Fixpoint digits (s : string) (acc : Z) (n : nat) : Z * nat * string :=
  match s with
  | EmptyString => (acc, n, s)
  | String c s' =>
      match Text.digit_of c with
      | Some d => digits s' (acc * 10 + d) (S n)
      | None =>
          if Ascii.eqb c "_" && negb (Nat.eqb n 0) then
            match s' with
            | String c' _ => if is_digit c' then digits s' acc n else (acc, n, s)
            | EmptyString => (acc, n, s)
            end
          else (acc, n, s)
      end
  end.

Definition sign (s : string) : bool * string :=
  match s with
  | String "-" s' => (true, s')
  | String "+" s' => (false, s')
  | _ => (false, s)
  end.

(** An integer literal in base ten: its value and how many digits it
    has; [None] when the text is no such literal. *)
Definition int_literal (s : string) : option (Z * nat) :=
  let '(neg, body) := sign (Text.strip (Text.literal_text s)) in
  match digits body 0 0 with
  | (_, O, _) => None
  | (v, n, EmptyString) => Some (if neg then - v else v, n)
  | _ => None
  end.

(** [sys.get_int_max_str_digits()]: the longest literal [int()] converts
    (CPython 3.11; releases without the limit convert longer ones too). *)
Definition max_str_digits : Z := 4300.

(** [int(s)] in base ten; [None] where Python raises [ValueError]. *)
Definition int_of_string (s : string) : option Z :=
  match int_literal s with
  | Some (v, n) => if Z.of_nat n <=? max_str_digits then Some v else None
  | None => None
  end.

(** The digits and underscores a literal starts with, as [int()] scans
    them before it looks at anything else: how many digits, and whether
    the underscores are in place (none in front, none at the end, no two
    in a row). *)
Fixpoint digit_run (s : string) (n : Z) (after_underscore : bool) : Z * bool :=
  match s with
  | EmptyString => (n, negb after_underscore)
  | String c s' =>
      if is_digit c then digit_run s' (n + 1) false
      else if Ascii.eqb c "_" then
        if after_underscore then (n, false) else digit_run s' n true
      else (n, negb after_underscore)
  end.

(** How many digits [int(s)] complains about, when it is their number it
    refuses. *)
Definition over_limit (s : string) : option Z :=
  let '(_, body) := sign (Text.strip (Text.literal_text s)) in
  let '(n, ok) := digit_run body 0 true in
  if ok && (max_str_digits <? n) then Some n else None.

Definition exponent (s : string) : option (Z * string) :=
  match s with
  | String c s' =>
      if Ascii.eqb c "e" || Ascii.eqb c "E" then
        let '(neg, body) := sign s' in
        match digits body 0 0 with
        | (_, O, _) => None
        | (v, _, rest) => Some (if neg then - v else v, rest)
        end
      else Some (0, s)
  | EmptyString => Some (0, s)
  end.

Definition decimal (neg : bool) (body : string) : option float :=
  let '(ip, ni, rest) := digits body 0 0 in
  let '(m, nf, rest') :=
    match rest with
    | String "." frac =>
        let '(v, n, r) := digits frac ip 0 in
        (* a digit run never starts with an underscore *)
        (v, n, r)
    | _ => (ip, O, rest)
    end in
  if Nat.eqb (ni + nf) 0 then None
  else match exponent rest' with
       | Some (ex, EmptyString) =>
           let k := ex - Z.of_nat nf in
           Some (if 0 <=? k then of_ratio neg (m * 10 ^ k) 1
                 else of_ratio neg m (10 ^ (- k)))
       | _ => None
       end.

(** [float(s)]; [None] where Python raises [ValueError]. *)
Definition float_of_string (s : string) : option float :=
  let '(neg, body) := sign (Text.strip (Text.literal_text s)) in
  let word := Text.lower body in
  if String.eqb word "inf" || String.eqb word "infinity"
  then Some (S754_infinity neg)
  else if String.eqb word "nan" then Some S754_nan
  else decimal neg body.

(** *** [repr(x)] / [str(x)] of a [float] *)

(** How many decimal digits [p > 0] has. *)
Definition decimal_length (p : Z) : Z :=
  Z.of_nat (String.length (Text.of_Z p)).

(** [floor (log10 (p / q))] for [0 < p], [0 < q]. *)
Definition floor_log10 (p q : Z) : Z :=
  let k := decimal_length p - decimal_length q in
  let above := if 0 <=? k then 10 ^ k * q <=? p else q <=? p * 10 ^ (- k) in
  if above then k else k - 1.

(** The binary64 nearest to [c * 10 ^ (- scale)]. *)
Definition of_scaled (c scale : Z) : float :=
  if 0 <=? scale then of_ratio false c (10 ^ scale)
  else of_ratio false (c * 10 ^ (- scale)) 1.

(** The two [n]-digit decimals around [p / q], the nearer one first, the
    even one first when [p / q] lies half way. *)
Definition neighbours (p q k n : Z) : Z * Z * Z :=
  let scale := n - 1 - k in
  let '(a, b) := if 0 <=? scale then (p * 10 ^ scale, q)
                 else (p, q * 10 ^ (- scale)) in
  let lo := a / b in
  let r := a mod b in
  match 2 * r ?= b with
  | Lt => (lo, lo + 1, scale)
  | Gt => (lo + 1, lo, scale)
  | Eq => if Z.even lo then (lo, lo + 1, scale) else (lo + 1, lo, scale)
  end.

(** The shortest decimal that reads back as [S754_finite false m e]:
    its digits as an integer [c] and the scale, value [c / 10 ^ scale]. *)
Fixpoint shortest (fuel : nat) (m : positive) (e : Z) (p q k n : Z) : Z * Z :=
  let '(c1, c2, scale) := neighbours p q k n in
  let x := S754_finite false m e in
  match fuel with
  | O => (c1, scale)
  | S fuel' =>
      if feqb (of_scaled c1 scale) x then (c1, scale)
      else if (0 <? c2) && feqb (of_scaled c2 scale) x then (c2, scale)
      else shortest fuel' m e p q k (n + 1)
  end.

Fixpoint strip_zeros (fuel : nat) (c scale : Z) : Z * Z :=
  match fuel with
  | O => (c, scale)
  | S fuel' =>
      if (c mod 10 =? 0) && negb (c =? 0)
      then strip_zeros fuel' (c / 10) (scale - 1) else (c, scale)
  end.

Definition zeros (n : Z) : string :=
  String.concat EmptyString (repeat "0" (Z.to_nat n)).

(** The layout of [repr]: positional when the decimal point falls in
    [-4 < decpt <= 16], scientific otherwise. *)
Definition layout (ds : string) (decpt : Z) : string :=
  let nd := Z.of_nat (String.length ds) in
  if (-4 <? decpt) && (decpt <=? 16) then
    if decpt <=? 0 then "0." +:+ zeros (- decpt) +:+ ds
    else if nd <=? decpt then ds +:+ zeros (decpt - nd) +:+ ".0"
    else String.substring 0 (Z.to_nat decpt) ds +:+ "." +:+
         String.substring (Z.to_nat decpt) (Z.to_nat (nd - decpt)) ds
  else
    let ex := decpt - 1 in
    let mant := match ds with
                | String d EmptyString => ds
                | String d rest => String d ("." +:+ rest)
                | EmptyString => ds
                end in
    mant +:+ "e" +:+ (if ex <? 0 then "-" else "+") +:+
    Text.of_nat_digits 2 (Z.abs ex).

Definition repr (x : float) : string :=
  match x with
  | S754_nan => "nan"
  | S754_infinity s => if s then "-inf" else "inf"
  | S754_zero s => if s then "-0.0" else "0.0"
  | S754_finite s m e =>
      let '(p, q) := magnitude m e in
      let k := floor_log10 p q in
      let '(c, scale) := shortest 17 m e p q k 1 in
      let '(c', scale') := strip_zeros 20 c scale in
      let ds := Text.of_Z c' in
      let decpt := Z.of_nat (String.length ds) - scale' in
      (if s then "-" else EmptyString) +:+ layout ds decpt
  end.

(** *** numpy *)

(** The cast of a binary64 to numpy's ['f'] (binary32). *)
Definition to_f32 (x : float) : float :=
  match x with
  | S754_finite s m e => binary_round prec32 emax32 s m e
  | _ => x
  end.

Inductive dtype := Float32 | Float64.

Record ndarray := { nd_dtype : dtype; nd_data : list spec_float }.

(** The pieces converted in order: the elements, or the first piece
    that is no number. *)
Fixpoint parse_all (l : list string) : string + list float :=
  match l with
  | [] => inr []
  | s :: l' =>
      match float_of_string s with
      | None => inl s
      | Some x =>
          match parse_all l' with
          | inr xs => inr (to_f32 x :: xs)
          | inl bad => inl bad
          end
      end
  end.

(** [np.array(l, dtype='f')] on a list of [str]: the array, or the piece
    on which numpy raises the [ValueError] of [float]. *)
Definition array_f (l : list string) : string + ndarray :=
  match parse_all l with
  | inr xs => inr {| nd_dtype := Float32; nd_data := xs |}
  | inl bad => inl bad
  end.

Inductive arange_error := ZeroStep | NoLength | TooLarge | TooBig | NoMemory.

Definition intp_max : Z := 2 ^ 63 - 1.

(** The size of a [float64] element, in bytes. *)
Definition itemsize : Z := 8.

(** [np.arange(start, stop, step)] on floats, with [room] bytes left to
    allocate.  The length is [ceil((stop - start) / step)], or one when
    the quotient of a non-zero span is a positive zero; a length that is
    not positive gives the empty array; a longer array must fit the
    address space and then the room.  The first two entries are [start]
    and [start + step], entry [i] from the third on is
    [start + i * delta] with [delta] the difference of the first two.
    (A quotient of exactly [2 ^ 63] is refused here; numpy passes it on
    to a conversion that C leaves undefined.) *)
Definition arange (room : Z) (start stop step : float) : arange_error + ndarray :=
  if is_zero step then inl ZeroStep
  else
    let span := fsub stop start in
    let q := fdiv span step in
    if is_nan q then inl NoLength
    else if negb (is_finite q) then inl TooLarge
    else
      let len := match q with
                 | S754_zero s => if is_zero span || s then 0 else 1
                 | _ => ceil q
                 end in
      if (intp_max <? len) || (len <? - intp_max - 1) then inl TooLarge
      else if len <=? 0 then inr {| nd_dtype := Float64; nd_data := [] |}
      else if intp_max <? itemsize * len then inl TooBig
      else if room <? itemsize * len then inl NoMemory
      else
        let next := fadd start step in
        let delta := fsub next start in
        let entry (i : nat) : float :=
          match i with
          | O => start
          | S O => next
          | _ => fadd start (fmul (of_Z (Z.of_nat i)) delta)
          end in
        inr {| nd_dtype := Float64;
               nd_data := List.map entry (seq 0 (Z.to_nat len)) |}.

End Num.

(* ================================================================== *)
(** ** Python values *)
(* ================================================================== *)

(** A newline, and the escape character of the ANSI colour codes. *)
Definition nl : string := String (ascii_of_nat 10) EmptyString.
Definition esc : string := String (ascii_of_nat 27) EmptyString.

(** The values the driver's accessors can be called with.  [VObject] is
    an instance of any class other than the five named ones, with its
    class name and its [str()]. *)
Inductive pyobj :=
  | VNone
  | VBool (b : bool)
  | VInt (z : Z)
  | VFloat (x : spec_float)
  | VStr (s : string)
  | VObject (cls : string) (text : string).

(** Exceptions that propagate (as opposed to the error objects the
    validators hand back as ordinary return values). *)
Inductive exn :=
  | RaisedTypeError (msg : string)
  | RaisedValueError (msg : string)
  | RaisedKeyError (key : string)
  | RaisedOverflowError (msg : string)
  | RaisedZeroDivisionError
  | RaisedMemoryError
  | RaisedVisaIOError.

Module Py.

Definition class_name (v : pyobj) : string :=
  match v with
  | VNone => "NoneType"
  | VBool _ => "bool"
  | VInt _ => "int"
  | VFloat _ => "float"
  | VStr _ => "str"
  | VObject c _ => c
  end.

(** [str(type(v))], also what [format] prints for a class. *)
Definition class_text (name : string) : string := "<class '" +:+ name +:+ "'>".

(** [str(v)].  (For an [int] of more than [Num.max_str_digits] digits
    Python raises [ValueError] instead.) *)
Definition str (v : pyobj) : string :=
  match v with
  | VNone => "None"
  | VBool b => if b then "True" else "False"
  | VInt z => Text.of_Z z
  | VFloat x => Num.repr x
  | VStr s => s
  | VObject _ t => t
  end.

(** The integer behind an instance of [int] ([bool] is a subclass). *)
Definition as_int (v : pyobj) : option Z :=
  match v with
  | VBool b => Some (if b then 1 else 0)
  | VInt z => Some z
  | _ => None
  end.

Definition hex_digit (n : N) : ascii :=
  (if n <? 10 then ascii_of_N (48 + n) else ascii_of_N (87 + n))%N.

(** One character of [repr(s)] inside the quotes [quote]. *)
Definition escaped (quote c : ascii) : string :=
  let n := N_of_ascii c in
  if Ascii.eqb c quote || (n =? 92)%N then String (ascii_of_N 92) (String c EmptyString)
  else if (n =? 9)%N then String (ascii_of_N 92) "t"
  else if (n =? 10)%N then String (ascii_of_N 92) "n"
  else if (n =? 13)%N then String (ascii_of_N 92) "r"
  else if ((n <? 32) || ((127 <=? n) && (n <=? 160)) || (n =? 173))%N then
    String (ascii_of_N 92)
      (String "x" (String (hex_digit (n / 16)) (String (hex_digit (n mod 16)) EmptyString)))
  else String c EmptyString.

Fixpoint escape_all (quote : ascii) (s : string) : string :=
  match s with
  | EmptyString => EmptyString
  | String c s' => escaped quote c +:+ escape_all quote s'
  end.

(** [repr(s)] for a [str]: double quotes when the text has a single
    quote and no double quote, single quotes otherwise. *)
Definition repr_str (s : string) : string :=
  let quote : ascii :=
    if Text.contains "'" s && negb (Text.contains (String (ascii_of_N 34) EmptyString) s)
    then ascii_of_N 34 else "'"%char in
  String quote (escape_all quote s) +:+ String quote EmptyString.

Definition int_to_float (z : Z) : exn + spec_float :=
  let x := Num.of_Z z in
  if Num.is_finite x then inr x
  else inl (RaisedOverflowError "int too large to convert to float").

(** [float(v)] for [v] an instance of [float] or [int]; [None] when it
    is neither. *)
Definition number_to_float (v : pyobj) : option (exn + spec_float) :=
  match v with
  | VFloat x => Some (inr x)
  | _ => match as_int v with
         | Some z => Some (int_to_float z)
         | None => None
         end
  end.

(** [float(v)] on anything. *)
Definition float (v : pyobj) : exn + spec_float :=
  match number_to_float v with
  | Some r => r
  | None =>
      match v with
      | VStr s =>
          match Num.float_of_string s with
          | Some x => inr x
          | None => inl (RaisedValueError
                           ("could not convert string to float: " +:+ repr_str s))
          end
      | _ => inl (RaisedTypeError
                    ("float() argument must be a string or a real number, not '" +:+
                     class_name v +:+ "'"))
      end
  end.

(** The message of the [ValueError] of [int(s)]; it shows at most 200
    characters of [repr(s)]. *)
Definition int_error_text (s : string) : string :=
  match Num.over_limit s with
  | Some n =>
      "Exceeds the limit (4300 digits) for integer string conversion: value has " +:+
      Text.of_Z n +:+ " digits; use sys.set_int_max_str_digits() to increase the limit"
  | None =>
      "invalid literal for int() with base 10: " +:+
      String.substring 0 200 (repr_str s)
  end.

(** [int(v)] on anything. *)
Definition int (v : pyobj) : exn + Z :=
  match v with
  | VBool _ | VInt _ => inr (default 0 (as_int v))
  | VFloat x =>
      match x with
      | S754_finite s m e =>
          let '(p, q) := Num.magnitude m e in inr (if s then - (p / q) else p / q)
      | S754_zero _ => inr 0
      | S754_nan => inl (RaisedValueError "cannot convert float NaN to integer")
      | S754_infinity _ =>
          inl (RaisedOverflowError "cannot convert float infinity to integer")
      end
  | VStr s =>
      match Num.int_of_string s with
      | Some z => inr z
      | None => inl (RaisedValueError (int_error_text s))
      end
  | _ => inl (RaisedTypeError
                ("int() argument must be a string, a bytes-like object or a real number, not '" +:+
                 class_name v +:+ "'"))
  end.

(** A number written in the source: [5] or [15.0]. *)
Inductive number := NInt (z : Z) | NFloat (x : spec_float).

Definition number_text (n : number) : string :=
  match n with
  | NInt z => Text.of_Z z
  | NFloat x => Num.repr x
  end.

(** A number [str] prints: an [int] of at most
    [sys.get_int_max_str_digits()] digits, or a [float]. *)
Definition printable (n : number) : bool :=
  match n with
  | NInt z => Z.abs z <? 10 ^ Num.max_str_digits
  | NFloat _ => true
  end.

(** Exact comparison of a number with a [float], as Python compares an
    [int] with a [float]: [None] when unordered (a NaN). *)
Definition compare_int_float (z : Z) (x : spec_float) : option comparison :=
  match x with
  | S754_nan => None
  | S754_infinity s => Some (if s then Gt else Lt)
  | S754_zero _ => Some (z ?= 0)
  | S754_finite s m e =>
      let '(p, q) := Num.magnitude m e in
      Some (z * q ?= (if s then - p else p))
  end.

Definition number_compare (n : number) (x : spec_float) : option comparison :=
  match n with
  | NInt z => compare_int_float z x
  | NFloat y => SFcompare y x
  end.

(** [n <= x] and [x <= n]. *)
Definition number_le_float (n : number) (x : spec_float) : bool :=
  match number_compare n x with Some (Lt | Eq) => true | _ => false end.
Definition float_le_number (x : spec_float) (n : number) : bool :=
  match number_compare n x with Some (Gt | Eq) => true | _ => false end.

(** [str(t)] for a tuple whose items print as [items]. *)
Definition tuple_text (items : list string) : string :=
  match items with
  | [x] => "(" +:+ x +:+ ",)"
  | _ => "(" +:+ Text.join ", " items +:+ ")"
  end.

End Py.

(* ================================================================== *)
(** ** class Validate and its subclasses *)
(* ================================================================== *)

(** The two error classes a validator hands back. *)
Inductive error_kind := ValueError | TypeError.

(** What a validator returns: the token as a [str], or an error object
    (returned, not raised) with its message. *)
Inductive verdict :=
  | Token (s : string)
  | Error (kind : error_kind) (msg : string).

(** A validator is called on a value; it returns a verdict, unless a
    built-in it calls raises. *)
Definition validator := pyobj -> exn + verdict.

Module Validate.

(** A two-item tuple of numbers, [(low, high)]. *)
Record range := { low : Py.number; high : Py.number }.

Definition range_text (r : range) : string :=
  Py.tuple_text [Py.number_text (low r); Py.number_text (high r)].

Definition int_range_text (r : Z * Z) : string :=
  Py.tuple_text [Text.of_Z (fst r); Text.of_Z (snd r)].

Definition aliases_text (l : list string) : string :=
  Py.tuple_text (List.map Py.repr_str l).

(** [lambda x, y: y[0] <= x <= y[1]] *)
Definition float_range (x : spec_float) (y : range) : bool :=
  Py.number_le_float (low y) x && Py.float_le_number x (high y).

(** [lambda x, y: x in range(y[0], y[1] + 1)] *)
Definition int_range (x : Z) (y : Z * Z) : bool :=
  (fst y <=? x) && (x <? snd y + 1).

(** [lambda x, y: x in y], here with [x] and [y] both [str]. *)
Definition find_element (x y : string) : bool := Text.contains x y.

Inductive colour :=
  HEADER | OKBLUE | OKGREEN | WARNING | FAIL | ENDC | BOLD | UNDERLINE.

Definition ansi_esc_seq (c : colour) : string :=
  esc +:+ match c with
          | HEADER => "[95m"
          | OKBLUE => "[94m"
          | OKGREEN => "[92m"
          | WARNING => "[93m"
          | FAIL => "[91m"
          | ENDC => "[0m"
          | BOLD => "[1m"
          | UNDERLINE => "[4m"
          end.

Definition error_text (warning_type : colour) (error_type : string) : string :=
  ansi_esc_seq warning_type +:+ error_type +:+ ansi_esc_seq ENDC.

Definition int_float_str : string :=
  Py.class_text "int" +:+ ", " +:+ Py.class_text "float" +:+ ", " +:+
  Py.class_text "str".

Definition float_rng_and_str_tuples
    (validation_set : range * list string) (value : pyobj) (round_to : Z)
    : exn + verdict :=
  match Py.number_to_float value with
  | Some (inl e) => inl e
  | Some (inr x) =>
      let val := Num.round x round_to in
      if float_range val (fst validation_set) then inr (Token (Py.str value))
      else inr (Error ValueError
                  ("ValueError!" +:+ nl +:+
                   "Not in range:(float, int) " +:+ range_text (fst validation_set) +:+ nl +:+
                   "or in set:(str) " +:+ aliases_text (snd validation_set)))
  | None =>
      match value with
      | VStr s =>
          let val := Text.lower s in
          if find_element val (Text.lower (aliases_text (snd validation_set)))
          then inr (Token (Text.upper val))
          else inr (Error ValueError
                      ("ValueError!" +:+ nl +:+
                       "Not in set:(str) " +:+ aliases_text (snd validation_set) +:+ nl +:+
                       "or in range:(float, int) " +:+ range_text (fst validation_set)))
      | _ =>
          inr (Error TypeError
                 ("TypeError!" +:+ nl +:+
                  "Received type: " +:+ Py.class_text (Py.class_name value) +:+ nl +:+
                  "Valid types: " +:+ int_float_str))
      end
  end.

Definition int_rng_and_str_tuples
    (validation_set : (Z * Z) * list string) (value : pyobj) : exn + verdict :=
  match Py.as_int value with
  | Some val =>
      if int_range val (fst validation_set) then inr (Token (Py.str value))
      else inr (Error ValueError
                  ("ValueError!" +:+ nl +:+
                   "Not in range:(int) " +:+ int_range_text (fst validation_set) +:+ nl +:+
                   "or in set:(str) " +:+ aliases_text (snd validation_set)))
  | None =>
      match value with
      | VStr s =>
          let val := Text.lower s in
          if find_element val (Text.lower (aliases_text (snd validation_set)))
          then inr (Token (Text.upper val))
          else inr (Error ValueError
                      ("ValueError!" +:+ nl +:+
                       "Not in set:(str) " +:+ aliases_text (snd validation_set) +:+ nl +:+
                       "or in range:(int) " +:+ int_range_text (fst validation_set)))
      | _ =>
          inr (Error TypeError
                 ("TypeError!" +:+ nl +:+
                  "Received type: " +:+ Py.class_text (Py.class_name value) +:+ nl +:+
                  "Valid types: " +:+ Py.class_text "int" +:+ ", " +:+ Py.class_text "str"))
      end
  end.

Definition str_tuple (validation_set : list string) (value : pyobj) : exn + verdict :=
  match value with
  | VStr s =>
      let val := Text.lower s in
      if find_element val (Text.lower (aliases_text validation_set))
      then inr (Token (Text.upper val))
      else inr (Error ValueError
                  ("ValueError!" +:+ nl +:+
                   "Not in set:(str) " +:+ aliases_text validation_set))
  | _ =>
      inr (Error TypeError
             ("TypeError!" +:+ nl +:+
              "Received type: " +:+ Py.class_text (Py.class_name value) +:+ nl +:+
              "Valid types: " +:+ Py.class_text "str"))
  end.

Definition int_rng_tuple (validation_set : Z * Z) (value : pyobj) : exn + verdict :=
  match Py.as_int value with
  | Some val =>
      if int_range val validation_set then inr (Token (Py.str value))
      else inr (Error ValueError
                  ("ValueError!" +:+ nl +:+
                   "Not in range:(int) " +:+ int_range_text validation_set))
  | None =>
      inr (Error TypeError
             ("TypeError!" +:+ nl +:+
              "Received type: " +:+ Py.class_text (Py.class_name value) +:+ nl +:+
              "Valid types: " +:+ Py.class_text "int"))
  end.

(** [lambda x, y: x in y] with [x] a [float] and [y] a tuple of numbers:
    some item equals [x]. *)
Definition find_number (x : spec_float) (y : list Py.number) : bool :=
  existsb (fun n => match Py.number_compare n x with
                    | Some Eq => true
                    | _ => false
                    end) y.

Definition numbers_text (l : list Py.number) : string :=
  Py.tuple_text (List.map Py.number_text l).

Definition float_and_str_tuples
    (validation_set : list Py.number * list string) (value : pyobj)
    : exn + verdict :=
  match Py.number_to_float value with
  | Some (inl e) => inl e
  | Some (inr val) =>
      if find_number val (fst validation_set) then inr (Token (Py.str value))
      else inr (Error ValueError
                  ("ValueError!" +:+ nl +:+
                   "Not in set:(float, int) " +:+ numbers_text (fst validation_set) +:+ nl +:+
                   "or in set:(str) " +:+ aliases_text (snd validation_set)))
  | None =>
      match value with
      | VStr s =>
          let val := Text.lower s in
          if find_element val (Text.lower (aliases_text (snd validation_set)))
          then inr (Token (Text.upper val))
          else inr (Error ValueError
                      ("ValueError!" +:+ nl +:+
                       "Not in set:(str) " +:+ aliases_text (snd validation_set) +:+ nl +:+
                       "or in set:(float, str) " +:+ numbers_text (fst validation_set)))
      | _ =>
          inr (Error TypeError
                 ("TypeError!" +:+ nl +:+
                  "Received type: " +:+ Py.class_text (Py.class_name value) +:+ nl +:+
                  "Valid types: " +:+ int_float_str))
      end
  end.

Definition int_and_str_tuples
    (validation_set : list Py.number * list string) (value : pyobj)
    : exn + verdict :=
  match Py.as_int value with
  | Some z =>
      match Py.int_to_float z with
      | inl e => inl e
      | inr val =>
          if find_number val (fst validation_set) then inr (Token (Py.str value))
          else inr (Error ValueError
                      ("ValueError!" +:+ nl +:+
                       "Not in set:(int) " +:+ numbers_text (fst validation_set) +:+ nl +:+
                       "or in set:(str) " +:+ aliases_text (snd validation_set)))
      end
  | None =>
      match value with
      | VStr s =>
          let val := Text.lower s in
          if find_element val (Text.lower (aliases_text (snd validation_set)))
          then inr (Token (Text.upper val))
          else inr (Error ValueError
                      ("ValueError!" +:+ nl +:+
                       "Not in set:(str) " +:+ aliases_text (snd validation_set) +:+ nl +:+
                       "or in set:(int) " +:+ numbers_text (fst validation_set)))
      | _ =>
          inr (Error TypeError
                 ("TypeError!" +:+ nl +:+
                  "Received type: " +:+ Py.class_text (Py.class_name value) +:+ nl +:+
                  "Valid types: " +:+ Py.class_text "int" +:+ ", " +:+ Py.class_text "str"))
      end
  end.

End Validate.

(** Float literals of the source, as the binary64 values they denote. *)
Module Lit.
Definition f0_0 : spec_float := S754_zero false.
Definition f1_0 : spec_float := Eval vm_compute in Num.of_Z 1.
Definition f15_0 : spec_float := Eval vm_compute in Num.of_Z 15.
Definition f0_002 : spec_float := Eval vm_compute in Num.of_ratio false 2 1000.
Definition f0_2 : spec_float := Eval vm_compute in Num.of_ratio false 2 10.
Definition f0_00001 : spec_float := Eval vm_compute in Num.of_ratio false 1 100000.
Definition f0_01 : spec_float := Eval vm_compute in Num.of_ratio false 1 100.
Definition f0_02 : spec_float := Eval vm_compute in Num.of_ratio false 2 100.
Definition f2_0 : spec_float := Eval vm_compute in Num.of_Z 2.
Definition f3_0 : spec_float := Eval vm_compute in Num.of_Z 3.
(** The same numbers as elements of an ['f'] array (binary32). *)
Definition s1_0 : spec_float := Eval vm_compute in Num.to_f32 f1_0.
Definition s2_0 : spec_float := Eval vm_compute in Num.to_f32 f2_0.
Definition s3_0 : spec_float := Eval vm_compute in Num.to_f32 f3_0.
Definition f5_0 : spec_float := Eval vm_compute in Num.of_Z 5.
Definition f0_5 : spec_float := Eval vm_compute in Num.of_ratio false 5 10.
Definition f0_005 : spec_float := Eval vm_compute in Num.of_ratio false 5 1000.
Definition f7_0 : spec_float := Eval vm_compute in Num.of_Z 7.
Definition f25_0 : spec_float := Eval vm_compute in Num.of_Z 25.
Definition f0_001 : spec_float := Eval vm_compute in Num.of_ratio false 1 1000.
Definition fm5_999 : spec_float := Eval vm_compute in Num.of_ratio true 5999 1000.
End Lit.

Module ValidateChannel.

Definition voltage (value : pyobj) : exn + verdict :=
  let voltage_values :=
    ({| Validate.low := Py.NFloat Lit.f0_0; Validate.high := Py.NFloat Lit.f15_0 |},
     ["min"; "max"; "def"; "default"]) in
  Validate.float_rng_and_str_tuples voltage_values value 3.

Definition current (value : pyobj) : exn + verdict :=
  let current_values :=
    ({| Validate.low := Py.NFloat Lit.f0_0; Validate.high := Py.NInt 5 |},
     ["min"; "max"; "def"; "default"]) in
  Validate.float_rng_and_str_tuples current_values value 3.

Definition impedance (value : pyobj) : exn + verdict :=
  let impedance_values :=
    ({| Validate.low := Py.NFloat Lit.f0_0; Validate.high := Py.NFloat Lit.f1_0 |},
     ["min"; "max"; "def"; "default"]) in
  Validate.float_rng_and_str_tuples impedance_values value 2.

Definition measurement_interval (value : pyobj) : exn + verdict :=
  let meas_interval_values :=
    ({| Validate.low := Py.NFloat Lit.f0_002; Validate.high := Py.NFloat Lit.f0_2 |},
     ["max"; "min"; "def"; "default"]) in
  Validate.float_rng_and_str_tuples meas_interval_values value 3.

Definition channel (value : pyobj) : exn + verdict :=
  let channel_values := ["a"; "b"] in
  Validate.str_tuple channel_values value.

Definition on_off (value : pyobj) : exn + verdict :=
  let on_off_values := ([Py.NInt 0; Py.NInt 1], ["ON"; "OFF"]) in
  Validate.int_and_str_tuples on_off_values value.

Definition sense (value : pyobj) : exn + verdict :=
  let sense_values :=
    ["volt"; "voltage"; "curr"; "current"; "dvm"; "dvmeter";
     "aver"; "average"; "peak"; "min"; "high"; "low"; "rms"] in
  Validate.str_tuple sense_values value.

Definition current_range (value : pyobj) : exn + verdict :=
  let current_range_values :=
    ([Py.NFloat Lit.f5_0; Py.NFloat Lit.f0_5; Py.NFloat Lit.f0_005],
     ["auto"; "low"; "high"; "min"; "max"; "def"; "default";
      "5a"; "0.5a"; "0.005a"]) in
  Validate.float_and_str_tuples current_range_values value.

Definition average_count (value : pyobj) : exn + verdict :=
  let average_count_values := ((1, 10), ["min"; "max"; "def"; "default"]) in
  Validate.int_rng_and_str_tuples average_count_values value.

Definition output_bandwidth (value : pyobj) : exn + verdict :=
  let output_bandwidth_values :=
    ["high"; "low"; "min"; "max"; "def"; "default"] in
  Validate.str_tuple output_bandwidth_values value.

End ValidateChannel.

Module ValidateDisplay.

Definition channel (value : pyobj) : exn + verdict :=
  let channel_values :=
    ["a"; "b"; "dvma"; "dvmb"; "min"; "max"; "def"; "default"] in
  Validate.str_tuple channel_values value.

Definition on_off (value : pyobj) : exn + verdict :=
  let on_off_values := ([Py.NInt 0; Py.NInt 1], ["ON"; "OFF"]) in
  Validate.int_and_str_tuples on_off_values value.

End ValidateDisplay.

Module ValidateFormat.

Definition data (value : pyobj) : exn + verdict :=
  let data_values :=
    ["ascii"; "asc"; "long"; "sre"; "sreal"; "dreal"; "dre"; "min"; "max"; "def"] in
  Validate.str_tuple data_values value.

Definition border (value : pyobj) : exn + verdict :=
  let border_values :=
    ["normal"; "norm"; "swapped"; "swap"; "min"; "max"; "def"; "default"] in
  Validate.str_tuple border_values value.

End ValidateFormat.

Module ValidateLog.

Definition sample_length (value : pyobj) : exn + verdict :=
  let sample_length_values := ((1, 5000), ["min"; "max"; "def"; "default"]) in
  Validate.int_rng_and_str_tuples sample_length_values value.

Definition sample_channel (value : pyobj) : exn + verdict :=
  let sample_channel_values :=
    ["current"; "curr"; "dvm"; "min"; "max"; "def"; "default"] in
  Validate.str_tuple sample_channel_values value.

Definition sample_type (value : pyobj) : exn + verdict :=
  let sample_type_values :=
    ["aver"; "average"; "peak"; "min"; "high"; "low"; "rms"] in
  Validate.str_tuple sample_type_values value.

Definition sample_interval (value : pyobj) : exn + verdict :=
  let sample_interval_values :=
    ({| Validate.low := Py.NFloat Lit.f0_00001; Validate.high := Py.NFloat Lit.f1_0 |},
     ["min"; "max"; "def"; "default"]) in
  Validate.float_rng_and_str_tuples sample_interval_values value 5.

End ValidateLog.

Module ValidateRegister.

Definition register_8 (value : pyobj) : exn + verdict :=
  let register_values := (0, 128) in
  Validate.int_rng_tuple register_values value.

Definition register_16 (value : pyobj) : exn + verdict :=
  let register_values := (0, 65535) in
  Validate.int_rng_tuple register_values value.

Definition preset (value : pyobj) : exn + verdict :=
  let preset_values := (0, 9) in
  Validate.int_rng_tuple preset_values value.

End ValidateRegister.

Module ValidateTrigger.

Definition source (value : pyobj) : exn + verdict :=
  let source_values := ["int"; "ext"; "min"; "max"; "def"; "default"] in
  Validate.str_tuple source_values value.

Definition level_low (value : pyobj) : exn + verdict :=
  let level_low_values :=
    ({| Validate.low := Py.NInt 0; Validate.high := Py.NFloat Lit.f0_5 |},
     ["auto"; "min"; "max"; "def"; "default"]) in
  Validate.float_rng_and_str_tuples level_low_values value 3.

Definition level_high (value : pyobj) : exn + verdict :=
  let level_high_values :=
    ({| Validate.low := Py.NInt 0; Validate.high := Py.NFloat Lit.f7_0 |},
     ["auto"; "min"; "max"; "def"; "default"]) in
  Validate.float_rng_and_str_tuples level_high_values value 3.

Definition level_dvm (value : pyobj) : exn + verdict :=
  let level_dvm_values :=
    ({| Validate.low := Py.NFloat Lit.fm5_999; Validate.high := Py.NFloat Lit.f25_0 |},
     ["auto"; "min"; "max"; "def"; "default"]) in
  Validate.float_rng_and_str_tuples level_dvm_values value 3.

Definition count (value : pyobj) : exn + verdict :=
  let count_values := ((1, 100), ["min"; "max"; "def"; "default"]) in
  Validate.int_rng_and_str_tuples count_values value.

Definition slope (value : pyobj) : exn + verdict :=
  let slope_values := ["pos"; "neg"; "min"; "max"; "def"; "default"] in
  Validate.str_tuple slope_values value.

Definition offset (value : pyobj) : exn + verdict :=
  let offset_values := ((-5000, 50000), ["min"; "max"; "def"; "default"]) in
  Validate.int_rng_and_str_tuples offset_values value.

Definition timeout (value : pyobj) : exn + verdict :=
  let timeout_values :=
    ({| Validate.low := Py.NFloat Lit.f0_001; Validate.high := Py.NInt 60 |},
     ["inf"; "min"; "max"; "def"; "default"]) in
  Validate.float_rng_and_str_tuples timeout_values value 3.

End ValidateTrigger.

Module ValidateRelay.

Definition relay_number (value : pyobj) : exn + verdict :=
  let relay_number_values := (1, 4) in
  Validate.int_rng_tuple relay_number_values value.

Definition on_off (value : pyobj) : exn + verdict :=
  let on_off_values := ([Py.NInt 0; Py.NInt 1], ["ON"; "OFF"]) in
  Validate.int_and_str_tuples on_off_values value.

End ValidateRelay.

(* ================================================================== *)
(** ** The bus, the heap of dicts, and the monad of the driver *)
(* ================================================================== *)

(** One operation on the transport ([self._bus]). *)
Inductive bus_op :=
  | BusWrite (command : string)
  | BusQuery (command : string) (reply : string)
  | BusWaitSrq (timeout_ms : Z).

(** The transport is a mock instrument given by what it answers: the
    reply to its [n]-th query, and whether its [n]-th wait for a service
    request ends with the request (otherwise [wait_for_srq] times out and
    raises).  The answers a deterministic instrument gives along one run
    form such a script, so a statement for every script is a statement
    for every instrument. *)
Record state := {
  replies : nat -> string;
  asked : nat;
  srq_arrives : nat -> bool;
  waited : nat;
  (** every bus operation so far, oldest first *)
  trace : list bus_op;
  (** the [values] dicts of the objects, by address *)
  dicts : gmap nat (gmap string pyobj);
  (** the [log_data] dicts of the [Log] objects, by address *)
  arrays : gmap nat (gmap string Num.ndarray);
  (** what [print] has written, oldest first *)
  stdout : list string;
  (** how many bytes numpy can still allocate for an array *)
  memory : Z
}.

Definition M (A : Type) : Type := state -> (exn + A) * state.

Definition ret {A} (a : A) : M A := fun st => (inr a, st).

Definition raise {A} (e : exn) : M A := fun st => (inl e, st).

Definition bind {A B} (m : M A) (k : A -> M B) : M B :=
  fun st =>
    match m st with
    | (inr a, st') => k a st'
    | (inl e, st') => (inl e, st')
    end.

Declare Scope py_scope.
Delimit Scope py_scope with py.
Notation "x <- m ;; k" := (bind m (fun x => k))
  (at level 100, m at next level, right associativity) : py_scope.
Notation "m ;; k" := (bind m (fun _ => k))
  (at level 100, right associativity) : py_scope.
Local Open Scope py_scope.

(** The result of a built-in that may raise. *)
(** The room left for an allocation. *)
Definition free_memory : M Z := fun st => (inr (memory st), st).

Definition lift {A} (r : exn + A) : M A :=
  match r with inr a => ret a | inl e => raise e end.

Module Bus.

(** [bus.write(command)] *)
Definition write (command : string) : M unit :=
  fun st =>
    (inr tt,
     {| replies := replies st; asked := asked st;
        srq_arrives := srq_arrives st; waited := waited st;
        trace := trace st ++ [BusWrite command];
        dicts := dicts st; arrays := arrays st; stdout := stdout st;
        memory := memory st |}).

(** [bus.query(command)] *)
Definition query (command : string) : M string :=
  fun st =>
    let reply := replies st (asked st) in
    (inr reply,
     {| replies := replies st; asked := S (asked st);
        srq_arrives := srq_arrives st; waited := waited st;
        trace := trace st ++ [BusQuery command reply];
        dicts := dicts st; arrays := arrays st; stdout := stdout st;
        memory := memory st |}).

(** [bus.wait_for_srq(timeout)]: returns when the request arrives in
    time, raises when it does not. *)
Definition wait_for_srq (timeout_ms : Z) : M unit :=
  fun st =>
    let st' :=
      {| replies := replies st; asked := asked st;
         srq_arrives := srq_arrives st; waited := S (waited st);
         trace := trace st ++ [BusWaitSrq timeout_ms];
         dicts := dicts st; arrays := arrays st; stdout := stdout st;
         memory := memory st |} in
    if srq_arrives st (waited st) then (inr tt, st')
    else (inl RaisedVisaIOError, st').

End Bus.

(** [print(text)] *)
Definition print (text : string) : M unit :=
  fun st =>
    (inr tt,
     {| replies := replies st; asked := asked st;
        srq_arrives := srq_arrives st; waited := waited st;
        trace := trace st;
        dicts := dicts st; arrays := arrays st;
        stdout := stdout st ++ [text];
        memory := memory st |}).

(** [d[key] = v] on the dict at address [d]. *)
Definition dict_set (d : nat) (key : string) (v : pyobj) : M unit :=
  fun st =>
    (inr tt,
     {| replies := replies st; asked := asked st;
        srq_arrives := srq_arrives st; waited := waited st;
        trace := trace st;
        dicts := <[d := <[key := v]> (default ∅ (dicts st !! d))]> (dicts st);
        arrays := arrays st; stdout := stdout st;
        memory := memory st |}).

(** [d[key]] on the dict at address [d]. *)
Definition dict_get (d : nat) (key : string) : M pyobj :=
  fun st =>
    match default ∅ (dicts st !! d) !! key with
    | Some v => (inr v, st)
    | None => (inl (RaisedKeyError key), st)
    end.

(** [a[key] = x] and [a.clear()] on the [log_data] dict at address [a]. *)
Definition array_set (a : nat) (key : string) (x : Num.ndarray) : M unit :=
  fun st =>
    (inr tt,
     {| replies := replies st; asked := asked st;
        srq_arrives := srq_arrives st; waited := waited st;
        trace := trace st; dicts := dicts st;
        arrays := <[a := <[key := x]> (default ∅ (arrays st !! a))]> (arrays st);
        stdout := stdout st;
        memory := memory st |}).

Definition array_clear (a : nat) : M unit :=
  fun st =>
    (inr tt,
     {| replies := replies st; asked := asked st;
        srq_arrives := srq_arrives st; waited := waited st;
        trace := trace st; dicts := dicts st;
        arrays := <[a := ∅]> (arrays st);
        stdout := stdout st;
        memory := memory st |}).

(* ================================================================== *)
(** ** class Command *)
(* ================================================================== *)

(** What a caller binds to the [validator] parameter: nothing ([None]),
    a validator method, or some object that cannot be called. *)
Inductive validator_arg :=
  | NoValidator
  | Callable (f : validator)
  | NotCallable (v : pyobj).

Module Command.

(** [read_write(query, write, validator=None, value=None,
    value_dict=None, value_key=None)].  [value_dict] and [value_key]
    travel together (every caller passes both or neither), so they are
    one optional pair here. *)
Definition read_write (query write : string) (validator : validator_arg)
    (value : pyobj) (value_dict : option (nat * string)) : M pyobj :=
  match value with
  | VNone => r <- Bus.query query ;; ret (VStr r)
  | _ =>
      match validator with
      | Callable f =>
          val <- lift (f value) ;;
          match val with
          | Error _ msg =>
              print (Validate.error_text Validate.WARNING msg) ;;
              ret VNone
          | Token _ =>
              let write := write +:+ " " +:+ Py.str value in
              Bus.write write ;;
              match value_dict with
              | Some (d, value_key) =>
                  r <- Bus.query query ;; dict_set d value_key (VStr r)
              | None => ret tt
              end ;;
              ret VNone
          end
      | NotCallable v =>
          raise (RaisedTypeError
                   ("'" +:+ Py.class_name v +:+ "' object is not callable"))
      | NoValidator =>
          let write := write +:+ " " +:+ Py.str value in
          Bus.write write ;;
          match value_dict with
          | Some (d, value_key) =>
              r <- Bus.query query ;; dict_set d value_key (VStr r)
          | None => ret tt
          end ;;
          ret VNone
      end
  end.

(** [read(query)] *)
Definition read (query : string) : M pyobj :=
  r <- Bus.query query ;; ret (VStr r).

(** [write(write, validator=None)]: [validator] is here the object a
    validator has returned, not the validator. *)
Definition write (write : string) (validator : option verdict) : M unit :=
  match validator with
  | None => Bus.write write
  | Some (Error _ msg) => print (Validate.error_text Validate.WARNING msg)
  | Some (Token _) => Bus.write write
  end.

End Command.

(* ================================================================== *)
(** ** class Common, class Status *)
(* ================================================================== *)

(** What a caller passes for an optional parameter, as the [validator]
    argument it becomes when bound to that parameter. *)
Definition as_validator_arg (v : pyobj) : validator_arg :=
  match v with
  | VNone => NoValidator
  | _ => NotCallable v
  end.

Module Common.

Definition cls : M unit := Command.write "*CLS" None.

Definition ese (reg_value : pyobj) : M pyobj :=
  let query := "*ESE?" in
  let write := "*ESE" in
  Command.read_write query write (Callable ValidateRegister.register_8)
    reg_value None.

(** [read_write(query, write, reg_value)]: the third positional
    parameter of [read_write] is [validator]. *)
Definition opc (reg_value : pyobj) : M pyobj :=
  let query := "*OPC?" in
  let write := "*OPC" in
  Command.read_write query write (as_validator_arg reg_value) VNone None.

Definition sre (reg_value : pyobj) : M pyobj :=
  let query := "*SRE?" in
  let write := "*SRE" in
  Command.read_write query write (Callable ValidateRegister.register_8)
    reg_value None.

Definition wait : M unit := Command.write "*WAI" None.

End Common.

Module Status.

Definition get_meas_event_reg : M pyobj :=
  let query := ":STAT:MEAS:EVEN?" in
  Command.read query.

Definition meas_enable_reg (reg_value : pyobj) : M pyobj :=
  let query := ":STAT:MEAS:ENAB?" in
  let write := ":STAT:MEAS:ENAB" in
  Command.read_write query write (Callable ValidateRegister.register_16)
    reg_value None.

Definition clear_error_queue : M unit :=
  let write := ":SYST:CLE" in
  Command.write write None.

End Status.

(* ================================================================== *)
(** ** class Log *)
(* ================================================================== *)

(** A [Log] object: its channel, and the addresses of its [values] and
    [log_data] dicts. *)
Record Log_object := {
  _channel : string;
  values : nat;
  log_data : nat
}.

Module Log.

Definition sample_length (self : Log_object) (set_sample_length : pyobj) : M pyobj :=
  let query := ":SENS:" +:+ _channel self +:+ ":PULS:SAMP:LENG?" in
  let write := ":SENS:" +:+ _channel self +:+ ":PULS:SAMP:LENG" in
  Command.read_write query write (Callable ValidateLog.sample_length)
    set_sample_length (Some (values self, "sample_length")).

Definition sample_channel (self : Log_object) (set_sample_channel : pyobj) : M pyobj :=
  let query := ":SENS:" +:+ _channel self +:+ ":PULS:MEAS:CHAN?" in
  let write := ":SENS:" +:+ _channel self +:+ ":PULS:MEAS:CHAN" in
  Command.read_write query write (Callable ValidateLog.sample_channel)
    set_sample_channel (Some (values self, "sample_source")).

Definition sample_type (self : Log_object) (set_sample_type : pyobj) : M pyobj :=
  let query := ":SENS:" +:+ _channel self +:+ ":PULS:MEAS:TYPE?" in
  let write := ":SENS:" +:+ _channel self +:+ ":PULS:MEAS:TYPE" in
  Command.read_write query write (Callable ValidateLog.sample_type)
    set_sample_type (Some (values self, "sample_type")).

Definition sample_interval (self : Log_object) (set_sample_interval : pyobj) : M pyobj :=
  let query := ":SENS:" +:+ _channel self +:+ ":PULS:SAMP:INT?" in
  let write := ":SENS:" +:+ _channel self +:+ ":PULS:SAMP:INT" in
  Command.read_write query write (Callable ValidateLog.sample_interval)
    set_sample_interval (Some (values self, "sample_interval")).

Definition get_pulse_state (self : Log_object) : M pyobj :=
  let query := ":SENS:" +:+ _channel self +:+ ":PULS:MEAS:STAR?" in
  Command.read query.

(** An address no dict of the heap lives at. *)
Definition new_address {A} (heap : gmap nat A) : nat :=
  map_fold (fun k _ acc => Nat.max acc (S k)) O heap.

Definition dict_new (d : nat) (content : gmap string pyobj) : M unit :=
  fun st =>
    (inr tt,
     {| replies := replies st; asked := asked st;
        srq_arrives := srq_arrives st; waited := waited st;
        trace := trace st;
        dicts := <[d := content]> (dicts st);
        arrays := arrays st; stdout := stdout st;
        memory := memory st |}).

(** [Log(bus, channel)]: every cached parameter is queried once. *)
Definition init (channel : string) : M Log_object :=
  fun st =>
    let self := {| _channel := channel;
                   values := new_address (dicts st);
                   log_data := new_address (arrays st) |} in
    (dict_new (values self) ∅ ;;
     sampling_on <- get_pulse_state self ;;
     sample_channel <- sample_channel self VNone ;;
     sample_type <- sample_type self VNone ;;
     sample_interval <- sample_interval self VNone ;;
     sample_length <- sample_length self VNone ;;
     dict_new (values self)
       (<["sample_length" := sample_length]>
          (<["sample_interval" := sample_interval]>
             (<["sample_type" := sample_type]>
                (<["sample_channel" := sample_channel]>
                   (<["sampling_on" := sampling_on]> ∅))))) ;;
     array_clear (log_data self) ;;
     ret self) st.

(** Python truth of an [int]. *)
Definition truthy (z : Z) : bool := negb (z =? 0).

(** [v in ['CURR', 'CURRENT']] *)
Definition is_current_token (v : pyobj) : bool :=
  match v with
  | VStr s => String.eqb s "CURR" || String.eqb s "CURRENT"
  | _ => false
  end.

(** [np.array(data.split(';'), dtype='f')] *)
Definition parse_samples (data : string) : exn + Num.ndarray :=
  match Num.array_f (Text.split_on ";" data) with
  | inr a => inr a
  | inl piece =>
      inl (RaisedValueError
             ("could not convert string to float: " +:+ Py.repr_str piece))
  end.

(** [x * n] for a [float] and an [int]. *)
Definition float_times_int (x : spec_float) (n : Z) : exn + spec_float :=
  match Py.int_to_float n with
  | inr y => inr (Num.fmul x y)
  | inl e => inl e
  end.

(** [np.arange(0, stop, step)] with [room] bytes left to allocate. *)
Definition arange_from_zero (room : Z) (stop step : spec_float)
    : exn + Num.ndarray :=
  match Num.arange room (S754_zero false) stop step with
  | inr a => inr a
  | inl Num.ZeroStep => inl RaisedZeroDivisionError
  | inl Num.NoLength => inl (RaisedValueError "arange: cannot compute length")
  | inl Num.TooLarge => inl (RaisedValueError "Maximum allowed size exceeded")
  | inl Num.TooBig =>
      inl (RaisedValueError
             ("array is too big; `arr.size * arr.dtype.itemsize` " +:+
              "is larger than the maximum possible size."))
  | inl Num.NoMemory => inl RaisedMemoryError
  end.

(** The bits and the arm command of a channel:
    [(reading_avail, trigger_timeout, meas_overflow, pulse_start)]. *)
Record layout := {
  reading_avail : Z;
  trigger_timeout : Z;
  meas_overflow : Z;
  pulse_start : string
}.

Definition start_sample (self : Log_object) : M unit :=
  array_clear (log_data self) ;;
  (* Clear the error queue *)
  Status.clear_error_queue ;;
  (* Clear measurement event register *)
  Status.get_meas_event_reg ;;
  (* Save current measurement enable register *)
  r <- Status.meas_enable_reg VNone ;;
  enable_reg <- lift (Py.int r) ;;
  (* Enable measurement events *)
  bits <-
    (if String.eqb (_channel self) "A" then
       Status.meas_enable_reg (VInt 56) ;;
       ret {| reading_avail := 32; trigger_timeout := 16;
              meas_overflow := 8; pulse_start := "*AARM" |}
     else
       Status.meas_enable_reg (VInt 448) ;;
       ret {| reading_avail := 256; trigger_timeout := 128;
              meas_overflow := 64; pulse_start := "*BARM" |}) ;;
  let sre_status_bit := 1 in
  (* Enable service request for measurement bit *)
  Common.sre (VInt sre_status_bit) ;;
  (* Enable pulse measurement *)
  Common.wait ;;
  let write := pulse_start bits in
  Command.write write None ;;
  (* Wait for SRQ *)
  Bus.wait_for_srq 10000 ;;
  Common.sre (VInt 0) ;;
  (* Get measurement event register *)
  r <- Status.get_meas_event_reg ;;
  event_reg <- lift (Py.int r) ;;
  (if truthy (Z.land event_reg (reading_avail bits)) then
     data <- Bus.query (":FETC:" +:+ _channel self +:+ ":ARR?") ;;
     source <- dict_get (values self) "sample_channel" ;;
     (if is_current_token source then
        a <- lift (parse_samples data) ;;
        array_set (log_data self) "current" a
      else
        a <- lift (parse_samples data) ;;
        array_set (log_data self) "voltage" a) ;;
     interval <- dict_get (values self) "sample_interval" ;;
     interval <- lift (Py.float interval) ;;
     length <- dict_get (values self) "sample_length" ;;
     length <- lift (Py.int length) ;;
     stop <- lift (float_times_int interval length) ;;
     step <- dict_get (values self) "sample_interval" ;;
     step <- lift (Py.float step) ;;
     room <- free_memory ;;
     seconds <- lift (arange_from_zero room stop step) ;;
     array_set (log_data self) "seconds" seconds
   else if truthy (Z.land event_reg (trigger_timeout bits)) then
     print ("Trigger timeout channel: " +:+ _channel self)
   else
     print ("Unknown error, event: " +:+ Text.of_Z event_reg)) ;;
  (if truthy (Z.land event_reg (meas_overflow bits)) then
     print ("Warning: measurement range overflow on channel: " +:+ _channel self)
   else ret tt) ;;
  (* Restore measurement enable register *)
  Status.meas_enable_reg (VInt enable_reg) ;;
  ret tt.

End Log.

(* ================================================================== *)
(** ** class Measure *)
(* ================================================================== *)

Module Measure.

(** A [Measure] object: its channel and the address of its [values]. *)
Record object := {
  _channel : string;
  values : nat
}.

(** [needle in hay] with [needle] a [str]: a substring test when [hay]
    is a [str] too; the other values a cache can hold are not iterable. *)
Definition str_in (needle : string) (hay : pyobj) : exn + bool :=
  match hay with
  | VStr s => inr (Text.contains needle s)
  | _ => inl (RaisedTypeError
                ("argument of type '" +:+ Py.class_name hay +:+ "' is not iterable"))
  end.

Definition sense (self : object) (set_sense : pyobj) : M pyobj :=
  let query := ":SENS:" +:+ _channel self +:+ ":FUNC?" in
  let write := ":SENS:" +:+ _channel self +:+ ":FUNC" in
  Command.read_write query write (Callable ValidateChannel.sense)
    set_sense (Some (values self, "sense")).

(** [Measure(bus, channel)] *)
Definition init (channel : string) : M object :=
  fun st =>
    let self := {| _channel := channel;
                   values := Log.new_address (dicts st) |} in
    (Log.dict_new (values self) ∅ ;;
     sense_now <- sense self VNone ;;
     Log.dict_new (values self) (<["sense" := sense_now]> ∅) ;;
     ret self) st.

Definition __get_stat (self : object) (meas_source stat_type : string) : M pyobj :=
  cached_sense <- dict_get (values self) "sense" ;;
  found <- lift (str_in meas_source cached_sense) ;;
  (if negb found then sense self (VStr meas_source) ;; ret tt else ret tt) ;;
  let query := ":MEAS:" +:+ _channel self +:+ ":" +:+ stat_type +:+ "?" in
  Command.read query.

Definition voltage (self : object) : M pyobj :=
  let query := ":MEAS:" +:+ _channel self +:+ ":VOLT?" in
  Command.read query.

Definition current (self : object) : M pyobj :=
  let query := ":MEAS:" +:+ _channel self +:+ ":CURR?" in
  Command.read query.

Definition current_low (self : object) : M pyobj := __get_stat self "CURR" "LOW".
Definition current_high (self : object) : M pyobj := __get_stat self "CURR" "HIGH".
Definition current_min (self : object) : M pyobj := __get_stat self "CURR" "MIN".
Definition current_peak (self : object) : M pyobj := __get_stat self "CURR" "PEAK".
Definition current_max (self : object) : M pyobj := current_peak self.
Definition current_avg (self : object) : M pyobj := __get_stat self "CURR" "AVER".
Definition current_rms (self : object) : M pyobj := __get_stat self "CURR" "RMS".
Definition voltage_low (self : object) : M pyobj := __get_stat self "VOLT" "LOW".
Definition voltage_high (self : object) : M pyobj := __get_stat self "VOLT" "HIGH".
Definition voltage_min (self : object) : M pyobj := __get_stat self "VOLT" "MIN".
Definition voltage_peak (self : object) : M pyobj := __get_stat self "VOLT" "PEAK".
Definition voltage_max (self : object) : M pyobj := voltage_peak self.
Definition voltage_rms (self : object) : M pyobj := __get_stat self "VOLT" "RMS".
Definition voltage_dvm (self : object) : M pyobj := __get_stat self "VOLT" "DVM".

End Measure.

(* ================================================================== *)
(** ** class Relay *)
(* ================================================================== *)

Module Relay.

(** A [Relay] object: the address of its [values]. *)
Record object := { values : nat }.

Definition enable (self : object) (set_relay_on_off : pyobj) : M pyobj :=
  relay <- dict_get (values self) "relay" ;;
  let query := ":OUTP:REL" +:+ Py.str relay +:+ "?" in
  relay <- dict_get (values self) "relay" ;;
  let write := ":OUTP:REL" +:+ Py.str relay in
  Command.read_write query write (Callable ValidateRelay.on_off)
    set_relay_on_off (Some (values self, "state")).

(** [Relay(bus, num)]: an error object from the validator is raised. *)
Definition init (num : pyobj) : M object :=
  num_validated <- lift (ValidateRelay.relay_number num) ;;
  match num_validated with
  | Error ValueError msg => raise (RaisedValueError msg)
  | Error TypeError msg => raise (RaisedTypeError msg)
  | Token num_validated =>
      fun st =>
        let self := {| values := Log.new_address (dicts st) |} in
        (Log.dict_new (values self) ∅ ;;
         dict_set (values self) "relay" (VStr num_validated) ;;
         state <- enable self VNone ;;
         dict_set (values self) "state" state ;;
         ret self) st
  end.

Definition on (self : object) : M unit :=
  enable self (VStr "ON") ;; ret tt.

Definition off (self : object) : M unit :=
  enable self (VStr "OFF") ;; ret tt.

End Relay.

(** [RelayControl(bus)]: the four relays, constructed in order. *)
Module RelayControl.

Record object := {
  r1 : Relay.object;
  r2 : Relay.object;
  r3 : Relay.object;
  r4 : Relay.object
}.

Definition init : M object :=
  r1 <- Relay.init (VInt 1) ;;
  r2 <- Relay.init (VInt 2) ;;
  r3 <- Relay.init (VInt 3) ;;
  r4 <- Relay.init (VInt 4) ;;
  ret {| r1 := r1; r2 := r2; r3 := r3; r4 := r4 |}.

End RelayControl.

(* ================================================================== *)
(** ** class Trigger, class Protection, class Channel *)
(* ================================================================== *)

Module Trigger.

Record object := {
  _channel : string;
  values : nat
}.

Definition arm : M unit := Command.write "*ARM" None.
Definition aarm : M unit := Command.write "*AARM" None.
Definition barm : M unit := Command.write "*BARM" None.
Definition trg : M unit := Command.write "*TTRG" None.
Definition atrg : M unit := Command.write "*ATRg" None.
Definition btrg : M unit := Command.write "*BTRg" None.

Definition source (self : object) (set_source : pyobj) : M pyobj :=
  let query := ":SENS:" +:+ _channel self +:+ ":PULS:TRIG:SOUR?" in
  let write := ":SENS:" +:+ _channel self +:+ ":PULS:TRIG:SOUR" in
  Command.read_write query write (Callable ValidateTrigger.source)
    set_source (Some (values self, "source")).

Definition level_low (self : object) (set_level_low : pyobj) : M pyobj :=
  let query := ":SENS:" +:+ _channel self +:+ ":PULS:TRIG:LEV:LOW?" in
  let write := ":SENS:" +:+ _channel self +:+ ":PULS:TRIG:LEV:LOW" in
  Command.read_write query write (Callable ValidateTrigger.level_low)
    set_level_low (Some (values self, "level_low")).

Definition level_high (self : object) (set_level_high : pyobj) : M pyobj :=
  let query := ":SENS:" +:+ _channel self +:+ ":PULS:TRIG:LEV:HIGH?" in
  let write := ":SENS:" +:+ _channel self +:+ ":PULS:TRIG:LEV:HIGH" in
  Command.read_write query write (Callable ValidateTrigger.level_high)
    set_level_high (Some (values self, "level_high")).

Definition level_dvm (self : object) (set_level_dvm : pyobj) : M pyobj :=
  let query := ":SENS:" +:+ _channel self +:+ ":PULS:TRIG:LEV:DVM?" in
  let write := ":SENS:" +:+ _channel self +:+ ":PULS:TRIG:LEV:DVM" in
  Command.read_write query write (Callable ValidateTrigger.level_dvm)
    set_level_dvm (Some (values self, "level_dvm")).

Definition count (self : object) (set_count : pyobj) : M pyobj :=
  let query := ":SENS:" +:+ _channel self +:+ ":PULS:TRIG:COUN?" in
  let write := ":SENS:" +:+ _channel self +:+ ":PULS:TRIG:COUN" in
  Command.read_write query write (Callable ValidateTrigger.count)
    set_count (Some (values self, "count")).

Definition slope (self : object) (set_slope : pyobj) : M pyobj :=
  let query := ":SENS:" +:+ _channel self +:+ ":PULS:TRIG:SLOP?" in
  let write := ":SENS:" +:+ _channel self +:+ ":PULS:TRIG:SLOP" in
  Command.read_write query write (Callable ValidateTrigger.slope)
    set_slope (Some (values self, "slope")).

Definition offset (self : object) (set_offset : pyobj) : M pyobj :=
  let query := ":SENS:" +:+ _channel self +:+ ":PULS:TRIG:OFFS?" in
  let write := ":SENS:" +:+ _channel self +:+ ":PULS:TRIG:OFFS" in
  Command.read_write query write (Callable ValidateTrigger.offset)
    set_offset (Some (values self, "offset")).

Definition timeout (self : object) (set_timeout : pyobj) : M pyobj :=
  let query := ":SENS:" +:+ _channel self +:+ ":PULS:TRIG:TIM?" in
  let write := ":SENS:" +:+ _channel self +:+ ":PULS:TRIG:TIM" in
  Command.read_write query write (Callable ValidateTrigger.timeout)
    set_timeout (Some (values self, "timeout")).

(** [Trigger(bus, channel)] *)
Definition init (channel : string) : M object :=
  fun st =>
    let self := {| _channel := channel;
                   values := Log.new_address (dicts st) |} in
    (Log.dict_new (values self) ∅ ;;
     source <- source self VNone ;;
     level_low <- level_low self VNone ;;
     level_high <- level_high self VNone ;;
     level_dvm <- level_dvm self VNone ;;
     slope <- slope self VNone ;;
     count <- count self VNone ;;
     offset <- offset self VNone ;;
     timeout <- timeout self VNone ;;
     Log.dict_new (values self)
       (<["timeout" := timeout]>
          (<["offset" := offset]>
             (<["count" := count]>
                (<["slope" := slope]>
                   (<["level_dvm" := level_dvm]>
                      (<["level_high" := level_high]>
                         (<["level_low" := level_low]>
                            (<["source" := source]> ∅)))))))) ;;
     ret self) st.

End Trigger.

Module Protection.

Record object := { _channel : string }.

Definition init (channel : string) : M object :=
  ret {| _channel := channel |}.

Definition open_sense_protect_on (self : object) : M unit :=
  Bus.write (":OUTP:" +:+ _channel self +:+ ":OPEN:ON").

Definition open_sense_protect_off (self : object) : M unit :=
  Bus.write (":OUTP:" +:+ _channel self +:+ ":OPEN:OFF").

Definition get_open_sense_protect (self : object) : M string :=
  Bus.query (":OUTP:" +:+ _channel self +:+ ":OPEN?").

End Protection.

Module Channel.

(** A [Channel] object: the attributes its accessors use ... *)
Record object := {
  _channel : string;
  values : nat
}.

(** ... and the shortcut attributes its constructor sets last. *)
Record shortcuts := {
  meas : Measure.object;
  log : Log_object;
  trig : Trigger.object;
  prot : Protection.object
}.

Definition output (self : object) (set_input_on_off : pyobj) : M pyobj :=
  let query := ":OUTP:" +:+ _channel self +:+ ":STAT?" in
  let write := ":OUT:" +:+ _channel self in
  Command.read_write query write (Callable ValidateChannel.on_off)
    set_input_on_off (Some (values self, "output")).

Definition on (self : object) : M unit := output self (VStr "ON") ;; ret tt.

Definition off (self : object) : M unit := output self (VStr "OFF") ;; ret tt.

Definition voltage (self : object) (set_voltage : pyobj) : M pyobj :=
  let query := ":SOUR:" +:+ _channel self +:+ ":VOLT?" in
  let write := ":SOUR:" +:+ _channel self +:+ ":VOLT" in
  Command.read_write query write (Callable ValidateChannel.voltage)
    set_voltage (Some (values self, "voltage")).

Definition current (self : object) (set_current : pyobj) : M pyobj :=
  let query := ":SOUR:" +:+ _channel self +:+ ":CURR?" in
  let write := ":SOUR:" +:+ _channel self +:+ ":CURR:LIM" in
  Command.read_write query write (Callable ValidateChannel.current)
    set_current (Some (values self, "current")).

Definition current_range (self : object) (set_current_range : pyobj) : M pyobj :=
  let query := ":SENS:" +:+ _channel self +:+ ":CURR:RANG?" in
  let write := ":SENS:" +:+ _channel self +:+ ":CURR:RANG" in
  Command.read_write query write (Callable ValidateChannel.current_range)
    set_current_range (Some (values self, "current_range")).

Definition measurement_interval (self : object) (set_measurement_interval : pyobj)
    : M pyobj :=
  let query := ":SENS:" +:+ _channel self +:+ ":MEAS:INT?" in
  let write := ":SENS:" +:+ _channel self +:+ ":MEAS:INT" in
  Command.read_write query write (Callable ValidateChannel.measurement_interval)
    set_measurement_interval (Some (values self, "measurement_interval")).

Definition average_count (self : object) (set_average_count : pyobj) : M pyobj :=
  let query := ":SENS:" +:+ _channel self +:+ ":AVER:COUN?" in
  let write := ":SENS:" +:+ _channel self +:+ ":AVER:COUN" in
  Command.read_write query write (Callable ValidateChannel.average_count)
    set_average_count (Some (values self, "average_count")).

Definition output_bandwidth (self : object) (set_output_bandwidth : pyobj) : M pyobj :=
  let query := ":OUTP:" +:+ _channel self +:+ ":BAND?" in
  let write := ":OUTP:" +:+ _channel self +:+ ":BAND" in
  Command.read_write query write (Callable ValidateChannel.output_bandwidth)
    set_output_bandwidth (Some (values self, "output_bandwidth")).

Definition impedance (self : object) (set_impedance : pyobj) : M pyobj :=
  let query := ":OUTP:" +:+ _channel self +:+ ":IMP?" in
  let write := ":OUTP:" +:+ _channel self +:+ ":IMP" in
  Command.read_write query write (Callable ValidateChannel.impedance)
    set_impedance (Some (values self, "impedance")).

(** [Channel(bus, channel)]: an error object from the validator is
    raised; otherwise every cached parameter is queried once and the
    shortcut objects are constructed on the validated channel. *)
Definition init (channel : pyobj) : M (object * shortcuts) :=
  validated <- lift (ValidateChannel.channel channel) ;;
  match validated with
  | Error ValueError msg => raise (RaisedValueError msg)
  | Error TypeError msg => raise (RaisedTypeError msg)
  | Token validated =>
      fun st =>
        let self := {| _channel := validated;
                       values := Log.new_address (dicts st) |} in
        (Log.dict_new (values self) ∅ ;;
         output <- output self VNone ;;
         voltage <- voltage self VNone ;;
         current <- current self VNone ;;
         current_range <- current_range self VNone ;;
         measurement_interval <- measurement_interval self VNone ;;
         average_count <- average_count self VNone ;;
         impedance <- impedance self VNone ;;
         output_bandwidth <- output_bandwidth self VNone ;;
         Log.dict_new (values self)
           (<["output_bandwidth" := output_bandwidth]>
              (<["impedance" := impedance]>
                 (<["average_count" := average_count]>
                    (<["measurement_interval" := measurement_interval]>
                       (<["current_range" := current_range]>
                          (<["current" := current]>
                             (<["voltage" := voltage]>
                                (<["output" := output]> ∅)))))))) ;;
         meas <- Measure.init (_channel self) ;;
         log <- Log.init (_channel self) ;;
         trig <- Trigger.init (_channel self) ;;
         prot <- Protection.init (_channel self) ;;
         ret (self, {| meas := meas; log := log; trig := trig; prot := prot |})) st
  end.

End Channel.

(* ================================================================== *)
(** ** class Display, class Format, class Device *)
(* ================================================================== *)

Module Display.

Record object := { values : nat }.

Definition enable (self : object) (set_enable_on_off : pyobj) : M pyobj :=
  let query := ":DISP:ENAB?" in
  let write := ":DISP:ENAB" in
  Command.read_write query write (Callable ValidateDisplay.on_off)
    set_enable_on_off (Some (values self, "display_on")).

Definition on (self : object) : M unit := enable self (VStr "ON") ;; ret tt.

Definition off (self : object) : M unit := enable self (VStr "OFF") ;; ret tt.

Definition channel (self : object) (set_channel : pyobj) : M pyobj :=
  let query := ":DISP:CHAN?" in
  let write := ":DISP:CHAN" in
  Command.read_write query write (Callable ValidateDisplay.channel)
    set_channel (Some (values self, "display_channel")).

(** [Display(bus)] *)
Definition init : M object :=
  fun st =>
    let self := {| values := Log.new_address (dicts st) |} in
    (Log.dict_new (values self) ∅ ;;
     display_on <- enable self VNone ;;
     display_channel <- channel self VNone ;;
     Log.dict_new (values self)
       (<["display_channel" := display_channel]>
          (<["display_on" := display_on]> ∅)) ;;
     ret self) st.

End Display.

Module Format.

Record object := { values : nat }.

Definition data (self : object) (set_data : pyobj) : M pyobj :=
  let query := ":FORM:DATA?" in
  let write := ":FORM:DATA" in
  Command.read_write query write (Callable ValidateFormat.data)
    set_data (Some (values self, "data_format")).

Definition border (self : object) (set_border : pyobj) : M pyobj :=
  let query := ":FORM:BORD?" in
  let write := ":FORM:BORD" in
  Command.read_write query write (Callable ValidateFormat.border)
    set_border (Some (values self, "byte_order")).

(** [Format(bus, char_val)]: the two cached parameters are queried, and
    then the data format is set to [char_val]. *)
Definition init (char_val : pyobj) : M object :=
  fun st =>
    let self := {| values := Log.new_address (dicts st) |} in
    (Log.dict_new (values self) ∅ ;;
     data_format <- data self VNone ;;
     byte_order <- border self VNone ;;
     Log.dict_new (values self)
       (<["byte_order" := byte_order]>
          (<["data_format" := data_format]> ∅)) ;;
     data self char_val ;;
     ret self) st.

End Format.

Module Device.

(** A [Device] object: its shortcut objects ([status] holds no state). *)
Record object := {
  display : Display.object;
  format : Format.object;
  cha : Channel.object * Channel.shortcuts;
  chb : Channel.object * Channel.shortcuts;
  relay : RelayControl.object
}.

(** [Device(visa_addr)] from the point where the bus is open: the
    shortcut objects are constructed in order; [Status(bus)] touches
    neither the bus nor the heap. *)
Definition init : M object :=
  display <- Display.init ;;
  format <- Format.init (VStr "ASC") ;;
  cha <- Channel.init (VStr "A") ;;
  chb <- Channel.init (VStr "B") ;;
  relay <- RelayControl.init ;;
  ret {| display := display; format := format; cha := cha; chb := chb;
         relay := relay |}.

Definition all_on : M unit :=
  Command.write ":CONF:A:COMM:OUTP:ONOF ON" None ;;
  Command.write ":OUT:A ON" None ;;
  Command.write ":CONF:A:COMM:OUTP:ONOF OFF" None.

Definition all_off : M unit :=
  Command.write ":CONF:A:COMM:OUTP:ONOF ON" None ;;
  Command.write ":OUT:A OFF" None ;;
  Command.write ":CONF:A:COMM:OUTP:ONOF OFF" None.

End Device.

(* ================================================================== *)
(** ** Observations on a run *)
(* ================================================================== *)

(** The commands written on the bus, oldest first. *)
Fixpoint writes (t : list bus_op) : list string :=
  match t with
  | [] => []
  | BusWrite c :: t' => c :: writes t'
  | _ :: t' => writes t'
  end.

(** The queries issued on the bus with their replies, oldest first. *)
Fixpoint queries (t : list bus_op) : list (string * string) :=
  match t with
  | [] => []
  | BusQuery c r :: t' => (c, r) :: queries t'
  | _ :: t' => queries t'
  end.

(** [d[key]] on the dict at [d], when both exist. *)
Definition cached (st : state) (d : nat) (key : string) : option pyobj :=
  dicts st !! d ≫= (fun m => m !! key).

(** Whether a validator returns a token for the value. *)
Definition accepted_by (f : validator) (v : pyobj) : bool :=
  match f v with
  | inr (Token _) => true
  | _ => false
  end.

(** The last bus operation of a run. *)
Definition final_op (st : state) : option bus_op := last (trace st).

(** A mock instrument that answers its queries with [answers], in order
    (and with the empty string once they are used up), on a fresh bus and
    an empty heap. *)
(** Room for any array the scenarios below build. *)
Definition plenty : Z := 2 ^ 30.

Definition script (answers : list string) : nat -> string :=
  fun n => nth n answers EmptyString.

Definition mock (answers : list string) (srq : bool) : state :=
  {| replies := script answers; asked := 0;
     srq_arrives := fun _ => srq; waited := 0;
     trace := []; dicts := ∅; arrays := ∅; stdout := [];
     memory := plenty |}.

(** The [reading_avail] bit [start_sample] tests on the channel of [self]. *)
Definition reading_avail_of (self : Log_object) : Z :=
  if String.eqb (_channel self) "A" then 32 else 256.

(** The reply to the [k]-th query from now on. *)
Definition upcoming (st : state) (k : nat) : string :=
  replies st (asked st + k).

(** What [start_sample] needs of the fetched [data], of the cache [d]
    and of the [room] left to get through its data-ready branch without
    an exception: every conversion succeeds and the time axis fits. *)
Definition data_ready_ok (room : Z) (d : gmap string pyobj) (data : string) : bool :=
  match d !! "sample_channel", Log.parse_samples data,
        d !! "sample_interval", d !! "sample_length" with
  | Some _, inr _, Some interval, Some length =>
      match Py.float interval, Py.int length with
      | inr x, inr n =>
          match Log.float_times_int x n with
          | inr stop =>
              match Log.arange_from_zero room stop x with
              | inr _ => true
              | inl _ => false
              end
          | inl _ => false
          end
      | _, _ => false
      end
  | _, _, _, _ => false
  end.

(** A [Log] object on channel A whose dicts live at address 0. *)
Definition log_a : Log_object :=
  {| _channel := "A"; values := 0; log_data := 0 |}.

(** The cache of [log_a] as [Log.init] leaves it, for given replies. *)
Definition cache_of (source interval length : string) : gmap string pyobj :=
  <["sample_length" := VStr length]>
    (<["sample_interval" := VStr interval]>
       (<["sample_type" := VStr "AVER"]>
          (<["sample_channel" := VStr source]>
             (<["sampling_on" := VStr "0"]> ∅)))).

(** A mock instrument with [log_a] already constructed. *)
Definition mock_with_log (cache : gmap string pyobj) (answers : list string)
    (srq : bool) : state :=
  {| replies := script answers; asked := 0;
     srq_arrives := fun _ => srq; waited := 0;
     trace := []; dicts := {[ 0%nat := cache ]}; arrays := {[ 0%nat := ∅ ]};
     stdout := [];
     memory := plenty |}.

(** Construct a [Log] on channel A, select the current as the sample
    source, and run one acquisition. *)
Definition select_current_then_sample : M Log_object :=
  self <- Log.init "A" ;;
  Log.sample_channel self (VStr "curr") ;;
  Log.start_sample self ;;
  ret self.

(** [a[key]] on the [log_data] dict at [a], when both exist. *)
Definition logged (st : state) (a : nat) (key : string) : option Num.ndarray :=
  arrays st !! a ≫= (fun m => m !! key).

(** What [start_sample] writes to the enable register and to arm the
    channel of [self]. *)
Definition arm_commands (self : Log_object) : string * string :=
  if String.eqb (_channel self) "A" then ("56", "*AARM") else ("448", "*BARM").

(** The bus operations of [start_sample] up to and including the second
    read of the event register. *)
Definition arming_ops (self : Log_object) (st : state) : list bus_op :=
  [BusWrite ":SYST:CLE";
   BusQuery ":STAT:MEAS:EVEN?" (upcoming st 0);
   BusQuery ":STAT:MEAS:ENAB?" (upcoming st 1);
   BusWrite (":STAT:MEAS:ENAB " +:+ fst (arm_commands self));
   BusWrite "*SRE 1"; BusWrite "*WAI";
   BusWrite (snd (arm_commands self));
   BusWaitSrq 10000; BusWrite "*SRE 0";
   BusQuery ":STAT:MEAS:EVEN?" (upcoming st 2)].

(** The fetch of the array data, the fourth query of a run. *)
Definition fetch_op (self : Log_object) (st : state) : bus_op :=
  BusQuery (":FETC:" +:+ _channel self +:+ ":ARR?") (upcoming st 3).

(** The write-back of the saved enable value, which is sent when
    [register_16] accepts the value. *)
Definition restore_ops (enable_reg : Z) : list bus_op :=
  if accepted_by ValidateRegister.register_16 (VInt enable_reg)
  then [BusWrite (":STAT:MEAS:ENAB " +:+ Text.of_Z enable_reg)] else [].

(** [log_a] constructed, enable register at 7, and an instrument that
    raises its request with [reading_avail] set and three samples. *)
Definition ready_state : state :=
  mock_with_log (cache_of "DVM" "0.01" "100")
    ["0"; "7"; "32"; "1.0;2.0;3.0"] true.

(** The same, but the array data ends in a separator. *)
Definition broken_fetch_state : state :=
  mock_with_log (cache_of "DVM" "0.01" "100")
    ["0"; "7"; "32"; "1.0;2.0;"] true.

(** An instrument that reports the source [DVM] when the [Log] is
    constructed and confirms [CURR] when the source is set. *)
Definition switched_state : state :=
  mock ["0"; "DVM"; "AVER"; "0.01"; "100"; "CURR";
        "0"; "7"; "32"; "1.0;2.0;3.0"] true.

(** The time axis of 100 points spaced by 0.01: entry [i] is [i * 0.01]
    in binary64. *)
Definition time_axis : list spec_float :=
  List.map (fun i => Num.fmul (Num.of_Z (Z.of_nat i)) Lit.f0_01) (seq 0 100).

(* ================================================================== *)
(** ** Further observations and scenarios *)
(* ================================================================== *)

(** [lo <= z <= hi], both ends included. *)
Definition in_range (lo hi z : Z) : bool := (lo <=? z) && (z <=? hi).

(** The exception raised for an error object of a validator. *)
Definition raised (kind : error_kind) (msg : string) : exn :=
  match kind with
  | ValueError => RaisedValueError msg
  | TypeError => RaisedTypeError msg
  end.

(** Call [f] on each item in turn. *)
Fixpoint for_each {A B} (f : A -> M B) (l : list A) : M unit :=
  match l with
  | [] => ret tt
  | x :: l' => f x ;; for_each f l'
  end.

(** The [trigger_timeout] and [meas_overflow] bits [start_sample] tests
    on the channel of [self]. *)
Definition trigger_timeout_of (self : Log_object) : Z :=
  if String.eqb (_channel self) "A" then 16 else 128.

Definition meas_overflow_of (self : Log_object) : Z :=
  if String.eqb (_channel self) "A" then 8 else 64.

(** What a run prints when [meas_overflow] is set in the event value. *)
Definition overflow_warning (self : Log_object) (ev : Z) : list string :=
  if Log.truthy (Z.land ev (meas_overflow_of self))
  then ["Warning: measurement range overflow on channel: " +:+ _channel self]
  else [].

(** The bus operations of [start_sample] up to and including the wait. *)
Definition armed_ops (self : Log_object) (st : state) : list bus_op :=
  [BusWrite ":SYST:CLE";
   BusQuery ":STAT:MEAS:EVEN?" (upcoming st 0);
   BusQuery ":STAT:MEAS:ENAB?" (upcoming st 1);
   BusWrite (":STAT:MEAS:ENAB " +:+ fst (arm_commands self));
   BusWrite "*SRE 1"; BusWrite "*WAI";
   BusWrite (snd (arm_commands self));
   BusWaitSrq 10000].

(** [log_a] constructed, enable register at 7, and no service request
    within the time-out. *)
Definition silent_state : state :=
  mock_with_log (cache_of "DVM" "0.01" "100") ["0"; "7"] false.

(** The enable register is reported as [7.0]. *)
Definition garbled_enable_state : state :=
  mock_with_log (cache_of "DVM" "0.01" "100") ["0"; "7.0"] true.

(** The second read of the event register gets an empty reply. *)
Definition garbled_event_state : state :=
  mock_with_log (cache_of "DVM" "0.01" "100") ["0"; "7"] true.

(** The event register reports [trigger_timeout] and [meas_overflow]. *)
Definition timed_out_state : state :=
  mock_with_log (cache_of "DVM" "0.01" "100") ["0"; "7"; "24"] true.

(** A [Measure] object on channel A whose [values] live at address 0,
    and a mock instrument with that object constructed. *)
Definition measure_a : Measure.object :=
  {| Measure._channel := "A"; Measure.values := 0 |}.

Definition mock_with_measure (sense : string) (answers : list string) : state :=
  {| replies := script answers; asked := 0;
     srq_arrives := fun _ => true; waited := 0;
     trace := []; dicts := {[ 0%nat := <["sense" := VStr sense]> ∅ ]};
     arrays := ∅; stdout := [];
     memory := plenty |}.

(** A [Relay] object for relay 2, and a mock instrument with it
    constructed. *)
Definition relay_2 : Relay.object := {| Relay.values := 0 |}.

Definition mock_with_relay (answers : list string) : state :=
  {| replies := script answers; asked := 0;
     srq_arrives := fun _ => true; waited := 0;
     trace := [];
     dicts := {[ 0%nat := <["state" := VStr "0"]> (<["relay" := VStr "2"]> ∅) ]};
     arrays := ∅; stdout := [];
     memory := plenty |}.

(** The queries of [Channel(bus, channel)], in the order they are sent. *)
Definition channel_init_queries (ch : string) : list string :=
  [":OUTP:" +:+ ch +:+ ":STAT?";
   ":SOUR:" +:+ ch +:+ ":VOLT?";
   ":SOUR:" +:+ ch +:+ ":CURR?";
   ":SENS:" +:+ ch +:+ ":CURR:RANG?";
   ":SENS:" +:+ ch +:+ ":MEAS:INT?";
   ":SENS:" +:+ ch +:+ ":AVER:COUN?";
   ":OUTP:" +:+ ch +:+ ":IMP?";
   ":OUTP:" +:+ ch +:+ ":BAND?";
   ":SENS:" +:+ ch +:+ ":FUNC?";
   ":SENS:" +:+ ch +:+ ":PULS:MEAS:STAR?";
   ":SENS:" +:+ ch +:+ ":PULS:MEAS:CHAN?";
   ":SENS:" +:+ ch +:+ ":PULS:MEAS:TYPE?";
   ":SENS:" +:+ ch +:+ ":PULS:SAMP:INT?";
   ":SENS:" +:+ ch +:+ ":PULS:SAMP:LENG?";
   ":SENS:" +:+ ch +:+ ":PULS:TRIG:SOUR?";
   ":SENS:" +:+ ch +:+ ":PULS:TRIG:LEV:LOW?";
   ":SENS:" +:+ ch +:+ ":PULS:TRIG:LEV:HIGH?";
   ":SENS:" +:+ ch +:+ ":PULS:TRIG:LEV:DVM?";
   ":SENS:" +:+ ch +:+ ":PULS:TRIG:SLOP?";
   ":SENS:" +:+ ch +:+ ":PULS:TRIG:COUN?";
   ":SENS:" +:+ ch +:+ ":PULS:TRIG:OFFS?";
   ":SENS:" +:+ ch +:+ ":PULS:TRIG:TIM?"].

(** The [i]-th query of a list gets the [k + i]-th reply from now on. *)
Definition answered_from (st : state) (k : nat) (commands : list string)
    : list bus_op :=
  imap (fun i c => BusQuery c (upcoming st (k + i))) commands.

(** What the bus sees while a [Device] is constructed. *)
Definition device_init_ops (st : state) : list bus_op :=
  answered_from st 0 [":DISP:ENAB?"; ":DISP:CHAN?"; ":FORM:DATA?"; ":FORM:BORD?"] ++
  BusWrite ":FORM:DATA ASC" ::
  answered_from st 4
    (":FORM:DATA?" ::
     channel_init_queries "A" ++ channel_init_queries "B" ++
     [":OUTP:REL1?"; ":OUTP:REL2?"; ":OUTP:REL3?"; ":OUTP:REL4?"]).

(** A mock instrument that answers the two queries of [Format(bus, char_val)]. *)
Definition plain_state : state := mock ["ASC"; "NORM"] true.

(** The [i]-th query of a list gets the [i]-th reply from now on. *)
Definition answered (st : state) (commands : list string) : list bus_op :=
  imap (fun i c => BusQuery c (upcoming st i)) commands.

Lemma writes_app t1 t2 : writes (t1 ++ t2) = writes t1 ++ writes t2.
Proof.
  induction t1 as [|o t1 IH]; [reflexivity|].
  destruct o; simpl; rewrite IH; reflexivity.
Qed.

(* ================================================================== *)
(** ** Command.read_write *)
(* ================================================================== *)

Section ReadWrite.

Variables (query write : string) (f : validator) (value : pyobj).
Hypothesis present : value <> VNone.

(** A value the validator turns down: the warning is printed and
    nothing else happens. *)
Lemma read_write_rejected_run value_dict kind msg st :
  f value = inr (Error kind msg) ->
  Command.read_write query write (Callable f) value value_dict st =
  (inr VNone,
   {| replies := replies st; asked := asked st;
      srq_arrives := srq_arrives st; waited := waited st;
      trace := trace st; dicts := dicts st; arrays := arrays st;
      stdout := stdout st ++ [Validate.error_text Validate.WARNING msg];
        memory := memory st |}).
Proof using present.
  intros Hf. unfold Command.read_write.
  destruct value; try congruence;
    unfold bind, lift; rewrite Hf; reflexivity.
Qed.

(** A value the validator accepts, with a cache to refresh. *)
Lemma read_write_accepted_cached_run d key tok st :
  f value = inr (Token tok) ->
  Command.read_write query write (Callable f) value (Some (d, key)) st =
  (inr VNone,
   {| replies := replies st; asked := S (asked st);
      srq_arrives := srq_arrives st; waited := waited st;
      trace := (trace st ++ [BusWrite (write +:+ " " +:+ Py.str value)])
               ++ [BusQuery query (replies st (asked st))];
      dicts := <[d := <[key := VStr (replies st (asked st))]>
                        (default ∅ (dicts st !! d))]> (dicts st);
      arrays := arrays st; stdout := stdout st;
        memory := memory st |}).
Proof using present.
  intros Hf. unfold Command.read_write.
  destruct value; try congruence;
    unfold bind, lift; rewrite Hf; reflexivity.
Qed.


End ReadWrite.



(** C6.  A call of [read_write] with a value the validator rejects
    (with either error kind) prints one diagnostic, issues no bus
    operation, leaves every dict as it was, and returns [None]. *)
Theorem read_write_rejected_is_silent
    (query write : string) (f : validator) (value : pyobj)
    (value_dict : option (nat * string)) (kind : error_kind) (msg : string)
    (st : state) :
  value <> VNone ->
  f value = inr (Error kind msg) ->
  exists st',
    Command.read_write query write (Callable f) value value_dict st
      = (inr VNone, st') /\
    stdout st' = stdout st ++ [Validate.error_text Validate.WARNING msg] /\
    trace st' = trace st /\
    asked st' = asked st /\
    dicts st' = dicts st.
Proof.
  intros Hv Hf. eexists. split.
  - apply (read_write_rejected_run query write f value Hv value_dict kind msg st Hf).
  - simpl. repeat split.
Qed.

Lemma read_write_rejected_is_silent_witness :
  VInt 200 <> VNone /\
  (exists msg,
     ValidateRegister.register_8 (VInt 200) = inr (Error ValueError msg) /\
     exists st',
       Command.read_write "*SRE?" "*SRE" (Callable ValidateRegister.register_8)
         (VInt 200) None (mock [] true) = (inr VNone, st') /\
       stdout st' = stdout (mock [] true) ++
                    [Validate.error_text Validate.WARNING msg] /\
       trace st' = trace (mock [] true) /\
       asked st' = asked (mock [] true) /\
       dicts st' = dicts (mock [] true)).
Proof.
  split; [discriminate|]. eexists. split; [reflexivity|].
  apply (read_write_rejected_is_silent "*SRE?" "*SRE"
           ValidateRegister.register_8 (VInt 200) None ValueError _
           (mock [] true)); [discriminate | reflexivity].
Defined.




(** C10.  Whatever is passed to [opc], the call takes the read path: it
    issues the one query [*OPC?], returns the reply, and writes nothing. *)
Theorem opc_always_queries (reg_value : pyobj) (st : state) :
  exists st',
    Common.opc reg_value st = (inr (VStr (upcoming st 0)), st') /\
    trace st' = trace st ++ [BusQuery "*OPC?" (upcoming st 0)] /\
    writes (trace st') = writes (trace st).
Proof.
  unfold upcoming. rewrite Nat.add_0_r. eexists. split; [reflexivity|].
  simpl. split; [reflexivity|].
  rewrite writes_app. simpl. apply app_nil_r.
Qed.

(* ================================================================== *)
(** ** The validators *)
(* ================================================================== *)

Lemma int_range_spec (x a b : Z) :
  Validate.int_range x (a, b) = true <-> a <= x <= b.
Proof. unfold Validate.int_range. simpl. lia. Qed.

(** C7.  [register_8] tests against [(0, 128)]: it accepts the integers
    from 0 to 128 and no other, so 255, a value an 8-bit register can
    hold, gets a [ValueError]. *)
Theorem register_8_stops_at_128 :
  ValidateRegister.register_8 (VInt 255)
    = inr (Error ValueError
             ("ValueError!" +:+ nl +:+ "Not in range:(int) (0, 128)")) /\
  forall z : Z,
    accepted_by ValidateRegister.register_8 (VInt z) = true <-> 0 <= z <= 128.
Proof.
  split; [reflexivity|].
  intros z. unfold accepted_by, ValidateRegister.register_8, Validate.int_rng_tuple.
  simpl Py.as_int. cbv iota beta.
  pose proof (int_range_spec z 0 128) as H.
  destruct (Validate.int_range z (0, 128)); simpl.
  - split; [intros _; apply H; reflexivity | reflexivity].
  - split; [discriminate | intros Hz; apply H in Hz; discriminate].
Qed.

(** C1.  The alias test of [float_rng_and_str_tuples] is a substring
    test on the printed tuple: [voltage] accepts ['m'], which is no
    entry of its alias set. *)
Theorem voltage_accepts_alias_fragment :
  ValidateChannel.voltage (VStr "m") = inr (Token "M") /\
  ~ In (Text.lower "m") ["min"; "max"; "def"; "default"].
Proof.
  split; [reflexivity|].
  simpl. intros [H|[H|[H|[H|[]]]]]; discriminate.
Qed.



(* ================================================================== *)
(** ** Log.start_sample *)
(* ================================================================== *)

(** [data_ready_ok] spelled out: every step of the data-ready branch has
    a result. *)
Lemma data_ready_ok_inv (room : Z) (d : gmap string pyobj) (data : string) :
  data_ready_ok room d data = true ->
  exists source a interval length x len stop seconds,
    d !! "sample_channel" = Some source /\
    Log.parse_samples data = inr a /\
    d !! "sample_interval" = Some interval /\
    d !! "sample_length" = Some length /\
    Py.float interval = inr x /\
    Py.int length = inr len /\
    Log.float_times_int x len = inr stop /\
    Log.arange_from_zero room stop x = inr seconds.
Proof.
  unfold data_ready_ok.
  destruct (d !! "sample_channel") as [source|] eqn:H1; [|discriminate].
  destruct (Log.parse_samples data) as [|a] eqn:H2; [discriminate|].
  destruct (d !! "sample_interval") as [interval|] eqn:H3; [|discriminate].
  destruct (d !! "sample_length") as [length|] eqn:H4; [|discriminate].
  destruct (Py.float interval) as [|x] eqn:H5; [discriminate|].
  destruct (Py.int length) as [|len] eqn:H6; [discriminate|].
  destruct (Log.float_times_int x len) as [|stop] eqn:H7; [discriminate|].
  destruct (Log.arange_from_zero room stop x) as [|seconds] eqn:H8; [discriminate|].
  intros _. exists source, a, interval, length, x, len, stop, seconds.
  repeat split; assumption.
Qed.

Lemma truthy_true (z : Z) : Log.truthy z = true -> z <> 0.
Proof. unfold Log.truthy. destruct (Z.eqb_spec z 0); [discriminate | trivial]. Qed.


Ltac normalise_script st :=
  unfold arming_ops, fetch_op, upcoming in *;
  replace (asked st + 0)%nat with (asked st) in * by lia;
  replace (asked st + 1)%nat with (S (asked st)) in * by lia;
  replace (asked st + 2)%nat with (S (S (asked st))) in * by lia;
  replace (asked st + 3)%nat with (S (S (S (asked st)))) in * by lia.

Ltac unfold_driver :=
  unfold Log.start_sample, bind, Status.clear_error_queue,
    Status.get_meas_event_reg, Status.meas_enable_reg, Common.sre, Common.wait,
    Command.read_write, Command.read, Command.write, free_memory, lift, ret.

Ltac run_bus :=
  unfold Bus.wait_for_srq, Bus.query, Bus.write, dict_get, array_set, print, raise;
  simpl.

Lemma register_16_verdict (e : Z) :
  ValidateRegister.register_16 (VInt e) =
  inr (if accepted_by ValidateRegister.register_16 (VInt e)
       then Token (Text.of_Z e)
       else Error ValueError
              ("ValueError!" +:+ nl +:+ "Not in range:(int) (0, 65535)")).
Proof.
  unfold accepted_by, ValidateRegister.register_16, Validate.int_rng_tuple.
  simpl Py.as_int. cbv iota beta.
  destruct (Validate.int_range e (0, 65535)); reflexivity.
Qed.

Ltac close_run :=
  unfold bind; simpl; eexists;
  split; [reflexivity|]; simpl;
  split; [repeat rewrite <- app_assoc; reflexivity | ].

Ltac finish_run e :=
  simpl; rewrite (register_16_verdict e); unfold restore_ops;
  destruct (accepted_by ValidateRegister.register_16 (VInt e)); close_run.

(** A run that finds no reading: the log stays empty. *)
Lemma start_sample_without_data (self : Log_object) (st : state) (e ev : Z) :
  srq_arrives st (waited st) = true ->
  Num.int_of_string (upcoming st 1) = Some e ->
  Num.int_of_string (upcoming st 2) = Some ev ->
  Log.truthy (Z.land ev (reading_avail_of self)) = false ->
  exists st',
    Log.start_sample self st = (inr tt, st') /\
    trace st' = trace st ++ arming_ops self st ++ restore_ops e /\
    arrays st' = <[log_data self := ∅]> (arrays st).
Proof.
  intros Hsrq He Hev Hra. normalise_script st.
  destruct st as [rep n srq w tr ds ars out room]. simpl in *.
  unfold_driver. simpl. rewrite He. simpl.
  unfold reading_avail_of, arm_commands in *.
  destruct (String.eqb (_channel self) "A"); simpl;
    unfold Bus.wait_for_srq; simpl; rewrite Hsrq; simpl; rewrite Hev; simpl;
    rewrite Hra; run_bus.
  - destruct (Log.truthy (Z.land ev 16)); simpl;
      destruct (Log.truthy (Z.land ev 8)); finish_run e; reflexivity.
  - destruct (Log.truthy (Z.land ev 128)); simpl;
      destruct (Log.truthy (Z.land ev 64)); finish_run e; reflexivity.
Qed.

(** A run that finds a reading and converts it: the log holds the series
    and the time axis. *)
Lemma start_sample_with_data (self : Log_object) (st : state) (e ev : Z)
    (source interval length : pyobj) (a seconds : Num.ndarray)
    (x stop : spec_float) (len : Z) :
  srq_arrives st (waited st) = true ->
  Num.int_of_string (upcoming st 1) = Some e ->
  Num.int_of_string (upcoming st 2) = Some ev ->
  Log.truthy (Z.land ev (reading_avail_of self)) = true ->
  default ∅ (dicts st !! values self) !! "sample_channel" = Some source ->
  Log.parse_samples (upcoming st 3) = inr a ->
  default ∅ (dicts st !! values self) !! "sample_interval" = Some interval ->
  default ∅ (dicts st !! values self) !! "sample_length" = Some length ->
  Py.float interval = inr x ->
  Py.int length = inr len ->
  Log.float_times_int x len = inr stop ->
  Log.arange_from_zero (memory st) stop x = inr seconds ->
  exists st',
    Log.start_sample self st = (inr tt, st') /\
    trace st' = trace st ++ arming_ops self st ++ [fetch_op self st] ++ restore_ops e /\
    arrays st' !! log_data self =
      Some (<["seconds" := seconds]>
              (<[(if Log.is_current_token source then "current" else "voltage") := a]> ∅)).
Proof.
  intros Hsrq He Hev Hra H1 H2 H3 H4 H5 H6 H7 H8. normalise_script st.
  destruct st as [rep n srq w tr ds ars out room]. simpl in *.
  unfold_driver. simpl. rewrite He. simpl.
  unfold reading_avail_of, arm_commands in *.
  destruct (String.eqb (_channel self) "A"); simpl;
    unfold Bus.wait_for_srq; simpl; rewrite Hsrq; simpl; rewrite Hev; simpl;
    rewrite Hra; run_bus; rewrite H1;
    destruct (Log.is_current_token source); simpl;
    rewrite H2; simpl; rewrite H3; simpl; rewrite H5; simpl; rewrite H4; simpl;
    rewrite H6; simpl; rewrite H7; simpl; rewrite H3; simpl; rewrite H5; simpl;
    rewrite H8; simpl.
  - destruct (Log.truthy (Z.land ev 8)); finish_run e;
      repeat (rewrite lookup_insert_eq; simpl); reflexivity.
  - destruct (Log.truthy (Z.land ev 8)); finish_run e;
      repeat (rewrite lookup_insert_eq; simpl); reflexivity.
  - destruct (Log.truthy (Z.land ev 64)); finish_run e;
      repeat (rewrite lookup_insert_eq; simpl); reflexivity.
  - destruct (Log.truthy (Z.land ev 64)); finish_run e;
      repeat (rewrite lookup_insert_eq; simpl); reflexivity.
Qed.

Lemma restore_ops_in_range (e : Z) :
  0 <= e <= 65535 ->
  restore_ops e = [BusWrite (":STAT:MEAS:ENAB " +:+ Text.of_Z e)].
Proof.
  intros H. unfold restore_ops, accepted_by, ValidateRegister.register_16,
    Validate.int_rng_tuple.
  simpl Py.as_int. cbv iota beta.
  replace (Validate.int_range e (0, 65535)) with true; [reflexivity|].
  symmetry. apply int_range_spec. exact H.
Qed.

Lemma cached_lookup (st : state) (d : nat) (key : string) (v : pyobj) :
  cached st d key = Some v -> default ∅ (dicts st !! d) !! key = Some v.
Proof.
  unfold cached. destruct (dicts st !! d); simpl; [trivial | discriminate].
Qed.

(** C4, amended.  In a run of [start_sample] in which the wait for the
    service request returns, the two register replies read as integers,
    the saved enable value lies in 0..65535, and (when [reading_avail] is
    set) the conversions of the data-ready branch succeed and the time
    axis fits the memory left, the run returns and its last bus
    operation writes the enable register back to the value read and
    saved at the start, whichever of the three branches the event
    register selects. *)
Theorem start_sample_restores_enable (self : Log_object) (st : state) (e ev : Z) :
  srq_arrives st (waited st) = true ->
  Num.int_of_string (upcoming st 1) = Some e ->
  0 <= e <= 65535 ->
  Num.int_of_string (upcoming st 2) = Some ev ->
  (Z.land ev (reading_avail_of self) <> 0 ->
   data_ready_ok (memory st) (default ∅ (dicts st !! values self)) (upcoming st 3) = true) ->
  exists st',
    Log.start_sample self st = (inr tt, st') /\
    trace st' = trace st ++ arming_ops self st ++
                (if Log.truthy (Z.land ev (reading_avail_of self))
                 then [fetch_op self st] else []) ++
                [BusWrite (":STAT:MEAS:ENAB " +:+ Text.of_Z e)] /\
    final_op st' = Some (BusWrite (":STAT:MEAS:ENAB " +:+ Text.of_Z e)).
Proof.
  intros Hsrq He Hrange Hev Hdata.
  destruct (Log.truthy (Z.land ev (reading_avail_of self))) eqn:Hra.
  - destruct (data_ready_ok_inv _ _ _ (Hdata (truthy_true _ Hra)))
      as (source & a & interval & length & x & len & stop & seconds &
          H1 & H2 & H3 & H4 & H5 & H6 & H7 & H8).
    destruct (start_sample_with_data self st e ev source interval length a
                seconds x stop len Hsrq He Hev Hra H1 H2 H3 H4 H5 H6 H7 H8)
      as (st' & Hrun & Htrace & _).
    rewrite (restore_ops_in_range e Hrange) in Htrace.
    exists st'. split; [exact Hrun|]. split; [exact Htrace|].
    unfold final_op. rewrite Htrace, !app_assoc. apply last_snoc.
  - destruct (start_sample_without_data self st e ev Hsrq He Hev Hra)
      as (st' & Hrun & Htrace & _).
    rewrite (restore_ops_in_range e Hrange) in Htrace.
    exists st'. split; [exact Hrun|]. split; [exact Htrace|].
    unfold final_op. rewrite Htrace, !app_assoc. apply last_snoc.
Qed.

(** The data-ready branch on channel A, enable register at 7. *)
Lemma start_sample_restores_enable_witness :
  srq_arrives ready_state (waited ready_state) = true /\
  Num.int_of_string (upcoming ready_state 1) = Some 7 /\
  0 <= 7 <= 65535 /\
  Num.int_of_string (upcoming ready_state 2) = Some 32 /\
  (Z.land 32 (reading_avail_of log_a) <> 0 ->
   data_ready_ok (memory ready_state) (default ∅ (dicts ready_state !! values log_a))
     (upcoming ready_state 3) = true) /\
  exists st',
    Log.start_sample log_a ready_state = (inr tt, st') /\
    trace st' = trace ready_state ++ arming_ops log_a ready_state ++
                (if Log.truthy (Z.land 32 (reading_avail_of log_a))
                 then [fetch_op log_a ready_state] else []) ++
                [BusWrite (":STAT:MEAS:ENAB " +:+ Text.of_Z 7)] /\
    final_op st' = Some (BusWrite (":STAT:MEAS:ENAB " +:+ Text.of_Z 7)).
Proof.
  split; [reflexivity|]. split; [reflexivity|]. split; [lia|].
  split; [reflexivity|]. split; [intros _; vm_compute; reflexivity|].
  apply (start_sample_restores_enable log_a ready_state 7 32);
    [reflexivity | reflexivity | lia | reflexivity | intros _; vm_compute; reflexivity].
Defined.

(** C4, as stated, fails: the wait returns, [reading_avail] is set, and
    the array data has an empty last piece; the conversion raises, the
    run ends on the fetch, and the enable register keeps the 56 the run
    programmed instead of the saved 7. *)
Lemma start_sample_skips_restore_on_bad_data :
  fst (Log.start_sample log_a broken_fetch_state)
    = inl (RaisedValueError "could not convert string to float: ''") /\
  trace (snd (Log.start_sample log_a broken_fetch_state))
    = [BusWrite ":SYST:CLE";
       BusQuery ":STAT:MEAS:EVEN?" "0";
       BusQuery ":STAT:MEAS:ENAB?" "7";
       BusWrite ":STAT:MEAS:ENAB 56";
       BusWrite "*SRE 1"; BusWrite "*WAI"; BusWrite "*AARM";
       BusWaitSrq 10000; BusWrite "*SRE 0";
       BusQuery ":STAT:MEAS:EVEN?" "32";
       BusQuery ":FETC:A:ARR?" "1.0;2.0;"] /\
  final_op (snd (Log.start_sample log_a broken_fetch_state))
    <> Some (BusWrite ":STAT:MEAS:ENAB 7").
Proof.
  split; [vm_compute; reflexivity|]. split; [vm_compute; reflexivity|].
  vm_compute. discriminate.
Qed.

(** C5.  [sample_channel] stores the confirmed source under the key
    ['sample_source'], and [start_sample] reads ['sample_channel'], which
    only the constructor fills: after the source has been set to the
    current and the instrument has confirmed [CURR], a run still files
    its samples as voltage. *)
Theorem sample_channel_selection_not_read :
  fst (select_current_then_sample switched_state) = inr log_a /\
  In (":SENS:A:PULS:MEAS:CHAN?", "CURR")
     (queries (trace (snd (select_current_then_sample switched_state)))) /\
  cached (snd (select_current_then_sample switched_state)) 0 "sample_source"
    = Some (VStr "CURR") /\
  cached (snd (select_current_then_sample switched_state)) 0 "sample_channel"
    = Some (VStr "DVM") /\
  logged (snd (select_current_then_sample switched_state)) 0 "current" = None /\
  logged (snd (select_current_then_sample switched_state)) 0 "voltage"
    = Some {| Num.nd_dtype := Num.Float32;
              Num.nd_data := [Lit.s1_0; Lit.s2_0; Lit.s3_0] |}.
Proof.
  split; [vm_compute; reflexivity|].
  split; [vm_compute; tauto|].
  repeat split; vm_compute; reflexivity.
Qed.

Lemma logged_lookup (st : state) (a : nat) (m : gmap string Num.ndarray) (key : string) :
  arrays st !! a = Some m -> logged st a key = m !! key.
Proof. unfold logged. intros ->. reflexivity. Qed.

(** More room never hurts [np.arange]. *)
Lemma arange_from_zero_room (room room' : Z) (stop step : spec_float)
    (a : Num.ndarray) :
  room <= room' ->
  Log.arange_from_zero room stop step = inr a ->
  Log.arange_from_zero room' stop step = inr a.
Proof.
  intros Hle. unfold Log.arange_from_zero, Num.arange. cbv zeta.
  destruct (Num.is_zero step); [trivial|].
  destruct (Num.is_nan _); [trivial|].
  destruct (negb (Num.is_finite _)); [trivial|].
  destruct (_ || _); [trivial|].
  destruct (_ <=? 0); [trivial|].
  destruct (Num.intp_max <? _); [trivial|].
  destruct (Z.ltb_spec room (Num.itemsize *
              match Num.fdiv (Num.fsub stop (S754_zero false)) step with
              | S754_zero s0 =>
                  if Num.is_zero (Num.fsub stop (S754_zero false)) || s0 then 0 else 1
              | _ => Num.ceil (Num.fdiv (Num.fsub stop (S754_zero false)) step)
              end)) as [Hlt|Hge]; [discriminate|].
  destruct (Z.ltb_spec room' (Num.itemsize *
              match Num.fdiv (Num.fsub stop (S754_zero false)) step with
              | S754_zero s0 =>
                  if Num.is_zero (Num.fsub stop (S754_zero false)) || s0 then 0 else 1
              | _ => Num.ceil (Num.fdiv (Num.fsub stop (S754_zero false)) step)
              end)) as [Hlt'|Hge']; [lia | trivial].
Qed.

(** C9.  With [sample_length] 100 and [sample_interval] 0.01 in the
    cache, the event register reporting [reading_avail], the fetch
    answering [1.0;2.0;3.0], and room for the 800 bytes of the time
    axis, the run stores the series [1.0, 2.0, 3.0] (as ['f'] elements,
    under the key the cached source selects) and a time axis of exactly
    100 points, entry [i] being [i * 0.01], which starts
    [0.0, 0.01, 0.02]. *)
Theorem data_ready_scenario (self : Log_object) (st : state) (e ev : Z)
    (source : pyobj) :
  srq_arrives st (waited st) = true ->
  Num.int_of_string (upcoming st 1) = Some e ->
  Num.int_of_string (upcoming st 2) = Some ev ->
  Z.land ev (reading_avail_of self) <> 0 ->
  800 <= memory st ->
  upcoming st 3 = "1.0;2.0;3.0" ->
  cached st (values self) "sample_channel" = Some source ->
  cached st (values self) "sample_interval" = Some (VStr "0.01") ->
  cached st (values self) "sample_length" = Some (VStr "100") ->
  exists st',
    Log.start_sample self st = (inr tt, st') /\
    logged st' (log_data self)
      (if Log.is_current_token source then "current" else "voltage")
      = Some {| Num.nd_dtype := Num.Float32;
                Num.nd_data := [Lit.s1_0; Lit.s2_0; Lit.s3_0] |} /\
    logged st' (log_data self) "seconds"
      = Some {| Num.nd_dtype := Num.Float64; Num.nd_data := time_axis |} /\
    List.length time_axis = 100%nat /\
    firstn 3 time_axis = [Lit.f0_0; Lit.f0_01; Lit.f0_02].
Proof.
  intros Hsrq He Hev Hne Hroom Hdata Hsource Hinterval Hlength.
  assert (Hra : Log.truthy (Z.land ev (reading_avail_of self)) = true).
  { unfold Log.truthy. destruct (Z.eqb_spec (Z.land ev (reading_avail_of self)) 0);
      [contradiction | reflexivity]. }
  destruct (start_sample_with_data self st e ev source (VStr "0.01") (VStr "100")
              {| Num.nd_dtype := Num.Float32;
                 Num.nd_data := [Lit.s1_0; Lit.s2_0; Lit.s3_0] |}
              {| Num.nd_dtype := Num.Float64; Num.nd_data := time_axis |}
              Lit.f0_01 Lit.f1_0 100 Hsrq He Hev Hra)
    as (st' & Hrun & _ & Harrays).
  - apply cached_lookup, Hsource.
  - rewrite Hdata. vm_compute. reflexivity.
  - apply cached_lookup, Hinterval.
  - apply cached_lookup, Hlength.
  - vm_compute. reflexivity.
  - vm_compute. reflexivity.
  - vm_compute. reflexivity.
  - apply (arange_from_zero_room 800 (memory st)); [exact Hroom|].
    vm_compute. reflexivity.
  - exists st'. split; [exact Hrun|].
    rewrite !(logged_lookup st' _ _ _ Harrays).
    split.
    + destruct (Log.is_current_token source).
      * rewrite lookup_insert_ne by discriminate. apply lookup_insert_eq.
      * rewrite lookup_insert_ne by discriminate. apply lookup_insert_eq.
    + split; [apply lookup_insert_eq|]. split; vm_compute; reflexivity.
Qed.

(** The scenario on channel A with the source [DVM]. *)
Lemma data_ready_scenario_witness :
  srq_arrives ready_state (waited ready_state) = true /\
  Num.int_of_string (upcoming ready_state 1) = Some 7 /\
  Num.int_of_string (upcoming ready_state 2) = Some 32 /\
  Z.land 32 (reading_avail_of log_a) <> 0 /\
  800 <= memory ready_state /\
  upcoming ready_state 3 = "1.0;2.0;3.0" /\
  cached ready_state (values log_a) "sample_channel" = Some (VStr "DVM") /\
  cached ready_state (values log_a) "sample_interval" = Some (VStr "0.01") /\
  cached ready_state (values log_a) "sample_length" = Some (VStr "100") /\
  exists st',
    Log.start_sample log_a ready_state = (inr tt, st') /\
    logged st' (log_data log_a)
      (if Log.is_current_token (VStr "DVM") then "current" else "voltage")
      = Some {| Num.nd_dtype := Num.Float32;
                Num.nd_data := [Lit.s1_0; Lit.s2_0; Lit.s3_0] |} /\
    logged st' (log_data log_a) "seconds"
      = Some {| Num.nd_dtype := Num.Float64; Num.nd_data := time_axis |} /\
    List.length time_axis = 100%nat /\
    firstn 3 time_axis = [Lit.f0_0; Lit.f0_01; Lit.f0_02].
Proof.
  split; [reflexivity|]. split; [reflexivity|]. split; [reflexivity|].
  split; [vm_compute; discriminate|]. split; [vm_compute; discriminate|].
  split; [reflexivity|].
  split; [vm_compute; reflexivity|]. split; [vm_compute; reflexivity|].
  split; [vm_compute; reflexivity|].
  apply (data_ready_scenario log_a ready_state 7 32 (VStr "DVM"));
    try reflexivity; try (vm_compute; reflexivity); vm_compute; discriminate.
Defined.

(* ================================================================== *)
(** ** Validate: entries of an alias tuple, ranges *)
(* ================================================================== *)

Arguments Log.new_address : simpl never.

Lemma append_cons (c : ascii) (a b : string) : String c a +:+ b = String c (a +:+ b).
Proof. reflexivity. Qed.

Lemma append_empty (b : string) : EmptyString +:+ b = b.
Proof. reflexivity. Qed.

Lemma append_empty_r (a : string) : a +:+ EmptyString = a.
Proof. induction a as [|c a IH]; [reflexivity | rewrite append_cons, IH; reflexivity]. Qed.

Lemma string_app_assoc (a b c : string) : (a +:+ b) +:+ c = a +:+ b +:+ c.
Proof.
  induction a as [|x a IH]; [reflexivity|].
  rewrite !append_cons, IH. reflexivity.
Qed.

Lemma map_chars_app (f : ascii -> ascii) (a b : string) :
  Text.map_chars f (a +:+ b) = Text.map_chars f a +:+ Text.map_chars f b.
Proof.
  induction a as [|c a IH]; [reflexivity|].
  rewrite append_cons. cbn [Text.map_chars]. rewrite append_cons, IH. reflexivity.
Qed.

Lemma starts_with_app (x y : string) : Text.starts_with x (x +:+ y) = true.
Proof.
  induction x as [|c x IH]; [reflexivity|].
  rewrite append_cons. cbn [Text.starts_with].
  rewrite Ascii.eqb_refl. exact IH.
Qed.

Lemma contains_unfold (x y : string) :
  Text.contains x y =
  Text.starts_with x y ||
  match y with EmptyString => false | String _ y' => Text.contains x y' end.
Proof. destruct y; reflexivity. Qed.

Lemma contains_here (x y : string) : Text.contains x (x +:+ y) = true.
Proof. rewrite contains_unfold, starts_with_app. reflexivity. Qed.

Lemma contains_later (x a y : string) :
  Text.contains x y = true -> Text.contains x (a +:+ y) = true.
Proof.
  intros H. induction a as [|c a IH]; [exact H|].
  rewrite append_cons, contains_unfold, IH. apply orb_true_r.
Qed.

Lemma contains_middle (x a b : string) : Text.contains x (a +:+ x +:+ b) = true.
Proof. apply contains_later, contains_here. Qed.

Lemma upper_lower_char (c : ascii) :
  Text.upper_char (Text.lower_char c) = Text.upper_char c.
Proof. destruct c as [[] [] [] [] [] [] [] []]; reflexivity. Qed.

Lemma upper_lower (s : string) : Text.upper (Text.lower s) = Text.upper s.
Proof.
  unfold Text.upper, Text.lower.
  induction s as [|c s IH]; [reflexivity|].
  cbn [Text.map_chars]. rewrite upper_lower_char, IH. reflexivity.
Qed.

(** An item of a list occurs in the list joined with a separator. *)
Lemma join_has_entry (a : string) (l : list string) :
  In a l -> exists pre post, Text.join ", " l = pre +:+ a +:+ post.
Proof.
  induction l as [|x l IH]; [intros []|].
  intros [->|Hin].
  - destruct l as [|y l].
    + exists EmptyString, EmptyString.
      rewrite append_empty, append_empty_r. reflexivity.
    + exists EmptyString, (", " +:+ Text.join ", " (y :: l)). reflexivity.
  - destruct (IH Hin) as (pre & post & He).
    destruct l as [|y l]; [destruct Hin|].
    exists (x +:+ ", " +:+ pre), post.
    change (Text.join ", " (x :: y :: l)) with (x +:+ ", " +:+ Text.join ", " (y :: l)).
    rewrite He. rewrite !string_app_assoc. reflexivity.
Qed.

Lemma escaped_plain (c : ascii) :
  Text.is_plain_char c = true -> Py.escaped "'" c = String c EmptyString.
Proof. destruct c as [[] [] [] [] [] [] [] []]; try discriminate; reflexivity. Qed.

Lemma escape_all_plain (a : string) :
  Text.plain a = true -> Py.escape_all "'" a = a.
Proof.
  unfold Text.plain. induction a as [|c a IH]; [reflexivity|].
  cbn [Text.all_chars Py.escape_all]. intros H.
  apply andb_true_iff in H as [Hc Ha].
  rewrite (escaped_plain c Hc), (IH Ha). reflexivity.
Qed.

Lemma plain_has_no_quote (a : string) :
  Text.plain a = true -> Text.contains "'" a = false.
Proof.
  unfold Text.plain. induction a as [|c a IH]; [reflexivity|].
  cbn [Text.all_chars]. intros H. apply andb_true_iff in H as [Hc Ha].
  rewrite contains_unfold, (IH Ha). cbn [Text.starts_with].
  destruct c as [[] [] [] [] [] [] [] []]; try discriminate; reflexivity.
Qed.

(** [repr] puts plain text between single quotes and leaves it alone. *)
Lemma repr_str_plain (a : string) :
  Text.plain a = true -> Py.repr_str a = "'" +:+ a +:+ "'".
Proof.
  intros H. unfold Py.repr_str. cbv zeta.
  rewrite (plain_has_no_quote a H). cbn [andb].
  rewrite (escape_all_plain a H). reflexivity.
Qed.

(** A plain entry of a tuple of strings occurs in the text of the
    tuple. *)
Lemma aliases_text_has_entry (a : string) (l : list string) :
  Text.plain a = true ->
  In a l -> exists pre post, Validate.aliases_text l = pre +:+ a +:+ post.
Proof.
  intros Hplain Hin. unfold Validate.aliases_text, Py.tuple_text.
  assert (Hq : In ("'" +:+ a +:+ "'") (List.map Py.repr_str l)).
  { rewrite <- (repr_str_plain a Hplain). apply in_map. exact Hin. }
  destruct (List.map Py.repr_str l) as [|x [|y m]] eqn:Hm.
  - destruct Hq.
  - destruct Hq as [->|[]]. exists "('", "',)".
    rewrite !string_app_assoc. reflexivity.
  - destruct (join_has_entry _ _ Hq) as (pre & post & He). rewrite He.
    exists ("(" +:+ pre +:+ "'"), ("'" +:+ post +:+ ")").
    rewrite !string_app_assoc. reflexivity.
Qed.

(** The search every validator runs on a string finds each plain entry
    of the tuple, in any letter case. *)
Lemma alias_found (aliases : list string) (a s : string) :
  Text.plain a = true ->
  In a aliases -> Text.lower s = Text.lower a ->
  Validate.find_element (Text.lower s) (Text.lower (Validate.aliases_text aliases)) = true.
Proof.
  intros Hplain Hin Hs.
  destruct (aliases_text_has_entry a aliases Hplain Hin) as (pre & post & He).
  rewrite He, Hs. unfold Validate.find_element, Text.lower.
  rewrite !map_chars_app. apply contains_middle.
Qed.

(** X1.  [str_tuple] accepts every entry of its tuple of strings that is
    plain text (printable ASCII without quote or backslash, as every
    entry in the driver is), in any letter case and whatever else the
    tuple holds, and returns the argument in upper case. *)
Theorem str_tuple_accepts_entries (aliases : list string) (a s : string) :
  Text.plain a = true ->
  In a aliases ->
  Text.lower s = Text.lower a ->
  Validate.str_tuple aliases (VStr s) = inr (Token (Text.upper s)).
Proof.
  intros Hplain Hin Hs. unfold Validate.str_tuple.
  rewrite (alias_found aliases a s Hplain Hin Hs), upper_lower. reflexivity.
Qed.

Lemma str_tuple_accepts_entries_witness :
  Text.plain "curr" = true /\
  In "curr" ["current"; "curr"; "dvm"; "min"; "max"; "def"; "default"] /\
  Text.lower "Curr" = Text.lower "curr" /\
  Validate.str_tuple ["current"; "curr"; "dvm"; "min"; "max"; "def"; "default"]
    (VStr "Curr") = inr (Token (Text.upper "Curr")).
Proof.
  split; [reflexivity|]. split; [simpl; tauto|]. split; [reflexivity|].
  apply (str_tuple_accepts_entries _ "curr" "Curr");
    [reflexivity | simpl; tauto | reflexivity].
Defined.

(** X2.  The four validators that take a set of numbers and a tuple of
    strings accept, for a string argument, every plain entry of the
    tuple of strings in any letter case, and return the argument in
    upper case; the numbers play no part. *)
Theorem range_or_alias_accepts_entries
    (rng : Validate.range) (irng : Z * Z) (nums : list Py.number)
    (aliases : list string) (round_to : Z) (a s : string) :
  Text.plain a = true ->
  In a aliases ->
  Text.lower s = Text.lower a ->
  Validate.float_rng_and_str_tuples (rng, aliases) (VStr s) round_to
    = inr (Token (Text.upper s)) /\
  Validate.int_rng_and_str_tuples (irng, aliases) (VStr s)
    = inr (Token (Text.upper s)) /\
  Validate.float_and_str_tuples (nums, aliases) (VStr s)
    = inr (Token (Text.upper s)) /\
  Validate.int_and_str_tuples (nums, aliases) (VStr s)
    = inr (Token (Text.upper s)).
Proof.
  intros Hplain Hin Hs.
  unfold Validate.float_rng_and_str_tuples, Validate.int_rng_and_str_tuples,
    Validate.float_and_str_tuples, Validate.int_and_str_tuples.
  simpl. rewrite (alias_found aliases a s Hplain Hin Hs), upper_lower. repeat split.
Qed.

Lemma range_or_alias_accepts_entries_witness :
  Text.plain "max" = true /\
  In "max" ["min"; "max"; "def"; "default"] /\
  Text.lower "Max" = Text.lower "max" /\
  Validate.float_rng_and_str_tuples
    ({| Validate.low := Py.NFloat Lit.f0_0; Validate.high := Py.NInt 5 |},
     ["min"; "max"; "def"; "default"]) (VStr "Max") 3
    = inr (Token (Text.upper "Max")) /\
  Validate.int_rng_and_str_tuples ((1, 10), ["min"; "max"; "def"; "default"]) (VStr "Max")
    = inr (Token (Text.upper "Max")) /\
  Validate.float_and_str_tuples
    ([Py.NInt 0; Py.NInt 1], ["min"; "max"; "def"; "default"]) (VStr "Max")
    = inr (Token (Text.upper "Max")) /\
  Validate.int_and_str_tuples
    ([Py.NInt 0; Py.NInt 1], ["min"; "max"; "def"; "default"]) (VStr "Max")
    = inr (Token (Text.upper "Max")).
Proof.
  split; [reflexivity|]. split; [simpl; tauto|]. split; [reflexivity|].
  apply (range_or_alias_accepts_entries
           {| Validate.low := Py.NFloat Lit.f0_0; Validate.high := Py.NInt 5 |}
           (1, 10) [Py.NInt 0; Py.NInt 1] ["min"; "max"; "def"; "default"] 3
           "max" "Max"); [reflexivity | simpl; tauto | reflexivity].
Defined.

Lemma int_range_in_range (lo hi z : Z) :
  Validate.int_range z (lo, hi) = in_range lo hi z.
Proof.
  unfold Validate.int_range, in_range. simpl.
  destruct (lo <=? z); simpl; [|reflexivity].
  destruct (Z.ltb_spec z (hi + 1)), (Z.leb_spec z hi); try reflexivity; lia.
Qed.

(** X3.  For bounds that [str] prints (at most 4300 digits), the two
    validators of an integer range accept an [int] exactly when it lies
    between the two bounds, both included; a [bool] counts as the
    integer 1 or 0; and the accepted text is [str] of the argument as
    passed. *)
Theorem integer_ranges_are_inclusive (lo hi : Z) (aliases : list string) :
  Py.printable (Py.NInt lo) = true ->
  Py.printable (Py.NInt hi) = true ->
  (forall z : Z,
     accepted_by (Validate.int_rng_tuple (lo, hi)) (VInt z) = in_range lo hi z /\
     accepted_by (Validate.int_rng_and_str_tuples ((lo, hi), aliases)) (VInt z)
       = in_range lo hi z) /\
  (forall b : bool,
     accepted_by (Validate.int_rng_tuple (lo, hi)) (VBool b)
       = in_range lo hi (if b then 1 else 0) /\
     accepted_by (Validate.int_rng_and_str_tuples ((lo, hi), aliases)) (VBool b)
       = in_range lo hi (if b then 1 else 0)) /\
  (forall value : pyobj,
     match Py.as_int value, Validate.int_rng_tuple (lo, hi) value,
           Validate.int_rng_and_str_tuples ((lo, hi), aliases) value with
     | Some z, r1, r2 =>
         if in_range lo hi z
         then r1 = inr (Token (Py.str value)) /\ r2 = inr (Token (Py.str value))
         else accepted_by (Validate.int_rng_tuple (lo, hi)) value = false /\
              accepted_by (Validate.int_rng_and_str_tuples ((lo, hi), aliases)) value
                = false
     | None, r1, _ => accepted_by (Validate.int_rng_tuple (lo, hi)) value = false
     end).
Proof.
  intros _ _. split; [|split].
  - intros z. unfold accepted_by, Validate.int_rng_tuple, Validate.int_rng_and_str_tuples.
    simpl. rewrite int_range_in_range. destruct (in_range lo hi z); split; reflexivity.
  - intros b. unfold accepted_by, Validate.int_rng_tuple, Validate.int_rng_and_str_tuples.
    simpl. rewrite int_range_in_range.
    destruct (in_range lo hi (if b then 1 else 0)); split; reflexivity.
  - intros value.
    unfold accepted_by, Validate.int_rng_tuple, Validate.int_rng_and_str_tuples. simpl.
    destruct (Py.as_int value) as [z|]; [|reflexivity].
    rewrite int_range_in_range. destruct (in_range lo hi z); split; reflexivity.
Qed.

Lemma integer_ranges_are_inclusive_witness :
  Py.printable (Py.NInt 1) = true /\
  Py.printable (Py.NInt 4) = true /\
  accepted_by (Validate.int_rng_tuple (1, 4)) (VInt 4) = in_range 1 4 4 /\
  accepted_by (Validate.int_rng_tuple (1, 4)) (VBool true) = in_range 1 4 1.
Proof.
  split; [reflexivity|]. split; [reflexivity|].
  destruct (integer_ranges_are_inclusive 1 4 [] eq_refl eq_refl) as (Hz & Hb & _).
  split; [apply (Hz 4) | apply (Hb true)].
Defined.

(** X4.  A NaN is turned down by [float_rng_and_str_tuples] whatever
    the range (of bounds that [str] prints) and the rounding: the answer
    is the [ValueError] of a number out of range. *)
Theorem nan_is_out_of_every_range
    (validation_set : Validate.range * list string) (round_to : Z) :
  Py.printable (Validate.low (fst validation_set)) = true ->
  Py.printable (Validate.high (fst validation_set)) = true ->
  Validate.float_rng_and_str_tuples validation_set (VFloat S754_nan) round_to =
  inr (Error ValueError
         ("ValueError!" +:+ nl +:+
          "Not in range:(float, int) " +:+ Validate.range_text (fst validation_set) +:+ nl +:+
          "or in set:(str) " +:+ Validate.aliases_text (snd validation_set))).
Proof.
  intros _ _. destruct validation_set as [[lo hi] aliases].
  unfold Validate.float_rng_and_str_tuples, Validate.float_range, Py.number_le_float.
  simpl. destruct lo as [z|x]; simpl; [reflexivity|].
  destruct x; reflexivity.
Qed.

Lemma nan_is_out_of_every_range_witness :
  Py.printable (Py.NFloat Lit.f0_0) = true /\
  Py.printable (Py.NInt 5) = true /\
  Validate.float_rng_and_str_tuples
    ({| Validate.low := Py.NFloat Lit.f0_0; Validate.high := Py.NInt 5 |},
     ["min"; "max"; "def"; "default"]) (VFloat S754_nan) 3 =
  inr (Error ValueError
         ("ValueError!" +:+ nl +:+
          "Not in range:(float, int) " +:+
          Validate.range_text
            {| Validate.low := Py.NFloat Lit.f0_0; Validate.high := Py.NInt 5 |} +:+ nl +:+
          "or in set:(str) " +:+ Validate.aliases_text ["min"; "max"; "def"; "default"])).
Proof.
  split; [reflexivity|]. split; [reflexivity|].
  apply (nan_is_out_of_every_range
           ({| Validate.low := Py.NFloat Lit.f0_0; Validate.high := Py.NInt 5 |},
            ["min"; "max"; "def"; "default"]) 3); reflexivity.
Defined.

(* ================================================================== *)
(** ** Command.read_write: reading back, exceptions of a validator *)
(* ================================================================== *)

Lemma bind_ok {A B} (m : M A) (k : A -> M B) (st st' : state) (a : A) :
  m st = (inr a, st') -> bind m k st = k a st'.
Proof. intros H. unfold bind. rewrite H. reflexivity. Qed.

Lemma dict_get_ok (st : state) (d : nat) (key : string) (v : pyobj) :
  default ∅ (dicts st !! d) !! key = Some v -> dict_get d key st = (inr v, st).
Proof. intros H. unfold dict_get. rewrite H. reflexivity. Qed.

(** X5.  Setting a cached parameter and then reading it: the read sends
    one more query and returns its reply, and leaves in the cache the
    reply to the query of the set, not its own. *)
Theorem read_write_get_does_not_refresh_cache
    (query write : string) (f : validator) (validator : validator_arg)
    (value : pyobj) (d : nat) (key tok : string) (st : state) :
  value <> VNone ->
  f value = inr (Token tok) ->
  exists st',
    (Command.read_write query write (Callable f) value (Some (d, key)) ;;
     Command.read_write query write validator VNone (Some (d, key))) st
      = (inr (VStr (upcoming st 1)), st') /\
    trace st' = trace st ++
      [BusWrite (write +:+ " " +:+ Py.str value);
       BusQuery query (upcoming st 0);
       BusQuery query (upcoming st 1)] /\
    cached st' d key = Some (VStr (upcoming st 0)) /\
    stdout st' = stdout st.
Proof.
  intros Hv Hf. unfold upcoming. rewrite Nat.add_0_r, Nat.add_1_r.
  rewrite (bind_ok _ _ _ _ _
             (read_write_accepted_cached_run query write f value Hv d key tok st Hf)).
  eexists. split; [reflexivity|]. simpl.
  split; [rewrite <- !app_assoc; reflexivity|].
  split; [|reflexivity].
  unfold cached. simpl. rewrite lookup_insert_eq. simpl. apply lookup_insert_eq.
Qed.

Lemma read_write_get_does_not_refresh_cache_witness :
  VStr "max" <> VNone /\
  ValidateChannel.voltage (VStr "max") = inr (Token "MAX") /\
  exists st',
    (Command.read_write ":SOUR:A:VOLT?" ":SOUR:A:VOLT"
       (Callable ValidateChannel.voltage) (VStr "max") (Some (0%nat, "voltage")) ;;
     Command.read_write ":SOUR:A:VOLT?" ":SOUR:A:VOLT"
       (Callable ValidateChannel.voltage) VNone (Some (0%nat, "voltage")))
      (mock ["15.000"; "14.998"] true)
      = (inr (VStr (upcoming (mock ["15.000"; "14.998"] true) 1)), st') /\
    trace st' = trace (mock ["15.000"; "14.998"] true) ++
      [BusWrite (":SOUR:A:VOLT" +:+ " " +:+ Py.str (VStr "max"));
       BusQuery ":SOUR:A:VOLT?" (upcoming (mock ["15.000"; "14.998"] true) 0);
       BusQuery ":SOUR:A:VOLT?" (upcoming (mock ["15.000"; "14.998"] true) 1)] /\
    cached st' 0 "voltage" = Some (VStr (upcoming (mock ["15.000"; "14.998"] true) 0)) /\
    stdout st' = stdout (mock ["15.000"; "14.998"] true).
Proof.
  split; [discriminate|]. split; [vm_compute; reflexivity|].
  apply (read_write_get_does_not_refresh_cache ":SOUR:A:VOLT?" ":SOUR:A:VOLT"
           ValidateChannel.voltage (Callable ValidateChannel.voltage) (VStr "max")
           0%nat "voltage" "MAX" (mock ["15.000"; "14.998"] true));
    [discriminate | vm_compute; reflexivity].
Defined.

(** X6.  An exception raised inside the validator leaves [read_write]
    as it is: nothing is printed, sent or cached. *)
Theorem read_write_propagates_validator_exception
    (query write : string) (f : validator) (value : pyobj)
    (value_dict : option (nat * string)) (e : exn) (st : state) :
  value <> VNone ->
  f value = inl e ->
  Command.read_write query write (Callable f) value value_dict st = (inl e, st).
Proof.
  intros Hv Hf. unfold Command.read_write.
  destruct value; try congruence; unfold bind, lift; rewrite Hf; reflexivity.
Qed.

Lemma read_write_propagates_validator_exception_witness :
  VInt (10 ^ 400) <> VNone /\
  ValidateChannel.voltage (VInt (10 ^ 400))
    = inl (RaisedOverflowError "int too large to convert to float") /\
  Command.read_write ":SOUR:A:VOLT?" ":SOUR:A:VOLT"
    (Callable ValidateChannel.voltage) (VInt (10 ^ 400))
    (Some (0%nat, "voltage")) (mock [] true)
  = (inl (RaisedOverflowError "int too large to convert to float"), mock [] true).
Proof.
  split; [discriminate|]. split; [vm_compute; reflexivity|].
  apply (read_write_propagates_validator_exception ":SOUR:A:VOLT?" ":SOUR:A:VOLT"
           ValidateChannel.voltage (VInt (10 ^ 400)) (Some (0%nat, "voltage"))
           (RaisedOverflowError "int too large to convert to float") (mock [] true));
    [discriminate | vm_compute; reflexivity].
Defined.

(* ================================================================== *)
(** ** Constructors of Measure, Log and Trigger *)
(* ================================================================== *)

Ltac tidy :=
  cbv beta;
  cbn [replies asked srq_arrives waited trace dicts arrays stdout
       Channel.values Channel._channel Measure.values Measure._channel
       Trigger.values Trigger._channel Display.values Format.values
       values _channel log_data].

Ltac step := erewrite bind_ok by reflexivity; tidy.

Lemma new_address_above {A} (heap : gmap nat A) (k : nat) :
  is_Some (heap !! k) -> (k < Log.new_address heap)%nat.
Proof.
  unfold Log.new_address. revert k.
  apply (map_fold_weak_ind (fun r (m : gmap nat A) => forall k, is_Some (m !! k) -> (k < r)%nat)).
  - intros k [x Hx]. rewrite lookup_empty in Hx. discriminate.
  - intros i x m r Hi IH k Hk.
    destruct (decide (i = k)) as [->|Hne]; [lia|].
    rewrite lookup_insert_ne in Hk by exact Hne.
    specialize (IH k Hk). lia.
Qed.

Lemma new_address_fresh {A} (heap : gmap nat A) :
  heap !! Log.new_address heap = None.
Proof.
  destruct (heap !! Log.new_address heap) eqn:H; [|reflexivity].
  assert (Hs : is_Some (heap !! Log.new_address heap)) by (rewrite H; eauto).
  apply new_address_above in Hs. lia.
Qed.

Lemma lookup_insert_new_address {A} (heap : gmap nat A) (k : nat) (x y : A) :
  heap !! k = Some x ->
  <[Log.new_address heap := y]> heap !! k = Some x.
Proof.
  intros H. rewrite lookup_insert_ne; [exact H|].
  assert (Hs : is_Some (heap !! k)) by (rewrite H; eauto).
  apply new_address_above in Hs. lia.
Qed.

Lemma measure_init_run (ch : string) (st : state) :
  exists st',
    Measure.init ch st =
      (inr {| Measure._channel := ch; Measure.values := Log.new_address (dicts st) |}, st') /\
    replies st' = replies st /\
    asked st' = (asked st + 1)%nat /\
    trace st' = trace st ++
      [BusQuery (":SENS:" +:+ ch +:+ ":FUNC?") (upcoming st 0)] /\
    dicts st' = <[Log.new_address (dicts st) := <["sense" := VStr (upcoming st 0)]> ∅]>
                  (dicts st) /\
    arrays st' = arrays st.
Proof.
  unfold upcoming. rewrite Nat.add_0_r.
  eexists. split.
  { unfold Measure.init. cbv beta zeta. do 3 step. reflexivity. }
  simpl.
  split; [reflexivity|]. split; [lia|]. split; [reflexivity|].
  split; [apply insert_insert_eq | reflexivity].
Qed.

Lemma log_init_run (ch : string) (st : state) :
  exists st',
    Log.init ch st =
      (inr {| _channel := ch; values := Log.new_address (dicts st);
              log_data := Log.new_address (arrays st) |}, st') /\
    replies st' = replies st /\
    asked st' = (asked st + 5)%nat /\
    trace st' = trace st ++
      [BusQuery (":SENS:" +:+ ch +:+ ":PULS:MEAS:STAR?") (upcoming st 0);
       BusQuery (":SENS:" +:+ ch +:+ ":PULS:MEAS:CHAN?") (upcoming st 1);
       BusQuery (":SENS:" +:+ ch +:+ ":PULS:MEAS:TYPE?") (upcoming st 2);
       BusQuery (":SENS:" +:+ ch +:+ ":PULS:SAMP:INT?") (upcoming st 3);
       BusQuery (":SENS:" +:+ ch +:+ ":PULS:SAMP:LENG?") (upcoming st 4)] /\
    dicts st' = <[Log.new_address (dicts st) :=
                   <["sample_length" := VStr (upcoming st 4)]>
                     (<["sample_interval" := VStr (upcoming st 3)]>
                        (<["sample_type" := VStr (upcoming st 2)]>
                           (<["sample_channel" := VStr (upcoming st 1)]>
                              (<["sampling_on" := VStr (upcoming st 0)]> ∅))))]>
                (dicts st) /\
    arrays st' = <[Log.new_address (arrays st) := ∅]> (arrays st).
Proof.
  unfold upcoming.
  replace (asked st + 0)%nat with (asked st) by lia.
  replace (asked st + 1)%nat with (S (asked st)) by lia.
  replace (asked st + 2)%nat with (S (S (asked st))) by lia.
  replace (asked st + 3)%nat with (S (S (S (asked st)))) by lia.
  replace (asked st + 4)%nat with (S (S (S (S (asked st))))) by lia.
  eexists. split.
  { unfold Log.init. cbv beta zeta. do 8 step. reflexivity. }
  simpl.
  split; [reflexivity|]. split; [lia|].
  split; [repeat rewrite <- app_assoc; reflexivity|].
  split; [apply insert_insert_eq | reflexivity].
Qed.

Lemma trigger_init_run (ch : string) (st : state) :
  exists st',
    Trigger.init ch st =
      (inr {| Trigger._channel := ch; Trigger.values := Log.new_address (dicts st) |}, st') /\
    replies st' = replies st /\
    asked st' = (asked st + 8)%nat /\
    trace st' = trace st ++
      [BusQuery (":SENS:" +:+ ch +:+ ":PULS:TRIG:SOUR?") (upcoming st 0);
       BusQuery (":SENS:" +:+ ch +:+ ":PULS:TRIG:LEV:LOW?") (upcoming st 1);
       BusQuery (":SENS:" +:+ ch +:+ ":PULS:TRIG:LEV:HIGH?") (upcoming st 2);
       BusQuery (":SENS:" +:+ ch +:+ ":PULS:TRIG:LEV:DVM?") (upcoming st 3);
       BusQuery (":SENS:" +:+ ch +:+ ":PULS:TRIG:SLOP?") (upcoming st 4);
       BusQuery (":SENS:" +:+ ch +:+ ":PULS:TRIG:COUN?") (upcoming st 5);
       BusQuery (":SENS:" +:+ ch +:+ ":PULS:TRIG:OFFS?") (upcoming st 6);
       BusQuery (":SENS:" +:+ ch +:+ ":PULS:TRIG:TIM?") (upcoming st 7)] /\
    dicts st' = <[Log.new_address (dicts st) :=
                   <["timeout" := VStr (upcoming st 7)]>
                     (<["offset" := VStr (upcoming st 6)]>
                        (<["count" := VStr (upcoming st 5)]>
                           (<["slope" := VStr (upcoming st 4)]>
                              (<["level_dvm" := VStr (upcoming st 3)]>
                                 (<["level_high" := VStr (upcoming st 2)]>
                                    (<["level_low" := VStr (upcoming st 1)]>
                                       (<["source" := VStr (upcoming st 0)]> ∅)))))))]>
                (dicts st) /\
    arrays st' = arrays st.
Proof.
  unfold upcoming.
  replace (asked st + 0)%nat with (asked st) by lia.
  replace (asked st + 1)%nat with (S (asked st)) by lia.
  replace (asked st + 2)%nat with (S (S (asked st))) by lia.
  replace (asked st + 3)%nat with (S (S (S (asked st)))) by lia.
  replace (asked st + 4)%nat with (S (S (S (S (asked st))))) by lia.
  replace (asked st + 5)%nat with (S (S (S (S (S (asked st)))))) by lia.
  replace (asked st + 6)%nat with (S (S (S (S (S (S (asked st))))))) by lia.
  replace (asked st + 7)%nat with (S (S (S (S (S (S (S (asked st)))))))) by lia.
  eexists. split.
  { unfold Trigger.init. cbv beta zeta. do 10 step. reflexivity. }
  simpl.
  split; [reflexivity|]. split; [lia|].
  split; [repeat rewrite <- app_assoc; reflexivity|].
  split; [apply insert_insert_eq | reflexivity].
Qed.

(** X7.  Constructing a [Log] sends five queries and no write, and
    leaves their replies under the five keys of a dict of its own and an
    empty [log_data] of its own: neither address was in use before. *)
Theorem log_init_queries_five_parameters (channel : string) (st : state) :
  let self := {| _channel := channel;
                 values := Log.new_address (dicts st);
                 log_data := Log.new_address (arrays st) |} in
  exists st',
    Log.init channel st = (inr self, st') /\
    trace st' = trace st ++
      answered st
        [":SENS:" +:+ channel +:+ ":PULS:MEAS:STAR?";
         ":SENS:" +:+ channel +:+ ":PULS:MEAS:CHAN?";
         ":SENS:" +:+ channel +:+ ":PULS:MEAS:TYPE?";
         ":SENS:" +:+ channel +:+ ":PULS:SAMP:INT?";
         ":SENS:" +:+ channel +:+ ":PULS:SAMP:LENG?"] /\
    dicts st' = <[values self :=
                   <["sample_length" := VStr (upcoming st 4)]>
                     (<["sample_interval" := VStr (upcoming st 3)]>
                        (<["sample_type" := VStr (upcoming st 2)]>
                           (<["sample_channel" := VStr (upcoming st 1)]>
                              (<["sampling_on" := VStr (upcoming st 0)]> ∅))))]>
                (dicts st) /\
    dicts st !! values self = None /\
    arrays st' = <[log_data self := ∅]> (arrays st) /\
    arrays st !! log_data self = None.
Proof.
  intros self.
  destruct (log_init_run channel st) as (st' & Hrun & _ & _ & Htr & Hd & Ha).
  exists st'. split; [exact Hrun|]. split; [exact Htr|]. split; [exact Hd|].
  split; [apply new_address_fresh|]. split; [exact Ha | apply new_address_fresh].
Qed.

(** X8.  Constructing a [Trigger] sends eight queries and no write, and
    leaves their replies under the eight keys of a dict of its own. *)
Theorem trigger_init_queries_eight_parameters (channel : string) (st : state) :
  let self := {| Trigger._channel := channel;
                 Trigger.values := Log.new_address (dicts st) |} in
  exists st',
    Trigger.init channel st = (inr self, st') /\
    trace st' = trace st ++
      answered st
        [":SENS:" +:+ channel +:+ ":PULS:TRIG:SOUR?";
         ":SENS:" +:+ channel +:+ ":PULS:TRIG:LEV:LOW?";
         ":SENS:" +:+ channel +:+ ":PULS:TRIG:LEV:HIGH?";
         ":SENS:" +:+ channel +:+ ":PULS:TRIG:LEV:DVM?";
         ":SENS:" +:+ channel +:+ ":PULS:TRIG:SLOP?";
         ":SENS:" +:+ channel +:+ ":PULS:TRIG:COUN?";
         ":SENS:" +:+ channel +:+ ":PULS:TRIG:OFFS?";
         ":SENS:" +:+ channel +:+ ":PULS:TRIG:TIM?"] /\
    dicts st' = <[Trigger.values self :=
                   <["timeout" := VStr (upcoming st 7)]>
                     (<["offset" := VStr (upcoming st 6)]>
                        (<["count" := VStr (upcoming st 5)]>
                           (<["slope" := VStr (upcoming st 4)]>
                              (<["level_dvm" := VStr (upcoming st 3)]>
                                 (<["level_high" := VStr (upcoming st 2)]>
                                    (<["level_low" := VStr (upcoming st 1)]>
                                       (<["source" := VStr (upcoming st 0)]> ∅)))))))]>
                (dicts st) /\
    dicts st !! Trigger.values self = None /\
    arrays st' = arrays st.
Proof.
  intros self.
  destruct (trigger_init_run channel st) as (st' & Hrun & _ & _ & Htr & Hd & Ha).
  exists st'. split; [exact Hrun|]. split; [exact Htr|]. split; [exact Hd|].
  split; [apply new_address_fresh | exact Ha].
Qed.

Lemma sample_channel_step (self : Log_object) (value : pyobj) (st : state) :
  exists r st',
    Log.sample_channel self value st = (inr r, st') /\
    cached st' (values self) "sample_channel" = cached st (values self) "sample_channel".
Proof.
  unfold Log.sample_channel, Command.read_write.
  destruct value as [|b|z|x|s|c t]; try (eexists; eexists; split; reflexivity).
  unfold ValidateLog.sample_channel, Validate.str_tuple.
  destruct (Validate.find_element _ _).
  - eexists. eexists. split; [reflexivity|].
    unfold cached. simpl. rewrite lookup_insert_eq. simpl.
    rewrite lookup_insert_ne by discriminate.
    destruct (dicts st !! values self); reflexivity.
  - eexists. eexists. split; reflexivity.
Qed.

(** X9.  On a bus that answers every query, no sequence of calls of
    [sample_channel], whatever the arguments, raises or changes what the
    cache holds under ['sample_channel'], the key [start_sample]
    reads. *)
Theorem sample_channel_never_updates_its_key
    (self : Log_object) (inputs : list pyobj) (st : state) :
  exists st',
    for_each (Log.sample_channel self) inputs st = (inr tt, st') /\
    cached st' (values self) "sample_channel"
      = cached st (values self) "sample_channel".
Proof.
  revert st. induction inputs as [|v inputs IH]; intros st.
  - exists st. split; reflexivity.
  - destruct (sample_channel_step self v st) as (r & st1 & Hrun & Hkeep).
    destruct (IH st1) as (st' & Hrest & Hkeep').
    exists st'. split.
    + cbn [for_each]. unfold bind. rewrite Hrun. exact Hrest.
    + rewrite Hkeep'. exact Hkeep.
Qed.

(* ================================================================== *)
(** ** Log.start_sample: the paths that leave early, the diagnostics *)
(* ================================================================== *)

Lemma queries_app t1 t2 : queries (t1 ++ t2) = queries t1 ++ queries t2.
Proof.
  induction t1 as [|o t1 IH]; [reflexivity|].
  destruct o; simpl; rewrite IH; reflexivity.
Qed.

Lemma register_16_accepts (e : Z) :
  0 <= e <= 65535 -> accepted_by ValidateRegister.register_16 (VInt e) = true.
Proof.
  intros H. unfold accepted_by, ValidateRegister.register_16, Validate.int_rng_tuple.
  simpl Py.as_int. cbv iota beta.
  replace (Validate.int_range e (0, 65535)) with true; [reflexivity|].
  symmetry. apply int_range_spec. exact H.
Qed.

(** X10.  When the wait for the service request times out, the
    exception of the wait leaves [start_sample] right there: the last
    bus operation is the wait, so service requests stay enabled
    ([*SRE 0] is not sent) and the enable register keeps the value
    written for the acquisition; [log_data] has been emptied. *)
Theorem start_sample_timeout_skips_cleanup (self : Log_object) (st : state) (e : Z) :
  Num.int_of_string (upcoming st 1) = Some e ->
  srq_arrives st (waited st) = false ->
  exists st',
    Log.start_sample self st = (inl RaisedVisaIOError, st') /\
    trace st' = trace st ++ armed_ops self st /\
    final_op st' = Some (BusWaitSrq 10000) /\
    dicts st' = dicts st /\
    arrays st' = <[log_data self := ∅]> (arrays st).
Proof.
  intros He Hsrq. unfold armed_ops, final_op. normalise_script st.
  destruct st as [rep n srq w tr ds ars out room]. simpl in *.
  unfold_driver. simpl. rewrite He. simpl.
  unfold arm_commands.
  destruct (String.eqb (_channel self) "A"); simpl;
    unfold Bus.wait_for_srq; simpl; rewrite Hsrq; simpl;
    eexists; (split; [reflexivity|]); simpl;
    (split; [repeat rewrite <- app_assoc; reflexivity|]);
    (split; [apply last_snoc|]); split; reflexivity.
Qed.

Lemma start_sample_timeout_skips_cleanup_witness :
  Num.int_of_string (upcoming silent_state 1) = Some 7 /\
  srq_arrives silent_state (waited silent_state) = false /\
  exists st',
    Log.start_sample log_a silent_state = (inl RaisedVisaIOError, st') /\
    trace st' = trace silent_state ++ armed_ops log_a silent_state /\
    final_op st' = Some (BusWaitSrq 10000) /\
    dicts st' = dicts silent_state /\
    arrays st' = <[log_data log_a := ∅]> (arrays silent_state).
Proof.
  split; [reflexivity|]. split; [reflexivity|].
  apply (start_sample_timeout_skips_cleanup log_a silent_state 7); reflexivity.
Defined.

(** X11.  When the reply to the query of the enable register does not
    read as an integer, [start_sample] raises a [ValueError], that of
    [int], after one write and two queries: the enable register has not been
    written and nothing is armed, but [log_data] has been emptied. *)
Theorem start_sample_bad_enable_reply_arms_nothing (self : Log_object) (st : state) :
  Num.int_of_string (upcoming st 1) = None ->
  exists msg st',
    Log.start_sample self st = (inl (RaisedValueError msg), st') /\
    trace st' = trace st ++ [BusWrite ":SYST:CLE";
                             BusQuery ":STAT:MEAS:EVEN?" (upcoming st 0);
                             BusQuery ":STAT:MEAS:ENAB?" (upcoming st 1)] /\
    dicts st' = dicts st /\
    arrays st' = <[log_data self := ∅]> (arrays st) /\
    stdout st' = stdout st.
Proof.
  intros He. normalise_script st.
  destruct st as [rep n srq w tr ds ars out room]. simpl in *.
  unfold_driver. simpl. rewrite He. simpl.
  eexists. eexists. split; [reflexivity|]. simpl.
  split; [repeat rewrite <- app_assoc; reflexivity|].
  repeat split.
Qed.

Lemma start_sample_bad_enable_reply_arms_nothing_witness :
  Num.int_of_string (upcoming garbled_enable_state 1) = None /\
  exists msg st',
    Log.start_sample log_a garbled_enable_state = (inl (RaisedValueError msg), st') /\
    trace st' = trace garbled_enable_state ++
                  [BusWrite ":SYST:CLE";
                   BusQuery ":STAT:MEAS:EVEN?" (upcoming garbled_enable_state 0);
                   BusQuery ":STAT:MEAS:ENAB?" (upcoming garbled_enable_state 1)] /\
    dicts st' = dicts garbled_enable_state /\
    arrays st' = <[log_data log_a := ∅]> (arrays garbled_enable_state) /\
    stdout st' = stdout garbled_enable_state.
Proof.
  split; [reflexivity|].
  apply (start_sample_bad_enable_reply_arms_nothing log_a garbled_enable_state);
    reflexivity.
Defined.

(** X12.  When the second reading of the event register does not read
    as an integer, [start_sample] raises a [ValueError], that of [int],
    right after that query: service requests are off again, but the enable
    register is left at the value written for the acquisition, and
    [log_data] has been emptied. *)
Theorem start_sample_bad_event_reply_leaves_enable
    (self : Log_object) (st : state) (e : Z) :
  srq_arrives st (waited st) = true ->
  Num.int_of_string (upcoming st 1) = Some e ->
  Num.int_of_string (upcoming st 2) = None ->
  exists msg st',
    Log.start_sample self st = (inl (RaisedValueError msg), st') /\
    trace st' = trace st ++ arming_ops self st /\
    last (writes (trace st')) = Some "*SRE 0" /\
    arrays st' = <[log_data self := ∅]> (arrays st).
Proof.
  intros Hsrq He Hev. normalise_script st.
  destruct st as [rep n srq w tr ds ars out room]. simpl in *.
  unfold_driver. simpl. rewrite He. simpl.
  unfold arm_commands.
  destruct (String.eqb (_channel self) "A"); simpl;
    unfold Bus.wait_for_srq; simpl; rewrite Hsrq; simpl; rewrite Hev; simpl;
    eexists; eexists; (split; [reflexivity|]); simpl;
    (split; [repeat rewrite <- app_assoc; reflexivity|]);
    (split; [|reflexivity]);
    rewrite !writes_app; simpl; rewrite !app_nil_r; apply last_snoc.
Qed.

Lemma start_sample_bad_event_reply_leaves_enable_witness :
  srq_arrives garbled_event_state (waited garbled_event_state) = true /\
  Num.int_of_string (upcoming garbled_event_state 1) = Some 7 /\
  Num.int_of_string (upcoming garbled_event_state 2) = None /\
  exists msg st',
    Log.start_sample log_a garbled_event_state = (inl (RaisedValueError msg), st') /\
    trace st' = trace garbled_event_state ++ arming_ops log_a garbled_event_state /\
    last (writes (trace st')) = Some "*SRE 0" /\
    arrays st' = <[log_data log_a := ∅]> (arrays garbled_event_state).
Proof.
  split; [reflexivity|]. split; [reflexivity|]. split; [reflexivity|].
  apply (start_sample_bad_event_reply_leaves_enable log_a garbled_event_state 7);
    reflexivity.
Defined.

(** X13.  When the event register does not report [reading_avail],
    [start_sample] prints one diagnostic, the trigger time-out of the
    channel if that bit is set and the unknown error with the event
    value otherwise, then the overflow warning if [meas_overflow] is
    set; [log_data] ends up empty, the cache is untouched, and no array
    is fetched. *)
Theorem start_sample_reports_timeout_or_unknown
    (self : Log_object) (st : state) (e ev : Z) :
  srq_arrives st (waited st) = true ->
  Num.int_of_string (upcoming st 1) = Some e ->
  0 <= e <= 65535 ->
  Num.int_of_string (upcoming st 2) = Some ev ->
  Z.land ev (reading_avail_of self) = 0 ->
  exists st',
    Log.start_sample self st = (inr tt, st') /\
    stdout st' = stdout st ++
      [if Log.truthy (Z.land ev (trigger_timeout_of self))
       then "Trigger timeout channel: " +:+ _channel self
       else "Unknown error, event: " +:+ Text.of_Z ev] ++
      overflow_warning self ev /\
    arrays st' = <[log_data self := ∅]> (arrays st) /\
    dicts st' = dicts st /\
    queries (trace st') = queries (trace st) ++
      [(":STAT:MEAS:EVEN?", upcoming st 0);
       (":STAT:MEAS:ENAB?", upcoming st 1);
       (":STAT:MEAS:EVEN?", upcoming st 2)].
Proof.
  intros Hsrq He Hrange Hev Hra.
  assert (Hra' : Log.truthy (Z.land ev (reading_avail_of self)) = false).
  { unfold Log.truthy. rewrite Hra. reflexivity. }
  clear Hra. pose proof (register_16_verdict e) as Hreg.
  rewrite (register_16_accepts e Hrange) in Hreg.
  normalise_script st.
  destruct st as [rep n srq w tr ds ars out room]. simpl in *.
  unfold_driver. simpl. rewrite He. simpl.
  unfold overflow_warning, reading_avail_of, trigger_timeout_of, meas_overflow_of,
    arm_commands in *.
  destruct (String.eqb (_channel self) "A"); simpl;
    unfold Bus.wait_for_srq; simpl; rewrite Hsrq; simpl; rewrite Hev; simpl;
    rewrite Hra'; run_bus.
  - destruct (Log.truthy (Z.land ev 16)); simpl;
      destruct (Log.truthy (Z.land ev 8)); simpl; rewrite Hreg; unfold bind; simpl;
      eexists; (split; [reflexivity|]); simpl;
      (split; [repeat rewrite <- app_assoc; reflexivity|]);
      (split; [reflexivity|]); (split; [reflexivity|]);
      rewrite !queries_app; simpl; rewrite !app_nil_r, <- !app_assoc; reflexivity.
  - destruct (Log.truthy (Z.land ev 128)); simpl;
      destruct (Log.truthy (Z.land ev 64)); simpl; rewrite Hreg; unfold bind; simpl;
      eexists; (split; [reflexivity|]); simpl;
      (split; [repeat rewrite <- app_assoc; reflexivity|]);
      (split; [reflexivity|]); (split; [reflexivity|]);
      rewrite !queries_app; simpl; rewrite !app_nil_r, <- !app_assoc; reflexivity.
Qed.

Lemma start_sample_reports_timeout_or_unknown_witness :
  srq_arrives timed_out_state (waited timed_out_state) = true /\
  Num.int_of_string (upcoming timed_out_state 1) = Some 7 /\
  0 <= 7 <= 65535 /\
  Num.int_of_string (upcoming timed_out_state 2) = Some 24 /\
  Z.land 24 (reading_avail_of log_a) = 0 /\
  exists st',
    Log.start_sample log_a timed_out_state = (inr tt, st') /\
    stdout st' = stdout timed_out_state ++
      [if Log.truthy (Z.land 24 (trigger_timeout_of log_a))
       then "Trigger timeout channel: " +:+ _channel log_a
       else "Unknown error, event: " +:+ Text.of_Z 24] ++
      overflow_warning log_a 24 /\
    arrays st' = <[log_data log_a := ∅]> (arrays timed_out_state) /\
    dicts st' = dicts timed_out_state /\
    queries (trace st') = queries (trace timed_out_state) ++
      [(":STAT:MEAS:EVEN?", upcoming timed_out_state 0);
       (":STAT:MEAS:ENAB?", upcoming timed_out_state 1);
       (":STAT:MEAS:EVEN?", upcoming timed_out_state 2)].
Proof.
  split; [reflexivity|]. split; [reflexivity|]. split; [lia|].
  split; [reflexivity|]. split; [reflexivity|].
  apply (start_sample_reports_timeout_or_unknown log_a timed_out_state 7 24);
    [reflexivity | reflexivity | lia | reflexivity | reflexivity].
Defined.

(** X14.  When the event register reports [reading_avail] and the data
    convert and fit, [start_sample] stores the data whatever the other
    bits say: no
    time-out or unknown-error line is printed (only the overflow
    warning, if [meas_overflow] is set), and [log_data] holds the parsed
    series under ['current'] or ['voltage'], as the cached
    ['sample_channel'] says, beside ['seconds']. *)
Theorem start_sample_data_takes_priority
    (self : Log_object) (st : state) (e ev : Z) :
  srq_arrives st (waited st) = true ->
  Num.int_of_string (upcoming st 1) = Some e ->
  0 <= e <= 65535 ->
  Num.int_of_string (upcoming st 2) = Some ev ->
  Z.land ev (reading_avail_of self) <> 0 ->
  data_ready_ok (memory st) (default ∅ (dicts st !! values self)) (upcoming st 3) = true ->
  exists st' source series seconds,
    Log.start_sample self st = (inr tt, st') /\
    stdout st' = stdout st ++ overflow_warning self ev /\
    default ∅ (dicts st !! values self) !! "sample_channel" = Some source /\
    Log.parse_samples (upcoming st 3) = inr series /\
    arrays st' !! log_data self =
      Some (<["seconds" := seconds]>
              (<[(if Log.is_current_token source then "current" else "voltage")
                 := series]> ∅)) /\
    dicts st' = dicts st.
Proof.
  intros Hsrq He Hrange Hev Hne Hdata.
  assert (Hra : Log.truthy (Z.land ev (reading_avail_of self)) = true).
  { unfold Log.truthy. destruct (Z.eqb_spec (Z.land ev (reading_avail_of self)) 0);
      [contradiction | reflexivity]. }
  destruct (data_ready_ok_inv _ _ _ Hdata)
    as (source & a & interval & length & x & len & stop & seconds &
        H1 & H2 & H3 & H4 & H5 & H6 & H7 & H8).
  pose proof (register_16_verdict e) as Hreg.
  rewrite (register_16_accepts e Hrange) in Hreg.
  assert (exists st',
    Log.start_sample self st = (inr tt, st') /\
    stdout st' = stdout st ++ overflow_warning self ev /\
    arrays st' !! log_data self =
      Some (<["seconds" := seconds]>
              (<[(if Log.is_current_token source then "current" else "voltage")
                 := a]> ∅)) /\
    dicts st' = dicts st) as (st' & Hrun & Hout & Harr & Hd).
  { clear Hdata Hne. normalise_script st.
    destruct st as [rep n srq w tr ds ars out room]. simpl in *.
    unfold_driver. simpl. rewrite He. simpl.
    unfold overflow_warning, reading_avail_of, meas_overflow_of in *.
    destruct (String.eqb (_channel self) "A"); simpl;
      unfold Bus.wait_for_srq; simpl; rewrite Hsrq; simpl; rewrite Hev; simpl;
      rewrite Hra; run_bus; rewrite H1;
      destruct (Log.is_current_token source); simpl;
      rewrite H2; simpl; rewrite H3; simpl; rewrite H5; simpl; rewrite H4; simpl;
      rewrite H6; simpl; rewrite H7; simpl; rewrite H3; simpl; rewrite H5; simpl;
      rewrite H8; simpl.
    all: match goal with
         | |- context [Log.truthy ?t] => destruct (Log.truthy t)
         end; simpl; rewrite Hreg; unfold bind; simpl;
         eexists; (split; [reflexivity|]); simpl;
         (split; [rewrite ?app_nil_r; reflexivity|]);
         (split; [repeat (rewrite lookup_insert_eq; simpl); reflexivity | reflexivity]). }
  exists st', source, a, seconds. repeat split; assumption.
Qed.

Lemma start_sample_data_takes_priority_witness :
  srq_arrives ready_state (waited ready_state) = true /\
  Num.int_of_string (upcoming ready_state 1) = Some 7 /\
  0 <= 7 <= 65535 /\
  Num.int_of_string (upcoming ready_state 2) = Some 32 /\
  Z.land 32 (reading_avail_of log_a) <> 0 /\
  data_ready_ok (memory ready_state) (default ∅ (dicts ready_state !! values log_a))
    (upcoming ready_state 3) = true /\
  exists st' source series seconds,
    Log.start_sample log_a ready_state = (inr tt, st') /\
    stdout st' = stdout ready_state ++ overflow_warning log_a 32 /\
    default ∅ (dicts ready_state !! values log_a) !! "sample_channel" = Some source /\
    Log.parse_samples (upcoming ready_state 3) = inr series /\
    arrays st' !! log_data log_a =
      Some (<["seconds" := seconds]>
              (<[(if Log.is_current_token source then "current" else "voltage")
                 := series]> ∅)) /\
    dicts st' = dicts ready_state.
Proof.
  split; [reflexivity|]. split; [reflexivity|]. split; [lia|].
  split; [reflexivity|]. split; [vm_compute; discriminate|].
  split; [vm_compute; reflexivity|].
  apply (start_sample_data_takes_priority log_a ready_state 7 32);
    [reflexivity | reflexivity | lia | reflexivity | vm_compute; discriminate
    | vm_compute; reflexivity].
Defined.

(* ================================================================== *)
(** ** Measure: statistics and the selected function *)
(* ================================================================== *)

Lemma get_stat_reuse_run
    (self : Measure.object) (meas_source stat_type cached_sense : string) (st : state) :
  default ∅ (dicts st !! Measure.values self) !! "sense" = Some (VStr cached_sense) ->
  Text.contains meas_source cached_sense = true ->
  Measure.__get_stat self meas_source stat_type st =
  (inr (VStr (replies st (asked st))),
   {| replies := replies st; asked := S (asked st);
      srq_arrives := srq_arrives st; waited := waited st;
      trace := trace st ++
        [BusQuery (":MEAS:" +:+ Measure._channel self +:+ ":" +:+ stat_type +:+ "?")
           (replies st (asked st))];
      dicts := dicts st; arrays := arrays st; stdout := stdout st;
        memory := memory st |}).
Proof.
  intros Hc Hin. unfold Measure.__get_stat.
  rewrite (bind_ok _ _ st st (VStr cached_sense) (dict_get_ok _ _ _ _ Hc)).
  rewrite (bind_ok (lift (Measure.str_in meas_source (VStr cached_sense))) _ st st true)
    by (simpl; rewrite Hin; reflexivity).
  reflexivity.
Qed.

Lemma get_stat_switch_run
    (self : Measure.object) (meas_source stat_type cached_sense tok : string) (st : state) :
  default ∅ (dicts st !! Measure.values self) !! "sense" = Some (VStr cached_sense) ->
  Text.contains meas_source cached_sense = false ->
  ValidateChannel.sense (VStr meas_source) = inr (Token tok) ->
  Measure.__get_stat self meas_source stat_type st =
  (inr (VStr (replies st (S (asked st)))),
   {| replies := replies st; asked := S (S (asked st));
      srq_arrives := srq_arrives st; waited := waited st;
      trace := trace st ++
        [BusWrite ((":SENS:" +:+ Measure._channel self +:+ ":FUNC") +:+ " " +:+ meas_source);
         BusQuery (":SENS:" +:+ Measure._channel self +:+ ":FUNC?") (replies st (asked st));
         BusQuery (":MEAS:" +:+ Measure._channel self +:+ ":" +:+ stat_type +:+ "?")
           (replies st (S (asked st)))];
      dicts := <[Measure.values self :=
                   <["sense" := VStr (replies st (asked st))]>
                     (default ∅ (dicts st !! Measure.values self))]> (dicts st);
      arrays := arrays st; stdout := stdout st;
        memory := memory st |}).
Proof.
  intros Hc Hin Hv. unfold Measure.__get_stat.
  rewrite (bind_ok _ _ st st (VStr cached_sense) (dict_get_ok _ _ _ _ Hc)).
  rewrite (bind_ok (lift (Measure.str_in meas_source (VStr cached_sense))) _ st st false)
    by (simpl; rewrite Hin; reflexivity).
  cbn [negb].
  assert (Hpresent : VStr meas_source <> VNone) by discriminate.
  pose proof (read_write_accepted_cached_run
                (":SENS:" +:+ Measure._channel self +:+ ":FUNC?")
                (":SENS:" +:+ Measure._channel self +:+ ":FUNC")
                ValidateChannel.sense (VStr meas_source) Hpresent
                (Measure.values self) "sense" tok st Hv) as Hsense.
  unfold bind at 1. unfold bind at 1. unfold Measure.sense. rewrite Hsense.
  unfold Command.read, bind, Bus.query, ret. simpl.
  rewrite <- !app_assoc. reflexivity.
Qed.

(** X15.  A statistic of a source that occurs in the cached ['sense']
    text costs one query: the function is not selected again and the
    cache is left alone. *)
Theorem get_stat_reuses_selected_function
    (self : Measure.object) (meas_source stat_type cached_sense : string) (st : state) :
  cached st (Measure.values self) "sense" = Some (VStr cached_sense) ->
  Text.contains meas_source cached_sense = true ->
  exists st',
    Measure.__get_stat self meas_source stat_type st
      = (inr (VStr (upcoming st 0)), st') /\
    trace st' = trace st ++
      [BusQuery (":MEAS:" +:+ Measure._channel self +:+ ":" +:+ stat_type +:+ "?")
         (upcoming st 0)] /\
    dicts st' = dicts st.
Proof.
  intros Hc Hin. apply cached_lookup in Hc.
  unfold upcoming. rewrite Nat.add_0_r.
  rewrite (get_stat_reuse_run self meas_source stat_type cached_sense st Hc Hin).
  eexists. split; [reflexivity|]. split; reflexivity.
Qed.

Lemma get_stat_reuses_selected_function_witness :
  cached (mock_with_measure "CURR" ["0.004"]) (Measure.values measure_a) "sense"
    = Some (VStr "CURR") /\
  Text.contains "CURR" "CURR" = true /\
  exists st',
    Measure.__get_stat measure_a "CURR" "LOW" (mock_with_measure "CURR" ["0.004"])
      = (inr (VStr (upcoming (mock_with_measure "CURR" ["0.004"]) 0)), st') /\
    trace st' = trace (mock_with_measure "CURR" ["0.004"]) ++
      [BusQuery (":MEAS:" +:+ Measure._channel measure_a +:+ ":" +:+ "LOW" +:+ "?")
         (upcoming (mock_with_measure "CURR" ["0.004"]) 0)] /\
    dicts st' = dicts (mock_with_measure "CURR" ["0.004"]).
Proof.
  split; [vm_compute; reflexivity|]. split; [reflexivity|].
  apply (get_stat_reuses_selected_function measure_a "CURR" "LOW" "CURR"
           (mock_with_measure "CURR" ["0.004"]));
    [vm_compute; reflexivity | reflexivity].
Defined.

(** X16.  A statistic of a source that does not occur in the cached
    ['sense'] text first selects the function: one write with the source
    as passed, one query whose reply becomes the cached ['sense'], and
    then the query of the statistic, whose reply is returned. *)
Theorem get_stat_switches_function
    (self : Measure.object) (meas_source stat_type cached_sense tok : string) (st : state) :
  cached st (Measure.values self) "sense" = Some (VStr cached_sense) ->
  Text.contains meas_source cached_sense = false ->
  ValidateChannel.sense (VStr meas_source) = inr (Token tok) ->
  exists st',
    Measure.__get_stat self meas_source stat_type st
      = (inr (VStr (upcoming st 1)), st') /\
    trace st' = trace st ++
      [BusWrite ((":SENS:" +:+ Measure._channel self +:+ ":FUNC") +:+ " " +:+ meas_source);
       BusQuery (":SENS:" +:+ Measure._channel self +:+ ":FUNC?") (upcoming st 0);
       BusQuery (":MEAS:" +:+ Measure._channel self +:+ ":" +:+ stat_type +:+ "?")
         (upcoming st 1)] /\
    cached st' (Measure.values self) "sense" = Some (VStr (upcoming st 0)).
Proof.
  intros Hc Hin Hv. apply cached_lookup in Hc.
  unfold upcoming. rewrite Nat.add_0_r, Nat.add_1_r.
  rewrite (get_stat_switch_run self meas_source stat_type cached_sense tok st Hc Hin Hv).
  eexists. split; [reflexivity|]. split; [reflexivity|].
  unfold cached. simpl. rewrite lookup_insert_eq. simpl. apply lookup_insert_eq.
Qed.

Lemma get_stat_switches_function_witness :
  cached (mock_with_measure "VOLT" ["CURR"; "0.004"]) (Measure.values measure_a) "sense"
    = Some (VStr "VOLT") /\
  Text.contains "CURR" "VOLT" = false /\
  ValidateChannel.sense (VStr "CURR") = inr (Token "CURR") /\
  exists st',
    Measure.__get_stat measure_a "CURR" "LOW" (mock_with_measure "VOLT" ["CURR"; "0.004"])
      = (inr (VStr (upcoming (mock_with_measure "VOLT" ["CURR"; "0.004"]) 1)), st') /\
    trace st' = trace (mock_with_measure "VOLT" ["CURR"; "0.004"]) ++
      [BusWrite ((":SENS:" +:+ Measure._channel measure_a +:+ ":FUNC") +:+ " " +:+ "CURR");
       BusQuery (":SENS:" +:+ Measure._channel measure_a +:+ ":FUNC?")
         (upcoming (mock_with_measure "VOLT" ["CURR"; "0.004"]) 0);
       BusQuery (":MEAS:" +:+ Measure._channel measure_a +:+ ":" +:+ "LOW" +:+ "?")
         (upcoming (mock_with_measure "VOLT" ["CURR"; "0.004"]) 1)] /\
    cached st' (Measure.values measure_a) "sense"
      = Some (VStr (upcoming (mock_with_measure "VOLT" ["CURR"; "0.004"]) 0)).
Proof.
  split; [vm_compute; reflexivity|]. split; [reflexivity|]. split; [reflexivity|].
  apply (get_stat_switches_function measure_a "CURR" "LOW" "VOLT" "CURR"
           (mock_with_measure "VOLT" ["CURR"; "0.004"]));
    [vm_compute; reflexivity | reflexivity | reflexivity].
Defined.

(** X17.  [current_low] followed by [current_high], starting from
    another function: the function is selected once, by the first call,
    provided the instrument confirms a function whose text holds
    [CURR]; the second call is a single query. *)
Theorem current_statistics_switch_once
    (self : Measure.object) (cached_sense : string) (st : state) :
  cached st (Measure.values self) "sense" = Some (VStr cached_sense) ->
  Text.contains "CURR" cached_sense = false ->
  Text.contains "CURR" (upcoming st 0) = true ->
  exists st',
    (low <- Measure.current_low self ;; high <- Measure.current_high self ;;
     ret (low, high)) st
      = (inr (VStr (upcoming st 1), VStr (upcoming st 2)), st') /\
    trace st' = trace st ++
      [BusWrite ((":SENS:" +:+ Measure._channel self +:+ ":FUNC") +:+ " CURR");
       BusQuery (":SENS:" +:+ Measure._channel self +:+ ":FUNC?") (upcoming st 0);
       BusQuery (":MEAS:" +:+ Measure._channel self +:+ ":LOW?") (upcoming st 1);
       BusQuery (":MEAS:" +:+ Measure._channel self +:+ ":HIGH?") (upcoming st 2)].
Proof.
  intros Hc Hout Hin. apply cached_lookup in Hc.
  unfold upcoming in *.
  replace (asked st + 0)%nat with (asked st) in * by lia.
  replace (asked st + 1)%nat with (S (asked st)) by lia.
  replace (asked st + 2)%nat with (S (S (asked st))) by lia.
  unfold Measure.current_low, Measure.current_high.
  rewrite (bind_ok _ _ _ _ _
             (get_stat_switch_run self "CURR" "LOW" cached_sense "CURR" st Hc Hout eq_refl)).
  erewrite bind_ok; cycle 1.
  { apply (get_stat_reuse_run self "CURR" "HIGH" (replies st (asked st))).
    - simpl. rewrite lookup_insert_eq. simpl. apply lookup_insert_eq.
    - exact Hin. }
  simpl. eexists. split; [reflexivity|]. simpl.
  rewrite <- !app_assoc. reflexivity.
Qed.

Lemma current_statistics_switch_once_witness :
  cached (mock_with_measure "VOLT" ["CURR"; "0.004"; "0.009"]) (Measure.values measure_a)
    "sense" = Some (VStr "VOLT") /\
  Text.contains "CURR" "VOLT" = false /\
  Text.contains "CURR" (upcoming (mock_with_measure "VOLT" ["CURR"; "0.004"; "0.009"]) 0)
    = true /\
  exists st',
    (low <- Measure.current_low measure_a ;; high <- Measure.current_high measure_a ;;
     ret (low, high)) (mock_with_measure "VOLT" ["CURR"; "0.004"; "0.009"])
      = (inr (VStr (upcoming (mock_with_measure "VOLT" ["CURR"; "0.004"; "0.009"]) 1),
              VStr (upcoming (mock_with_measure "VOLT" ["CURR"; "0.004"; "0.009"]) 2)), st') /\
    trace st' = trace (mock_with_measure "VOLT" ["CURR"; "0.004"; "0.009"]) ++
      [BusWrite ((":SENS:" +:+ Measure._channel measure_a +:+ ":FUNC") +:+ " CURR");
       BusQuery (":SENS:" +:+ Measure._channel measure_a +:+ ":FUNC?")
         (upcoming (mock_with_measure "VOLT" ["CURR"; "0.004"; "0.009"]) 0);
       BusQuery (":MEAS:" +:+ Measure._channel measure_a +:+ ":LOW?")
         (upcoming (mock_with_measure "VOLT" ["CURR"; "0.004"; "0.009"]) 1);
       BusQuery (":MEAS:" +:+ Measure._channel measure_a +:+ ":HIGH?")
         (upcoming (mock_with_measure "VOLT" ["CURR"; "0.004"; "0.009"]) 2)].
Proof.
  split; [vm_compute; reflexivity|]. split; [reflexivity|]. split; [reflexivity|].
  apply (current_statistics_switch_once measure_a "VOLT"
           (mock_with_measure "VOLT" ["CURR"; "0.004"; "0.009"]));
    [vm_compute; reflexivity | reflexivity | reflexivity].
Defined.

(* ================================================================== *)
(** ** Relay *)
(* ================================================================== *)

Lemma relay_number_verdict (num : pyobj) (z : Z) :
  Py.as_int num = Some z ->
  ValidateRelay.relay_number num =
  inr (if in_range 1 4 z then Token (Py.str num)
       else Error ValueError ("ValueError!" +:+ nl +:+ "Not in range:(int) (1, 4)")).
Proof.
  intros Hz. unfold ValidateRelay.relay_number, Validate.int_rng_tuple. rewrite Hz.
  rewrite int_range_in_range.
  destruct (in_range 1 4 z); reflexivity.
Qed.

(** X18.  Constructing a [Relay]: for an [int] (or [bool]) between 1
    and 4 the constructor sends one query, named after [str] of the
    argument, and caches the number and the reply in a dict of its own;
    for any other [int] it raises the [ValueError] of the validator, and
    for anything that is not an [int] the [TypeError], in both cases
    before any bus traffic. *)
Theorem relay_init_checks_number (num : pyobj) (st : state) :
  match Py.as_int num with
  | Some z =>
      if in_range 1 4 z then
        exists st',
          Relay.init num st
            = (inr {| Relay.values := Log.new_address (dicts st) |}, st') /\
          trace st' = trace st ++
            [BusQuery (":OUTP:REL" +:+ Py.str num +:+ "?") (upcoming st 0)] /\
          dicts st' = <[Log.new_address (dicts st) :=
                          <["state" := VStr (upcoming st 0)]>
                            (<["relay" := VStr (Py.str num)]> ∅)]> (dicts st)
      else
        Relay.init num st =
        (inl (RaisedValueError
                ("ValueError!" +:+ nl +:+ "Not in range:(int) (1, 4)")), st)
  | None =>
      Relay.init num st =
      (inl (RaisedTypeError
              ("TypeError!" +:+ nl +:+
               "Received type: " +:+ Py.class_text (Py.class_name num) +:+ nl +:+
               "Valid types: " +:+ Py.class_text "int")), st)
  end.
Proof.
  destruct (Py.as_int num) as [z|] eqn:Hz.
  - unfold Relay.init, lift. rewrite (relay_number_verdict num z Hz).
    destruct (in_range 1 4 z); [|reflexivity].
    unfold upcoming. rewrite Nat.add_0_r.
    unfold bind at 1. cbn [ret].
    unfold Relay.enable, Log.dict_new, dict_set, dict_get, bind, ret. simpl.
    repeat (rewrite lookup_insert_eq; simpl).
    eexists. split; [reflexivity|]. simpl. split; [reflexivity|].
    rewrite !insert_insert_eq. reflexivity.
  - unfold Relay.init, lift, ValidateRelay.relay_number, Validate.int_rng_tuple.
    rewrite Hz. reflexivity.
Qed.

Lemma relay_enable_run (self : Relay.object) (relay : pyobj) (word : string) (st : state) :
  default ∅ (dicts st !! Relay.values self) !! "relay" = Some relay ->
  ValidateRelay.on_off (VStr word) = inr (Token word) ->
  Relay.enable self (VStr word) st =
  (inr VNone,
   {| replies := replies st; asked := S (asked st);
      srq_arrives := srq_arrives st; waited := waited st;
      trace := (trace st ++ [BusWrite ((":OUTP:REL" +:+ Py.str relay) +:+ " " +:+ word)])
               ++ [BusQuery (":OUTP:REL" +:+ Py.str relay +:+ "?") (replies st (asked st))];
      dicts := <[Relay.values self := <["state" := VStr (replies st (asked st))]>
                   (default ∅ (dicts st !! Relay.values self))]> (dicts st);
      arrays := arrays st; stdout := stdout st;
        memory := memory st |}).
Proof.
  intros Hc Hv. unfold Relay.enable.
  rewrite (bind_ok _ _ st st relay (dict_get_ok _ _ _ _ Hc)).
  rewrite (bind_ok _ _ st st relay (dict_get_ok _ _ _ _ Hc)).
  assert (Hpresent : VStr word <> VNone) by discriminate.
  apply (read_write_accepted_cached_run _ _ ValidateRelay.on_off (VStr word) Hpresent
           (Relay.values self) "state" word st Hv).
Qed.

(** X19.  [on] and [off] of a [Relay] each send one write, [ON] or
    [OFF] on the relay of the object, and one query, whose reply becomes
    the cached ['state']; the cached ['relay'] is kept. *)
Theorem relay_on_off_switch_and_requery (self : Relay.object) (relay : pyobj) (st : state) :
  cached st (Relay.values self) "relay" = Some relay ->
  (exists st',
     Relay.on self st = (inr tt, st') /\
     trace st' = trace st ++
       [BusWrite ((":OUTP:REL" +:+ Py.str relay) +:+ " ON");
        BusQuery (":OUTP:REL" +:+ Py.str relay +:+ "?") (upcoming st 0)] /\
     cached st' (Relay.values self) "state" = Some (VStr (upcoming st 0)) /\
     cached st' (Relay.values self) "relay" = Some relay) /\
  (exists st',
     Relay.off self st = (inr tt, st') /\
     trace st' = trace st ++
       [BusWrite ((":OUTP:REL" +:+ Py.str relay) +:+ " OFF");
        BusQuery (":OUTP:REL" +:+ Py.str relay +:+ "?") (upcoming st 0)] /\
     cached st' (Relay.values self) "state" = Some (VStr (upcoming st 0)) /\
     cached st' (Relay.values self) "relay" = Some relay).
Proof.
  intros Hc. pose proof (cached_lookup _ _ _ _ Hc) as Hd.
  unfold upcoming. rewrite Nat.add_0_r.
  split.
  - unfold Relay.on.
    rewrite (bind_ok _ _ _ _ _ (relay_enable_run self relay "ON" st Hd eq_refl)).
    eexists. split; [reflexivity|]. simpl.
    split; [rewrite <- app_assoc; reflexivity|].
    unfold cached. simpl. rewrite lookup_insert_eq. simpl.
    split; [apply lookup_insert_eq|].
    rewrite lookup_insert_ne by discriminate. exact Hd.
  - unfold Relay.off.
    rewrite (bind_ok _ _ _ _ _ (relay_enable_run self relay "OFF" st Hd eq_refl)).
    eexists. split; [reflexivity|]. simpl.
    split; [rewrite <- app_assoc; reflexivity|].
    unfold cached. simpl. rewrite lookup_insert_eq. simpl.
    split; [apply lookup_insert_eq|].
    rewrite lookup_insert_ne by discriminate. exact Hd.
Qed.

Lemma relay_on_off_switch_and_requery_witness :
  cached (mock_with_relay ["1"]) (Relay.values relay_2) "relay" = Some (VStr "2") /\
  (exists st',
     Relay.on relay_2 (mock_with_relay ["1"]) = (inr tt, st') /\
     trace st' = trace (mock_with_relay ["1"]) ++
       [BusWrite ((":OUTP:REL" +:+ Py.str (VStr "2")) +:+ " ON");
        BusQuery (":OUTP:REL" +:+ Py.str (VStr "2") +:+ "?")
          (upcoming (mock_with_relay ["1"]) 0)] /\
     cached st' (Relay.values relay_2) "state"
       = Some (VStr (upcoming (mock_with_relay ["1"]) 0)) /\
     cached st' (Relay.values relay_2) "relay" = Some (VStr "2")) /\
  (exists st',
     Relay.off relay_2 (mock_with_relay ["1"]) = (inr tt, st') /\
     trace st' = trace (mock_with_relay ["1"]) ++
       [BusWrite ((":OUTP:REL" +:+ Py.str (VStr "2")) +:+ " OFF");
        BusQuery (":OUTP:REL" +:+ Py.str (VStr "2") +:+ "?")
          (upcoming (mock_with_relay ["1"]) 0)] /\
     cached st' (Relay.values relay_2) "state"
       = Some (VStr (upcoming (mock_with_relay ["1"]) 0)) /\
     cached st' (Relay.values relay_2) "relay" = Some (VStr "2")).
Proof.
  split; [vm_compute; reflexivity|].
  apply (relay_on_off_switch_and_requery relay_2 (VStr "2") (mock_with_relay ["1"]));
    vm_compute; reflexivity.
Defined.

(* ================================================================== *)
(** ** Channel: the constructor *)
(* ================================================================== *)

Lemma channel_init_accepted_run (ch : string) (value : pyobj) (st : state) :
  ValidateChannel.channel value = inr (Token ch) ->
  exists cuts st',
    Channel.init value st =
      (inr ({| Channel._channel := ch; Channel.values := Log.new_address (dicts st) |},
            cuts), st') /\
    Measure._channel (Channel.meas cuts) = ch /\
    _channel (Channel.log cuts) = ch /\
    Trigger._channel (Channel.trig cuts) = ch /\
    Protection._channel (Channel.prot cuts) = ch /\
    replies st' = replies st /\
    asked st' = (asked st + 22)%nat /\
    trace st' = trace st ++ answered st (channel_init_queries ch) /\
    dicts st' !! Log.new_address (dicts st) =
      Some (<["output_bandwidth" := VStr (upcoming st 7)]>
              (<["impedance" := VStr (upcoming st 6)]>
                 (<["average_count" := VStr (upcoming st 5)]>
                    (<["measurement_interval" := VStr (upcoming st 4)]>
                       (<["current_range" := VStr (upcoming st 3)]>
                          (<["current" := VStr (upcoming st 2)]>
                             (<["voltage" := VStr (upcoming st 1)]>
                                (<["output" := VStr (upcoming st 0)]> ∅)))))))).
Proof.
  intros Hv. unfold Channel.init, lift. rewrite Hv. unfold bind at 1. cbn [ret].
  do 10 step.
  match goal with
  | |- context [bind (Measure.init ch) _ ?R] =>
      destruct (measure_init_run ch R) as (st1 & Hrun1 & Hrep1 & Hask1 & Htr1 & Hd1 & Ha1)
  end.
  destruct (log_init_run ch st1) as (st2 & Hrun2 & Hrep2 & Hask2 & Htr2 & Hd2 & Ha2).
  destruct (trigger_init_run ch st2) as (st3 & Hrun3 & Hrep3 & Hask3 & Htr3 & Hd3 & Ha3).
  rewrite (bind_ok _ _ _ _ _ Hrun1), (bind_ok _ _ _ _ _ Hrun2), (bind_ok _ _ _ _ _ Hrun3).
  eexists. eexists. split; [reflexivity|].
  cbn [Channel.meas Channel.log Channel.trig Channel.prot Measure._channel _channel
       Trigger._channel Protection._channel].
  do 4 (split; [reflexivity|]).
  unfold upcoming in *. cbn [replies asked trace dicts] in *.
  split; [rewrite Hrep3, Hrep2, Hrep1; reflexivity|].
  split; [rewrite Hask3, Hask2, Hask1; lia|].
  split.
  - rewrite Htr3, Htr2, Htr1, Hrep2, Hrep1, Hask2, Hask1.
    unfold answered, channel_init_queries, upcoming. cbn [imap]. unfold compose.
    rewrite <- !app_assoc. cbn [app].
    repeat (f_equal; try (f_equal; lia)).
  - rewrite Hd3, Hd2, Hd1.
    do 3 (apply lookup_insert_new_address).
    rewrite insert_insert_eq, lookup_insert_eq.
    repeat (f_equal; try (f_equal; f_equal; lia)).
Qed.

Lemma writes_answered (st : state) (commands : list string) :
  writes (answered st commands) = [].
Proof.
  unfold answered. generalize (upcoming st). intros r.
  revert r. induction commands as [|c commands IH]; intros r; [reflexivity|].
  cbn [imap writes]. apply IH.
Qed.

(** X20.  Constructing a [Channel] on the letter a or b, in either
    case: the object and its four shortcut objects carry the letter in
    upper case, the bus sees the twenty-two queries of the constructors
    in order and not one write, and the eight cached parameters of the
    channel are the replies to the first eight, in a dict that was not
    in use before. *)
Theorem channel_init_normalises_letter (a c : string) (st : state) :
  In a ["a"; "b"] ->
  Text.lower c = a ->
  exists cuts st',
    Channel.init (VStr c) st =
      (inr ({| Channel._channel := Text.upper c;
               Channel.values := Log.new_address (dicts st) |}, cuts), st') /\
    (Measure._channel (Channel.meas cuts) = Text.upper c /\
     _channel (Channel.log cuts) = Text.upper c /\
     Trigger._channel (Channel.trig cuts) = Text.upper c /\
     Protection._channel (Channel.prot cuts) = Text.upper c) /\
    trace st' = trace st ++ answered st (channel_init_queries (Text.upper c)) /\
    writes (trace st') = writes (trace st) /\
    dicts st !! Log.new_address (dicts st) = None /\
    dicts st' !! Log.new_address (dicts st) =
      Some (<["output_bandwidth" := VStr (upcoming st 7)]>
              (<["impedance" := VStr (upcoming st 6)]>
                 (<["average_count" := VStr (upcoming st 5)]>
                    (<["measurement_interval" := VStr (upcoming st 4)]>
                       (<["current_range" := VStr (upcoming st 3)]>
                          (<["current" := VStr (upcoming st 2)]>
                             (<["voltage" := VStr (upcoming st 1)]>
                                (<["output" := VStr (upcoming st 0)]> ∅)))))))).
Proof.
  intros Hin Hc.
  assert (Hv : ValidateChannel.channel (VStr c) = inr (Token (Text.upper c))).
  { unfold ValidateChannel.channel, Validate.str_tuple. cbv zeta.
    assert (Hplain : Text.plain a = true)
      by (destruct Hin as [<-|[<-|[]]]; reflexivity).
    rewrite (alias_found ["a"; "b"] a c Hplain Hin).
    - rewrite upper_lower. reflexivity.
    - rewrite Hc. destruct Hin as [<-|[<-|[]]]; reflexivity. }
  destruct (channel_init_accepted_run (Text.upper c) (VStr c) st Hv)
    as (cuts & st' & Hrun & H1 & H2 & H3 & H4 & _ & _ & Htr & Hd).
  exists cuts, st'. split; [exact Hrun|].
  split; [repeat split; assumption|].
  split; [exact Htr|].
  split; [rewrite Htr, writes_app, writes_answered; apply app_nil_r|].
  split; [apply new_address_fresh | exact Hd].
Qed.

Lemma channel_init_normalises_letter_witness :
  In "b" ["a"; "b"] /\
  Text.lower "B" = "b" /\
  exists cuts st',
    Channel.init (VStr "B") (mock [] true) =
      (inr ({| Channel._channel := Text.upper "B";
               Channel.values := Log.new_address (dicts (mock [] true)) |}, cuts), st') /\
    (Measure._channel (Channel.meas cuts) = Text.upper "B" /\
     _channel (Channel.log cuts) = Text.upper "B" /\
     Trigger._channel (Channel.trig cuts) = Text.upper "B" /\
     Protection._channel (Channel.prot cuts) = Text.upper "B") /\
    trace st' = trace (mock [] true) ++
                answered (mock [] true) (channel_init_queries (Text.upper "B")) /\
    writes (trace st') = writes (trace (mock [] true)) /\
    dicts (mock [] true) !! Log.new_address (dicts (mock [] true)) = None /\
    dicts st' !! Log.new_address (dicts (mock [] true)) =
      Some (<["output_bandwidth" := VStr (upcoming (mock [] true) 7)]>
              (<["impedance" := VStr (upcoming (mock [] true) 6)]>
                 (<["average_count" := VStr (upcoming (mock [] true) 5)]>
                    (<["measurement_interval" := VStr (upcoming (mock [] true) 4)]>
                       (<["current_range" := VStr (upcoming (mock [] true) 3)]>
                          (<["current" := VStr (upcoming (mock [] true) 2)]>
                             (<["voltage" := VStr (upcoming (mock [] true) 1)]>
                                (<["output" := VStr (upcoming (mock [] true) 0)]> ∅)))))))).
Proof.
  split; [simpl; tauto|]. split; [reflexivity|].
  apply (channel_init_normalises_letter "b" "B" (mock [] true));
    [simpl; tauto | reflexivity].
Defined.

(** X21.  When the validator turns the channel down, the constructor
    of [Channel] raises the error object it got, before any bus traffic
    and without allocating anything. *)
Theorem channel_init_raises_rejection
    (channel : pyobj) (kind : error_kind) (msg : string) (st : state) :
  ValidateChannel.channel channel = inr (Error kind msg) ->
  Channel.init channel st = (inl (raised kind msg), st).
Proof.
  intros Hv. unfold Channel.init, lift. rewrite Hv. unfold bind.
  destruct kind; reflexivity.
Qed.

Lemma channel_init_raises_rejection_witness :
  ValidateChannel.channel (VInt 1) =
    inr (Error TypeError
           ("TypeError!" +:+ nl +:+
            "Received type: " +:+ Py.class_text "int" +:+ nl +:+
            "Valid types: " +:+ Py.class_text "str")) /\
  Channel.init (VInt 1) (mock [] true) =
    (inl (raised TypeError
            ("TypeError!" +:+ nl +:+
             "Received type: " +:+ Py.class_text "int" +:+ nl +:+
             "Valid types: " +:+ Py.class_text "str")), mock [] true).
Proof.
  split; [reflexivity|].
  apply (channel_init_raises_rejection (VInt 1) TypeError
           ("TypeError!" +:+ nl +:+
            "Received type: " +:+ Py.class_text "int" +:+ nl +:+
            "Valid types: " +:+ Py.class_text "str") (mock [] true)).
  reflexivity.
Defined.

(* ================================================================== *)
(** ** Channel: switching the output; RelayControl *)
(* ================================================================== *)

(** X22.  [on] and [off] of a [Channel] each send one write, [ON] or
    [OFF] after [:OUT:] and the channel, and one query of
    [:OUTP:<channel>:STAT?], whose reply becomes the cached ['output'];
    every other cached parameter is kept. *)
Theorem channel_on_off_switch_and_requery (self : Channel.object) (st : state) :
  (exists st',
     Channel.on self st = (inr tt, st') /\
     trace st' = trace st ++
       [BusWrite (":OUT:" +:+ Channel._channel self +:+ " ON");
        BusQuery (":OUTP:" +:+ Channel._channel self +:+ ":STAT?") (upcoming st 0)] /\
     cached st' (Channel.values self) "output" = Some (VStr (upcoming st 0)) /\
     delete "output" (default ∅ (dicts st' !! Channel.values self))
       = delete "output" (default ∅ (dicts st !! Channel.values self))) /\
  (exists st',
     Channel.off self st = (inr tt, st') /\
     trace st' = trace st ++
       [BusWrite (":OUT:" +:+ Channel._channel self +:+ " OFF");
        BusQuery (":OUTP:" +:+ Channel._channel self +:+ ":STAT?") (upcoming st 0)] /\
     cached st' (Channel.values self) "output" = Some (VStr (upcoming st 0)) /\
     delete "output" (default ∅ (dicts st' !! Channel.values self))
       = delete "output" (default ∅ (dicts st !! Channel.values self))).
Proof.
  assert (Hon : VStr "ON" <> VNone) by discriminate.
  assert (Hoff : VStr "OFF" <> VNone) by discriminate.
  unfold upcoming. rewrite Nat.add_0_r.
  split.
  - unfold Channel.on, Channel.output.
    rewrite (bind_ok _ _ _ _ _
               (read_write_accepted_cached_run _ _ ValidateChannel.on_off (VStr "ON") Hon
                  (Channel.values self) "output" "ON" st eq_refl)).
    eexists. split; [reflexivity|]. simpl.
    split; [rewrite <- app_assoc, string_app_assoc; reflexivity|].
    unfold cached. simpl. rewrite lookup_insert_eq. simpl.
    split; [apply lookup_insert_eq|].
    apply delete_insert_eq.
  - unfold Channel.off, Channel.output.
    rewrite (bind_ok _ _ _ _ _
               (read_write_accepted_cached_run _ _ ValidateChannel.on_off (VStr "OFF") Hoff
                  (Channel.values self) "output" "OFF" st eq_refl)).
    eexists. split; [reflexivity|]. simpl.
    split; [rewrite <- app_assoc, string_app_assoc; reflexivity|].
    unfold cached. simpl. rewrite lookup_insert_eq. simpl.
    split; [apply lookup_insert_eq|].
    apply delete_insert_eq.
Qed.

Lemma relay_init_run (z : Z) (st : state) :
  in_range 1 4 z = true ->
  exists st',
    Relay.init (VInt z) st
      = (inr {| Relay.values := Log.new_address (dicts st) |}, st') /\
    replies st' = replies st /\
    asked st' = (asked st + 1)%nat /\
    trace st' = trace st ++
      [BusQuery (":OUTP:REL" +:+ Text.of_Z z +:+ "?") (upcoming st 0)] /\
    dicts st' = <[Log.new_address (dicts st) :=
                    <["state" := VStr (upcoming st 0)]>
                      (<["relay" := VStr (Text.of_Z z)]> ∅)]> (dicts st).
Proof.
  intros Hz. unfold Relay.init, lift.
  rewrite (relay_number_verdict (VInt z) z eq_refl), Hz.
  unfold upcoming. rewrite Nat.add_0_r.
  unfold bind at 1. cbn [ret].
  unfold Relay.enable, Log.dict_new, dict_set, dict_get, bind, ret. simpl.
  repeat (rewrite lookup_insert_eq; simpl).
  eexists. split; [reflexivity|]. simpl.
  split; [reflexivity|]. split; [lia|]. split; [reflexivity|].
  rewrite !insert_insert_eq. reflexivity.
Qed.

Lemma new_address_grows {A} (heap : gmap nat A) (x : A) :
  (Log.new_address heap < Log.new_address (<[Log.new_address heap := x]> heap))%nat.
Proof. apply new_address_above. rewrite lookup_insert_eq. eauto. Qed.

Lemma relay_control_init_run (st : state) :
  exists rc st',
    RelayControl.init st = (inr rc, st') /\
    replies st' = replies st /\
    asked st' = (asked st + 4)%nat /\
    trace st' = trace st ++
      answered st [":OUTP:REL1?"; ":OUTP:REL2?"; ":OUTP:REL3?"; ":OUTP:REL4?"] /\
    NoDup [Relay.values (RelayControl.r1 rc); Relay.values (RelayControl.r2 rc);
           Relay.values (RelayControl.r3 rc); Relay.values (RelayControl.r4 rc)] /\
    dicts st' !! Relay.values (RelayControl.r1 rc)
      = Some (<["state" := VStr (upcoming st 0)]> (<["relay" := VStr "1"]> ∅)) /\
    dicts st' !! Relay.values (RelayControl.r2 rc)
      = Some (<["state" := VStr (upcoming st 1)]> (<["relay" := VStr "2"]> ∅)) /\
    dicts st' !! Relay.values (RelayControl.r3 rc)
      = Some (<["state" := VStr (upcoming st 2)]> (<["relay" := VStr "3"]> ∅)) /\
    dicts st' !! Relay.values (RelayControl.r4 rc)
      = Some (<["state" := VStr (upcoming st 3)]> (<["relay" := VStr "4"]> ∅)).
Proof.
  destruct (relay_init_run 1 st eq_refl) as (st1 & Hrun1 & Hrep1 & Hask1 & Htr1 & Hd1).
  destruct (relay_init_run 2 st1 eq_refl) as (st2 & Hrun2 & Hrep2 & Hask2 & Htr2 & Hd2).
  destruct (relay_init_run 3 st2 eq_refl) as (st3 & Hrun3 & Hrep3 & Hask3 & Htr3 & Hd3).
  destruct (relay_init_run 4 st3 eq_refl) as (st4 & Hrun4 & Hrep4 & Hask4 & Htr4 & Hd4).
  unfold RelayControl.init.
  rewrite (bind_ok _ _ _ _ _ Hrun1), (bind_ok _ _ _ _ _ Hrun2),
    (bind_ok _ _ _ _ _ Hrun3), (bind_ok _ _ _ _ _ Hrun4).
  eexists. eexists. split; [reflexivity|].
  cbn [RelayControl.r1 RelayControl.r2 RelayControl.r3 RelayControl.r4 Relay.values].
  assert (H12 : (Log.new_address (dicts st) < Log.new_address (dicts st1))%nat)
    by (rewrite Hd1; apply new_address_grows).
  assert (H23 : (Log.new_address (dicts st1) < Log.new_address (dicts st2))%nat)
    by (rewrite Hd2; apply new_address_grows).
  assert (H34 : (Log.new_address (dicts st2) < Log.new_address (dicts st3))%nat)
    by (rewrite Hd3; apply new_address_grows).
  assert (Hu1 : upcoming st1 0 = upcoming st 1).
  { unfold upcoming. rewrite Hrep1, Hask1. f_equal. lia. }
  assert (Hu2 : upcoming st2 0 = upcoming st 2).
  { unfold upcoming. rewrite Hrep2, Hask2, Hrep1, Hask1. f_equal. lia. }
  assert (Hu3 : upcoming st3 0 = upcoming st 3).
  { unfold upcoming. rewrite Hrep3, Hask3, Hrep2, Hask2, Hrep1, Hask1. f_equal. lia. }
  rewrite Hu1 in *. rewrite Hu2 in *. rewrite Hu3 in *.
  split; [rewrite Hrep4, Hrep3, Hrep2, Hrep1; reflexivity|].
  split; [rewrite Hask4, Hask3, Hask2, Hask1; lia|].
  split.
  { rewrite Htr4, Htr3, Htr2, Htr1. rewrite <- !app_assoc. reflexivity. }
  split.
  { repeat (apply NoDup_cons_2; [rewrite ?elem_of_cons, elem_of_nil; lia|]).
    apply NoDup_nil_2. }
  split.
  { rewrite Hd4, lookup_insert_ne by lia. rewrite Hd3, lookup_insert_ne by lia.
    rewrite Hd2, lookup_insert_ne by lia. rewrite Hd1. apply lookup_insert_eq. }
  split.
  { rewrite Hd4, lookup_insert_ne by lia. rewrite Hd3, lookup_insert_ne by lia.
    rewrite Hd2. apply lookup_insert_eq. }
  split.
  { rewrite Hd4, lookup_insert_ne by lia. rewrite Hd3. apply lookup_insert_eq. }
  rewrite Hd4. apply lookup_insert_eq.
Qed.

(** X23.  Constructing a [RelayControl] constructs the relays 1 to 4 in
    order: the bus sees the four state queries and no write, each relay
    gets a dict of its own (the four addresses differ), and each dict
    holds the number of its relay and the reply to its query. *)
Theorem relay_control_builds_four_relays (st : state) :
  exists rc st',
    RelayControl.init st = (inr rc, st') /\
    trace st' = trace st ++
      answered st [":OUTP:REL1?"; ":OUTP:REL2?"; ":OUTP:REL3?"; ":OUTP:REL4?"] /\
    NoDup [Relay.values (RelayControl.r1 rc); Relay.values (RelayControl.r2 rc);
           Relay.values (RelayControl.r3 rc); Relay.values (RelayControl.r4 rc)] /\
    dicts st' !! Relay.values (RelayControl.r1 rc)
      = Some (<["state" := VStr (upcoming st 0)]> (<["relay" := VStr "1"]> ∅)) /\
    dicts st' !! Relay.values (RelayControl.r2 rc)
      = Some (<["state" := VStr (upcoming st 1)]> (<["relay" := VStr "2"]> ∅)) /\
    dicts st' !! Relay.values (RelayControl.r3 rc)
      = Some (<["state" := VStr (upcoming st 2)]> (<["relay" := VStr "3"]> ∅)) /\
    dicts st' !! Relay.values (RelayControl.r4 rc)
      = Some (<["state" := VStr (upcoming st 3)]> (<["relay" := VStr "4"]> ∅)).
Proof.
  destruct (relay_control_init_run st)
    as (rc & st' & Hrun & _ & _ & Htr & Hnd & H1 & H2 & H3 & H4).
  exists rc, st'. repeat split; assumption.
Qed.

(* ================================================================== *)
(** ** Format and Device: the constructors *)
(* ================================================================== *)

Lemma display_init_run (st : state) :
  exists st',
    Display.init st = (inr {| Display.values := Log.new_address (dicts st) |}, st') /\
    replies st' = replies st /\
    asked st' = (asked st + 2)%nat /\
    trace st' = trace st ++
      [BusQuery ":DISP:ENAB?" (upcoming st 0); BusQuery ":DISP:CHAN?" (upcoming st 1)].
Proof.
  unfold upcoming.
  replace (asked st + 0)%nat with (asked st) by lia.
  replace (asked st + 1)%nat with (S (asked st)) by lia.
  eexists. split.
  { unfold Display.init. cbv beta zeta. do 4 step. reflexivity. }
  simpl.
  split; [reflexivity|]. split; [lia|].
  repeat rewrite <- app_assoc; reflexivity.
Qed.

(** The two queries and the dict every [Format(bus, char_val)] starts
    with, before the format is set. *)
Lemma format_init_prefix (char_val : pyobj) (st : state) :
  Format.init char_val st =
  (Format.data {| Format.values := Log.new_address (dicts st) |} char_val ;;
   ret {| Format.values := Log.new_address (dicts st) |})
    {| replies := replies st; asked := S (S (asked st));
       srq_arrives := srq_arrives st; waited := waited st;
       trace := trace st ++ [BusQuery ":FORM:DATA?" (replies st (asked st));
                             BusQuery ":FORM:BORD?" (replies st (S (asked st)))];
       dicts := <[Log.new_address (dicts st) :=
                    <["byte_order" := VStr (replies st (S (asked st)))]>
                      (<["data_format" := VStr (replies st (asked st))]> ∅)]> (dicts st);
       arrays := arrays st; stdout := stdout st;
        memory := memory st |}.
Proof.
  unfold Format.init. cbv beta zeta. do 4 step.
  rewrite insert_insert_eq, <- app_assoc. reflexivity.
Qed.

Lemma format_init_accepted_run (value : pyobj) (tok : string) (st : state) :
  value <> VNone ->
  ValidateFormat.data value = inr (Token tok) ->
  exists st',
    Format.init value st = (inr {| Format.values := Log.new_address (dicts st) |}, st') /\
    replies st' = replies st /\
    asked st' = (asked st + 3)%nat /\
    trace st' = trace st ++
      [BusQuery ":FORM:DATA?" (upcoming st 0);
       BusQuery ":FORM:BORD?" (upcoming st 1);
       BusWrite (":FORM:DATA" +:+ " " +:+ Py.str value);
       BusQuery ":FORM:DATA?" (upcoming st 2)] /\
    cached st' (Log.new_address (dicts st)) "data_format" = Some (VStr (upcoming st 2)) /\
    cached st' (Log.new_address (dicts st)) "byte_order" = Some (VStr (upcoming st 1)).
Proof.
  intros Hv Hf. rewrite format_init_prefix. unfold Format.data.
  rewrite (bind_ok _ _ _ _ _
             (read_write_accepted_cached_run _ _ ValidateFormat.data value Hv
                (Log.new_address (dicts st)) "data_format" tok _ Hf)).
  unfold upcoming.
  replace (asked st + 0)%nat with (asked st) by lia.
  replace (asked st + 1)%nat with (S (asked st)) by lia.
  replace (asked st + 2)%nat with (S (S (asked st))) by lia.
  eexists. split; [reflexivity|]. simpl.
  split; [reflexivity|]. split; [lia|].
  split; [rewrite <- !app_assoc; reflexivity|].
  unfold cached. simpl. rewrite !lookup_insert_eq. simpl.
  split; [apply lookup_insert_eq|].
  rewrite lookup_insert_ne by discriminate. apply lookup_insert_eq.
Qed.

(** X24.  Constructing a [Format] with an entry of the tuple of data
    formats, in any letter case: two queries, the write of the format as
    passed, and one more query; the cached ['data_format'] is the reply
    to that last query, not to the first. *)
Theorem format_init_sets_data_format (a c : string) (st : state) :
  In a ["ascii"; "asc"; "long"; "sre"; "sreal"; "dreal"; "dre"; "min"; "max"; "def"] ->
  Text.lower c = Text.lower a ->
  exists st',
    Format.init (VStr c) st
      = (inr {| Format.values := Log.new_address (dicts st) |}, st') /\
    trace st' = trace st ++
      [BusQuery ":FORM:DATA?" (upcoming st 0);
       BusQuery ":FORM:BORD?" (upcoming st 1);
       BusWrite (":FORM:DATA " +:+ c);
       BusQuery ":FORM:DATA?" (upcoming st 2)] /\
    cached st' (Log.new_address (dicts st)) "data_format" = Some (VStr (upcoming st 2)) /\
    cached st' (Log.new_address (dicts st)) "byte_order" = Some (VStr (upcoming st 1)).
Proof.
  intros Hin Hc.
  assert (Hv : ValidateFormat.data (VStr c) = inr (Token (Text.upper c))).
  { unfold ValidateFormat.data, Validate.str_tuple. cbv zeta.
    assert (Hplain : Text.plain a = true)
      by (repeat (destruct Hin as [<-|Hin]; [reflexivity|]); destruct Hin).
    rewrite (alias_found _ a c Hplain Hin Hc), upper_lower. reflexivity. }
  assert (Hp : VStr c <> VNone) by discriminate.
  destruct (format_init_accepted_run (VStr c) (Text.upper c) st Hp Hv)
    as (st' & Hrun & _ & _ & Htr & Hd & Hb).
  exists st'. repeat split; assumption.
Qed.

Lemma format_init_sets_data_format_witness :
  In "asc" ["ascii"; "asc"; "long"; "sre"; "sreal"; "dreal"; "dre"; "min"; "max"; "def"] /\
  Text.lower "ASC" = Text.lower "asc" /\
  exists st',
    Format.init (VStr "ASC") plain_state
      = (inr {| Format.values := Log.new_address (dicts plain_state) |}, st') /\
    trace st' = trace plain_state ++
      [BusQuery ":FORM:DATA?" (upcoming plain_state 0);
       BusQuery ":FORM:BORD?" (upcoming plain_state 1);
       BusWrite (":FORM:DATA " +:+ "ASC");
       BusQuery ":FORM:DATA?" (upcoming plain_state 2)] /\
    cached st' (Log.new_address (dicts plain_state)) "data_format"
      = Some (VStr (upcoming plain_state 2)) /\
    cached st' (Log.new_address (dicts plain_state)) "byte_order"
      = Some (VStr (upcoming plain_state 1)).
Proof.
  split; [simpl; tauto|]. split; [reflexivity|].
  apply (format_init_sets_data_format "asc" "ASC" plain_state);
    [simpl; tauto | reflexivity].
Defined.

(** X25.  Constructing a [Format] with a format the validator turns
    down does not raise, unlike the constructors of [Channel] and
    [Relay]: the warning is printed, the bus has seen the two queries
    only, and the object holds their replies. *)
Theorem format_init_tolerates_rejected_format
    (char_val : pyobj) (kind : error_kind) (msg : string) (st : state) :
  char_val <> VNone ->
  ValidateFormat.data char_val = inr (Error kind msg) ->
  exists st',
    Format.init char_val st
      = (inr {| Format.values := Log.new_address (dicts st) |}, st') /\
    trace st' = trace st ++ answered st [":FORM:DATA?"; ":FORM:BORD?"] /\
    stdout st' = stdout st ++ [Validate.error_text Validate.WARNING msg] /\
    dicts st' = <[Log.new_address (dicts st) :=
                    <["byte_order" := VStr (upcoming st 1)]>
                      (<["data_format" := VStr (upcoming st 0)]> ∅)]> (dicts st).
Proof.
  intros Hv Hf. rewrite format_init_prefix. unfold Format.data.
  rewrite (bind_ok _ _ _ _ _
             (read_write_rejected_run _ _ ValidateFormat.data char_val Hv
                (Some (Log.new_address (dicts st), "data_format")) kind msg _ Hf)).
  unfold answered, upcoming. cbn [imap]. unfold compose.
  replace (asked st + 0)%nat with (asked st) by lia.
  replace (asked st + 1)%nat with (S (asked st)) by lia.
  eexists. split; [reflexivity|]. simpl. repeat split.
Qed.

Lemma format_init_tolerates_rejected_format_witness :
  VInt 7 <> VNone /\
  ValidateFormat.data (VInt 7) =
    inr (Error TypeError
           ("TypeError!" +:+ nl +:+
            "Received type: " +:+ Py.class_text "int" +:+ nl +:+
            "Valid types: " +:+ Py.class_text "str")) /\
  exists st',
    Format.init (VInt 7) plain_state
      = (inr {| Format.values := Log.new_address (dicts plain_state) |}, st') /\
    trace st' = trace plain_state ++
                answered plain_state [":FORM:DATA?"; ":FORM:BORD?"] /\
    stdout st' = stdout plain_state ++
      [Validate.error_text Validate.WARNING
         ("TypeError!" +:+ nl +:+
          "Received type: " +:+ Py.class_text "int" +:+ nl +:+
          "Valid types: " +:+ Py.class_text "str")] /\
    dicts st' = <[Log.new_address (dicts plain_state) :=
                    <["byte_order" := VStr (upcoming plain_state 1)]>
                      (<["data_format" := VStr (upcoming plain_state 0)]> ∅)]>
                  (dicts plain_state).
Proof.
  split; [discriminate|]. split; [reflexivity|].
  apply (format_init_tolerates_rejected_format (VInt 7) TypeError
           ("TypeError!" +:+ nl +:+
            "Received type: " +:+ Py.class_text "int" +:+ nl +:+
            "Valid types: " +:+ Py.class_text "str") plain_state);
    [discriminate | reflexivity].
Defined.

(** X26.  Constructing a [Device] on an open bus that answers every
    query returns, whatever the answers: the bus sees fifty-three
    queries and one write, [:FORM:DATA ASC], in the order of the
    constructors (display, format, channel A, channel B, relays), and
    the two channels carry the letters A and B. *)
Theorem device_init_traffic (st : state) :
  exists dev st',
    Device.init st = (inr dev, st') /\
    trace st' = trace st ++ device_init_ops st /\
    writes (trace st') = writes (trace st) ++ [":FORM:DATA ASC"] /\
    length (queries (trace st')) = (length (queries (trace st)) + 53)%nat /\
    Channel._channel (fst (Device.cha dev)) = "A" /\
    Channel._channel (fst (Device.chb dev)) = "B".
Proof.
  destruct (display_init_run st) as (st1 & Hrun1 & Hrep1 & Hask1 & Htr1).
  assert (Hp : VStr "ASC" <> VNone) by discriminate.
  destruct (format_init_accepted_run (VStr "ASC") "ASC" st1 Hp eq_refl)
    as (st2 & Hrun2 & Hrep2 & Hask2 & Htr2 & _ & _).
  destruct (channel_init_accepted_run "A" (VStr "A") st2 eq_refl)
    as (cutsa & st3 & Hrun3 & _ & _ & _ & _ & Hrep3 & Hask3 & Htr3 & _).
  destruct (channel_init_accepted_run "B" (VStr "B") st3 eq_refl)
    as (cutsb & st4 & Hrun4 & _ & _ & _ & _ & Hrep4 & Hask4 & Htr4 & _).
  destruct (relay_control_init_run st4)
    as (rc & st5 & Hrun5 & Hrep5 & Hask5 & Htr5 & _).
  unfold Device.init.
  rewrite (bind_ok _ _ _ _ _ Hrun1), (bind_ok _ _ _ _ _ Hrun2),
    (bind_ok _ _ _ _ _ Hrun3), (bind_ok _ _ _ _ _ Hrun4), (bind_ok _ _ _ _ _ Hrun5).
  eexists. eexists. split; [reflexivity|].
  cbn [Device.cha Device.chb fst Channel._channel].
  assert (Htr : trace st5 = trace st ++ device_init_ops st).
  { rewrite Htr5, Htr4, Htr3, Htr2, Htr1.
    unfold device_init_ops, answered_from, answered, channel_init_queries, upcoming.
    rewrite Hrep4, Hrep3, Hrep2, Hrep1, Hask4, Hask3, Hask2, Hask1.
    cbn [imap app]. unfold compose. rewrite <- !app_assoc. cbn [app].
    repeat (f_equal; try (f_equal; lia)). }
  split; [exact Htr|].
  rewrite Htr. split; [|split; [|split; reflexivity]].
  - rewrite writes_app. reflexivity.
  - rewrite queries_app, length_app. reflexivity.
Qed.
